(** * Anonymous-submission relay bot: a shallow embedding of [bot.py]

    The development follows the source file top to bottom: the text and
    hashing helpers the bot borrows from the Python runtime, the five
    tables of the SQLite database, the helper coroutines over them, the
    permission checks, the per-user in-memory state and the handlers
    [start_cmd], [on_policy_callbacks], the link branch of [on_menu],
    [on_text], [on_send_buttons] and [on_moderation].

    Modelling conventions.
    - A Python [str] is a [string] holding the UTF-8 bytes of the text, so
      [s.encode("utf-8")] is the identity and the literals of the source
      appear verbatim.  [str.strip] removes every character [str.isspace]
      accepts; [str.isdigit], [int] and the regular expression's [\d]
      know the digits of every script, with the Unicode data of CPython
      3.11 (version 14.0).
    - Integers are [Z]; [None] is [option]'s [None].  SQLite takes an
      integer of 64 bits: the ids the platform delivers, the ones read
      back from the database and the ones the handlers have put into
      [USER_STATE] are such; a number a user types is checked where the
      code hands it to the database.
    - Every coroutine becomes a function over an explicit [world]: the
      database, the [USER_STATE] dictionary and the list of actions
      performed so far (messages sent or edited through the Bot API,
      commits to the database and [event_log] entries), oldest first.
      Reads of the database and queries to the platform leave no action.
      An [event_log] entry stands for the line written to the log and,
      when [BOT_OWNER_ID] is set, for the copy of it sent to that chat.
    - The messaging platform is an oracle ([platform]): it answers
      [get_chat], [get_chat_member] and every [send_*] call, and may make
      each of them raise.  Calls on the update being handled
      ([q.answer], [q.edit_message_text], [message.reply_text]) and the
      database commits are recorded and taken to succeed.
    - The dispatcher is built without [concurrent_updates], so updates are
      handled one at a time: a handler runs from start to end on the world
      left by the previous one. *)

From Stdlib Require Import ZArith NArith List String Ascii Lia Bool DecimalString.
From stdpp Require Import base gmap strings list sorting.
Import ListNotations.

Local Open Scope Z_scope.

(** ** Text helpers of the Python runtime *)

Module PyStr.

Definition bytes_of (s : string) : list N :=
  map N_of_ascii (list_ascii_of_string s).

Definition of_bytes (l : list N) : string :=
  string_of_list_ascii (map ascii_of_N l).

(** [str(n)] for an [int]. *)
Definition str (n : Z) : string := NilZero.string_of_int (Z.to_int n).

(** The characters [str.isspace] accepts, as UTF-8 byte sequences:
    U+0009..U+000D, U+001C..U+0020, U+0085, U+00A0, U+1680,
    U+2000..U+200A, U+2028, U+2029, U+202F, U+205F, U+3000. *)
Definition whitespace : list (list N) :=
  [ [9]; [10]; [11]; [12]; [13]; [28]; [29]; [30]; [31]; [32];
    [194; 133]; [194; 160]; [225; 154; 128];
    [226; 128; 128]; [226; 128; 129]; [226; 128; 130]; [226; 128; 131];
    [226; 128; 132]; [226; 128; 133]; [226; 128; 134]; [226; 128; 135];
    [226; 128; 136]; [226; 128; 137]; [226; 128; 138];
    [226; 128; 168]; [226; 128; 169]; [226; 128; 175];
    [226; 129; 159]; [227; 128; 128] ]%N.

(** [drop_prefix p l] is the rest of [l] after the prefix [p]. *)
Fixpoint drop_prefix (p l : list N) : option (list N) :=
  match p, l with
  | [], _ => Some l
  | _ :: _, [] => None
  | a :: p', b :: l' => if N.eqb a b then drop_prefix p' l' else None
  end.

Fixpoint first_match (ps : list (list N)) (l : list N) : option (list N) :=
  match ps with
  | [] => None
  | p :: ps' =>
      match drop_prefix p l with
      | Some r => Some r
      | None => first_match ps' l
      end
  end.

(** One leading whitespace character, if any, is removed. *)
Definition skip_space (l : list N) : option (list N) :=
  first_match whitespace l.

(** The same from the right end, on the reversed text. *)
Definition skip_space_rev (l : list N) : option (list N) :=
  first_match (map (@rev N) whitespace) l.

Fixpoint skip_all (skip : list N -> option (list N)) (fuel : nat)
         (l : list N) : list N :=
  match fuel with
  | O => l
  | S fuel' =>
      match skip l with
      | Some r => skip_all skip fuel' r
      | None => l
      end
  end.

Definition lstrip_bytes (l : list N) : list N :=
  skip_all skip_space (length l) l.

Definition rstrip_bytes (l : list N) : list N :=
  rev (skip_all skip_space_rev (length l) (rev l)).

(** [s.strip()] *)
Definition strip (s : string) : string :=
  of_bytes (rstrip_bytes (lstrip_bytes (bytes_of s))).

(** [len(s) < 1] *)
Definition is_empty (s : string) : bool :=
  match s with EmptyString => true | _ => false end.

Definition is_word_char (c : N) : bool :=
  ((48 <=? c)%N && (c <=? 57)%N) || ((65 <=? c)%N && (c <=? 90)%N)
  || ((97 <=? c)%N && (c <=? 122)%N) || (c =? 95)%N.

(** The code points of a text, from its UTF-8 bytes. *)
Fixpoint codepoints (l : list N) : list N :=
  match l with
  | [] => []
  | b :: r =>
      if (b <? 192)%N then b :: codepoints r
      else if (b <? 224)%N then
        match r with
        | c1 :: r1 => ((b - 192) * 64 + (c1 - 128))%N :: codepoints r1
        | [] => [b]
        end
      else if (b <? 240)%N then
        match r with
        | c1 :: c2 :: r2 =>
            ((b - 224) * 4096 + (c1 - 128) * 64 + (c2 - 128))%N :: codepoints r2
        | _ => [b]
        end
      else
        match r with
        | c1 :: c2 :: c3 :: r3 =>
            ((b - 240) * 262144 + (c1 - 128) * 4096 + (c2 - 128) * 64 + (c3 - 128))%N
            :: codepoints r3
        | _ => [b]
        end
  end.

(** The zero of every set of decimal digits (general category Nd; each set
    is ten consecutive code points), as in the Unicode data of CPython
    3.11, version 14.0: ASCII, Arabic-Indic, Devanagari, fullwidth and so
    on. *)
Definition decimal_zeros : list N :=
  [ 48; 1632; 1776; 1984; 2406; 2534; 2662; 2790;
    2918; 3046; 3174; 3302; 3430; 3558; 3664; 3792;
    3872; 4160; 4240; 6112; 6160; 6470; 6608; 6784;
    6800; 6992; 7088; 7232; 7248; 42528; 43216; 43264;
    43472; 43504; 43600; 44016; 65296; 66720; 68912; 69734;
    69872; 69942; 70096; 70384; 70736; 70864; 71248; 71360;
    71472; 71904; 72016; 72784; 73040; 73120; 92768; 92864;
    93008; 120782; 120792; 120802; 120812; 120822; 123200; 123632;
    125264; 130032 ]%N.

(** The characters that are digits without being decimal digits
    (superscripts, circled digits and the like), as ranges. *)
Definition other_digits : list (N * N) :=
  [ (178, 179); (185, 185); (4969, 4977); (6618, 6618); (8304, 8304);
    (8308, 8313); (8320, 8329); (9312, 9320); (9332, 9340); (9352, 9360);
    (9450, 9450); (9461, 9469); (9471, 9471); (10102, 10110); (10112, 10120);
    (10122, 10130); (68160, 68163); (69216, 69224); (69714, 69722); (127232, 127242) ]%N.

(** The value of a decimal digit; [None] for any other character. *)
Definition decimal_value (c : N) : option N :=
  match List.find (fun z => (z <=? c)%N && (c <? z + 10)%N) decimal_zeros with
  | Some z => Some (c - z)%N
  | None => None
  end.

(** [c.isdecimal()], which is also the regular expression's [\d]. *)
Definition is_decimal (c : N) : bool :=
  match decimal_value c with Some _ => true | None => false end.

(** [c.isdigit()] *)
Definition is_digit (c : N) : bool :=
  is_decimal c || existsb (fun r => (fst r <=? c)%N && (c <=? snd r)%N) other_digits.

(** [s.isdigit()]: not empty, and every character a digit. *)
Definition isdigit (s : string) : bool :=
  match codepoints (bytes_of s) with
  | [] => false
  | l => forallb is_digit l
  end.

(** [s.startswith(p)] *)
Definition startswith (p s : string) : bool :=
  match drop_prefix (bytes_of p) (bytes_of s) with
  | Some _ => true
  | None => false
  end.

(** [s[1:]] *)
Definition tail (s : string) : string :=
  match s with EmptyString => EmptyString | String _ r => r end.

(** [s[:n]] *)
Fixpoint take (n : nat) (s : string) : string :=
  match n, s with
  | S n', String c r => String c (take n' r)
  | _, _ => EmptyString
  end.

(** [sys.get_int_max_str_digits()], at its default. *)
Definition int_max_str_digits : nat := 4300.

(** [int(s)] for a text [str.isdigit] accepts: the number its decimal
    digits write, of whatever scripts; [None] where [int] raises
    [ValueError], which it does on a digit that is not a decimal digit and
    on more digits than the interpreter converts. *)
Definition int_of_digits (s : string) : option Z :=
  match codepoints (bytes_of s) with
  | [] => None
  | l =>
      if (int_max_str_digits <? length l)%nat then None
      else fold_left (fun acc c =>
                        match acc, decimal_value c with
                        | Some a, Some d => Some (10 * a + Z.of_N d)
                        | _, _ => None
                        end) l (Some 0)
  end.

(** [x or ""] *)
Definition or_empty (o : option string) : string :=
  match o with Some s => s | None => EmptyString end.

End PyStr.

(** ** [hashlib.sha256] (FIPS 180-4) on byte lists *)

Module Hashlib.
Local Open Scope N_scope.

Definition w32 (x : N) : N := x mod 4294967296.
Definition add32 (x y : N) : N := w32 (x + y).
Definition not32 (x : N) : N := N.lxor x 4294967295.
Definition rotr (n x : N) : N :=
  N.lor (N.shiftr x n) (w32 (N.shiftl x (32 - n))).

Definition Ch (x y z : N) : N := N.lxor (N.land x y) (N.land (not32 x) z).
Definition Maj (x y z : N) : N :=
  N.lxor (N.lxor (N.land x y) (N.land x z)) (N.land y z).
Definition Sigma0 (x : N) : N :=
  N.lxor (N.lxor (rotr 2 x) (rotr 13 x)) (rotr 22 x).
Definition Sigma1 (x : N) : N :=
  N.lxor (N.lxor (rotr 6 x) (rotr 11 x)) (rotr 25 x).
Definition sigma0 (x : N) : N :=
  N.lxor (N.lxor (rotr 7 x) (rotr 18 x)) (N.shiftr x 3).
Definition sigma1 (x : N) : N :=
  N.lxor (N.lxor (rotr 17 x) (rotr 19 x)) (N.shiftr x 10).

(** The first 64 primes. *)
Definition is_prime (n : nat) : bool :=
  forallb (fun d => negb (Nat.eqb (Nat.modulo n d) 0)) (seq 2 (n - 2)).
Definition primes : list N := map N.of_nat (List.filter is_prime (seq 2 310)).

(** The integer cube root, one bit at a time from bit [n - 1] down. *)
Fixpoint cbrt_bits (n : nat) (x r : N) : N :=
  match n with
  | O => r
  | S n' =>
      let r' := r + N.shiftl 1 (N.of_nat n') in
      cbrt_bits n' x (if r' * r' * r' <=? x then r' else r)
  end.

(** The round constants: the first 32 bits of the fractional parts of the
    cube roots of the primes. *)
Definition K : list N :=
  map (fun p => w32 (cbrt_bits 36 (N.shiftl p 96) 0)) primes.

(** The initial hash value: the same of the square roots of the first
    eight primes. *)
Definition H0 : list N :=
  map (fun p => w32 (N.sqrt (N.shiftl p 64))) (firstn 8 primes).

(** Big-endian bytes of [x], [n] of them. *)
Fixpoint be_bytes (n : nat) (x : N) : list N :=
  match n with
  | O => []
  | S n' => be_bytes n' (x / 256) ++ [x mod 256]
  end.

Definition pad (msg : list N) : list N :=
  let len := N.of_nat (length msg) in
  let zeros := (119 - len mod 64) mod 64 in
  msg ++ [128] ++ repeat 0 (N.to_nat zeros) ++ be_bytes 8 (8 * len).

Fixpoint words (fuel : nat) (l : list N) : list N :=
  match fuel, l with
  | S fuel', a :: b :: c :: d :: r =>
      (((a * 256 + b) * 256 + c) * 256 + d) :: words fuel' r
  | _, _ => []
  end.

Fixpoint blocks (fuel : nat) (ws : list N) : list (list N) :=
  match fuel, ws with
  | S fuel', _ :: _ => firstn 16 ws :: blocks fuel' (skipn 16 ws)
  | _, _ => []
  end.

(** The message schedule, newest word first. *)
Fixpoint schedule (n : nat) (rw : list N) : list N :=
  match n with
  | O => rw
  | S n' =>
      let w := add32 (add32 (sigma1 (nth 1 rw 0)) (nth 6 rw 0))
                     (add32 (sigma0 (nth 14 rw 0)) (nth 15 rw 0)) in
      schedule n' (w :: rw)
  end.

Definition round (st : list N) (kw : N * N) : list N :=
  match st with
  | [a; b; c; d; e; f; g; h] =>
      let t1 := add32 (add32 (add32 h (Sigma1 e)) (Ch e f g))
                      (add32 (fst kw) (snd kw)) in
      let t2 := add32 (Sigma0 a) (Maj a b c) in
      [add32 t1 t2; a; b; c; add32 d t1; e; f; g]
  | _ => st
  end.

Definition compress (h : list N) (block : list N) : list N :=
  let w := rev (schedule 48 (rev block)) in
  let st := fold_left round (combine K w) h in
  map (fun p => add32 (fst p) (snd p)) (combine h st).

(** [hashlib.sha256(msg).digest()] *)
Definition sha256 (msg : list N) : list N :=
  let p := pad msg in
  let ws := words (length p) p in
  concat (map (be_bytes 4) (fold_left compress (blocks (length ws) ws) H0)).

Definition hex_digit (x : N) : N := if x <? 10 then 48 + x else 87 + x.

(** [hashlib.sha256(msg).hexdigest()] *)
Definition sha256_hex (msg : list N) : string :=
  PyStr.of_bytes
    (concat (map (fun b => [hex_digit (b / 16); hex_digit (b mod 16)])
                 (sha256 msg))).
End Hashlib.

(** ** [base64.b32encode] (RFC 4648) *)

Module Base64.
Local Open Scope N_scope.

Definition alphabet : list N :=
  PyStr.bytes_of "ABCDEFGHIJKLMNOPQRSTUVWXYZ234567".

(** [n] bits of [x], most significant first. *)
Fixpoint bits (n : nat) (x : N) : list bool :=
  match n with
  | O => []
  | S n' => bits n' (x / 2) ++ [N.odd x]
  end.

Definition of_bits (l : list bool) : N :=
  fold_left (fun acc (b : bool) => 2 * acc + (if b then 1 else 0)) l 0.

Fixpoint quintets (fuel : nat) (l : list bool) : list N :=
  match fuel, l with
  | S fuel', _ :: _ =>
      let q := firstn 5 l in
      of_bits (q ++ repeat false (5 - length q)) :: quintets fuel' (skipn 5 l)
  | _, _ => []
  end.

Definition b32encode (data : list N) : list N :=
  let bs := concat (map (bits 8) data) in
  let cs := map (fun q => nth (N.to_nat q) alphabet 0) (quintets (length bs) bs) in
  cs ++ repeat 61 ((8 - length cs mod 8) mod 8)%nat.

Fixpoint drop_eq (l : list N) : list N :=
  match l with
  | c :: r => if c =? 61 then drop_eq r else l
  | [] => []
  end.

(** [s.rstrip("=")] *)
Definition rstrip_eq (l : list N) : list N := rev (drop_eq (rev l)).
End Base64.

(** ** Configuration read at start-up *)

Definition nl : string := String (ascii_of_nat 10) EmptyString.

Record config := {
  BOT_OWNER_ID : Z;            (* 0 when unset *)
  DEEPLINK_SALT : string;
  policy_file : option string  (* contents of privacy_anon.md, if present *)
}.

Definition STATUS_PENDING : string := "pending".
Definition STATUS_SENT : string := "sent".
Definition STATUS_REJECTED : string := "rejected".

Definition load_policy_text_and_hash (file : option string) : string * string :=
  match file with
  | None =>
      let txt := "*Политика конфиденциальности и гарантия анонимности*" +:+ nl +:+ nl
                 +:+ "Файл `privacy_anon.md` не найден рядом с bot.py." +:+ nl
                 +:+ "Создай его и перезапусти бота." in
      (txt, Hashlib.sha256_hex (PyStr.bytes_of txt))
  | Some txt => (txt, Hashlib.sha256_hex (PyStr.bytes_of txt))
  end.

Definition POLICY_TEXT (cfg : config) : string :=
  fst (load_policy_text_and_hash (policy_file cfg)).
Definition POLICY_HASH (cfg : config) : string :=
  snd (load_policy_text_and_hash (policy_file cfg)).

(** ** The database *)

Record consent_row := {
  accepted : Z;
  policy_hash : string;
  accepted_at : string
}.

Record channel_row := {
  username : option string;
  owner_user_id : Z;
  moderation : Z;
  reviewers_mode : string;     (* owner | admins | selected *)
  ch_created_at : string
}.

Record deeplink_row := {
  dl_chat_id : Z;
  dl_created_at : string
}.

Record submission_row := {
  s_chat_id : Z;
  s_sender_user_id : Z;
  s_content_type : string;
  s_text : option string;
  s_file_id : option string;
  s_status : string;
  s_created_at : string
}.

(** One finite map per table, keyed by the table's primary key. *)
Record database := {
  user_consents : gmap Z consent_row;
  channels : gmap Z channel_row;
  deeplinks : gmap string deeplink_row;
  channel_reviewers : gmap (Z * Z) string;
  submissions : gmap Z submission_row
}.

(** SQLite stores an integer in 64 bits; the driver raises [OverflowError]
    when it is given another one to bind. *)
Definition sqlite_int (n : Z) : bool :=
  (- 2 ^ 63 <=? n) && (n <? 2 ^ 63).

Definition empty_db : database :=
  {| user_consents := ∅; channels := ∅; deeplinks := ∅;
     channel_reviewers := ∅; submissions := ∅ |}.

(** *** Consent helpers *)

Definition get_user_consent (d : database) (user_id : Z) : option (Z * string) :=
  match user_consents d !! user_id with
  | Some row => Some (accepted row, policy_hash row)
  | None => None
  end.

Definition set_user_consent (now : string) (user_id accepted : Z)
           (policy_hash : string) (d : database) : database :=
  {| user_consents :=
       <[user_id := {| accepted := accepted; policy_hash := policy_hash;
                       accepted_at := now |}]> (user_consents d);
     channels := channels d; deeplinks := deeplinks d;
     channel_reviewers := channel_reviewers d; submissions := submissions d |}.

Definition user_is_allowed (cfg : config) (d : database) (user_id : Z) : bool :=
  match get_user_consent d user_id with
  | None => false
  | Some (accepted, ph) => (accepted =? 1) && String.eqb ph (POLICY_HASH cfg)
  end.

(** *** Channel, reviewer, deeplink and submission helpers *)

Definition upsert_channel (now : string) (chat_id : Z) (username : option string)
           (owner_user_id moderation : Z) (d : database) : database :=
  {| user_consents := user_consents d;
     channels :=
       match channels d !! chat_id with
       | None =>
           <[chat_id := {| username := username; owner_user_id := owner_user_id;
                           moderation := moderation; reviewers_mode := "owner";
                           ch_created_at := now |}]> (channels d)
       | Some {| moderation := old_moderation; reviewers_mode := old_mode;
                 ch_created_at := old_created_at |} =>
           <[chat_id := {| username := username; owner_user_id := owner_user_id;
                           moderation := old_moderation;
                           reviewers_mode := old_mode;
                           ch_created_at := old_created_at |}]> (channels d)
       end;
     deeplinks := deeplinks d;
     channel_reviewers := channel_reviewers d; submissions := submissions d |}.

Definition get_channel_by_chat_id (d : database) (chat_id : Z) : option channel_row :=
  channels d !! chat_id.

Definition set_channel_moderation (chat_id moderation : Z) (d : database) : database :=
  {| user_consents := user_consents d;
     channels :=
       alter (fun r => {| username := username r; owner_user_id := owner_user_id r;
                          moderation := moderation;
                          reviewers_mode := reviewers_mode r;
                          ch_created_at := ch_created_at r |}) chat_id (channels d);
     deeplinks := deeplinks d;
     channel_reviewers := channel_reviewers d; submissions := submissions d |}.

Definition set_reviewers_mode (chat_id : Z) (mode : string) (d : database) : database :=
  {| user_consents := user_consents d;
     channels :=
       alter (fun r => {| username := username r; owner_user_id := owner_user_id r;
                          moderation := moderation r;
                          reviewers_mode := mode;
                          ch_created_at := ch_created_at r |}) chat_id (channels d);
     deeplinks := deeplinks d;
     channel_reviewers := channel_reviewers d; submissions := submissions d |}.

(** [INSERT OR IGNORE]: an existing row keeps its [created_at].  The
    [user_id] is one SQLite takes ([sqlite_int]); the handler that passes
    a typed number checks it, as the driver does when it binds it. *)
Definition add_reviewer (now : string) (chat_id user_id : Z) (d : database) : database :=
  {| user_consents := user_consents d; channels := channels d;
     deeplinks := deeplinks d;
     channel_reviewers :=
       match channel_reviewers d !! (chat_id, user_id) with
       | Some _ => channel_reviewers d
       | None => <[(chat_id, user_id) := now]> (channel_reviewers d)
       end;
     submissions := submissions d |}.

(** [DELETE], with a [user_id] SQLite takes, as for [add_reviewer]. *)
Definition remove_reviewer (chat_id user_id : Z) (d : database) : database :=
  {| user_consents := user_consents d; channels := channels d;
     deeplinks := deeplinks d;
     channel_reviewers := delete (chat_id, user_id) (channel_reviewers d);
     submissions := submissions d |}.

(** The [user_id]s of the reviewers of [chat_id] (the source sorts them;
    only membership is ever used). *)
Definition list_reviewers (d : database) (chat_id : Z) : list Z :=
  map snd (filter (fun k => fst k = chat_id)
                  (map fst (map_to_list (channel_reviewers d)))).

(** [INSERT OR REPLACE] *)
Definition create_deeplink (now : string) (code : string) (chat_id : Z)
           (d : database) : database :=
  {| user_consents := user_consents d; channels := channels d;
     deeplinks := <[code := {| dl_chat_id := chat_id; dl_created_at := now |}]> (deeplinks d);
     channel_reviewers := channel_reviewers d; submissions := submissions d |}.

Definition resolve_deeplink (d : database) (code : string) : option Z :=
  match deeplinks d !! code with
  | Some row => Some (dl_chat_id row)
  | None => None
  end.

(** The largest [id] in the table, 0 when it is empty.  Rows are never
    deleted, so this is also what AUTOINCREMENT remembers. *)
Definition last_id (m : gmap Z submission_row) : Z :=
  map_fold (fun k _ acc => Z.max k acc) 0 m.

(** [cur.lastrowid] of the insert. *)
Definition next_id (d : database) : Z := last_id (submissions d) + 1.

Definition create_submission (now : string) (chat_id sender_user_id : Z)
           (content_type : string) (text file_id : option string)
           (status : string) (d : database) : database :=
  {| user_consents := user_consents d; channels := channels d;
     deeplinks := deeplinks d; channel_reviewers := channel_reviewers d;
     submissions :=
       <[next_id d := {| s_chat_id := chat_id; s_sender_user_id := sender_user_id;
                         s_content_type := content_type; s_text := text;
                         s_file_id := file_id; s_status := status;
                         s_created_at := now |}]> (submissions d) |}.

Definition get_submission (d : database) (sub_id : Z) : option submission_row :=
  submissions d !! sub_id.

Definition set_submission_status (sub_id : Z) (status : string) (d : database) : database :=
  {| user_consents := user_consents d; channels := channels d;
     deeplinks := deeplinks d; channel_reviewers := channel_reviewers d;
     submissions :=
       alter (fun r => {| s_chat_id := s_chat_id r;
                          s_sender_user_id := s_sender_user_id r;
                          s_content_type := s_content_type r; s_text := s_text r;
                          s_file_id := s_file_id r; s_status := status;
                          s_created_at := s_created_at r |}) sub_id (submissions d) |}.

(** ** Helpers *)

(** [re.fullmatch(r"[A-Za-z0-9_]{5,}", s)] *)
Definition is_handle (l : list N) : bool :=
  forallb PyStr.is_word_char l && (5 <=? length l)%nat.

(** [$] matches at the end of the text and before a final newline. *)
Definition re_end (l : list N) : list N :=
  match rev l with
  | 10%N :: r => rev r
  | _ => l
  end.

(** [CHANNEL_INPUT_RE.match(s)] for
    [^@?[A-Za-z0-9_]{5,}$|^-100\d{5,}$]; [\d] is any decimal digit. *)
Definition CHANNEL_INPUT_RE_match (s : string) : bool :=
  let l := re_end (PyStr.bytes_of s) in
  is_handle (match l with 64%N :: r => r | _ => l end)
  || match l with
     | 45%N :: 49%N :: 48%N :: 48%N :: r =>
         forallb PyStr.is_decimal (PyStr.codepoints r)
         && (5 <=? length (PyStr.codepoints r))%nat
     | _ => false
     end.

Definition normalize_channel_input (s : string) : string :=
  let s := PyStr.strip s in
  if PyStr.startswith "@" s then s
  else if PyStr.isdigit s || (PyStr.startswith "-" s && PyStr.isdigit (PyStr.tail s))
  then s
  else if is_handle (PyStr.bytes_of s) then "@" +:+ s
  else s.

Definition make_code_for_chat (cfg : config) (chat_id : Z) : string :=
  let raw := PyStr.bytes_of (PyStr.str chat_id +:+ ":" +:+ DEEPLINK_SALT cfg) in
  let digest := Hashlib.sha256 raw in
  let b32 := PyStr.of_bytes (Base64.rstrip_eq (Base64.b32encode digest)) in
  PyStr.take 20 b32.

(** ** The user interface, as far as the handlers below use it *)

Inductive keyboard :=
| main_menu
| back_to_menu
| confirm_send_kb
| ticket_kb (sub_id : Z)
| policy_kb
| link_back_kb (chat_id : Z).   (* the single "back" button under a link *)

Inductive media_kind := photo | video | document | audio | voice.

(** What a [context.bot.send_*] call carries. *)
Inductive payload :=
| message (text : string)
| media (kind : media_kind) (file_id : option string) (caption : option string).

(** A pending item: [{"content_type": .., "text": .., "file_id": ..}]. *)
Record pending_content := {
  content_type : string;
  text : option string;
  file_id : option string
}.

(** ** The messaging platform *)

Inductive ChatMemberStatus :=
| OWNER | ADMINISTRATOR | MEMBER | RESTRICTED | LEFT | BANNED.

(** The outcome of a query: a value, a [BadRequest] or [Forbidden] with its
    text, or any other exception with its text. *)
Inductive api_result (A : Type) :=
| Ok (a : A)
| Refused (e : string)
| Failed (e : string).
Arguments Ok {A} a.
Arguments Refused {A} e.
Arguments Failed {A} e.

Record platform := {
  now : string;                 (* dt.datetime.now(dt.UTC).isoformat() *)
  bot_id : Z;
  bot_username : string;
  get_chat : string -> api_result (Z * option string);
  get_chat_member : Z -> Z -> api_result ChatMemberStatus;
  send_error : Z -> payload -> option string;   (* None: delivered *)
  markdown_error : option string                (* None: the policy renders *)
}.

(** ** Permissions *)

Inductive bind_verdict :=
| bind_ok (chat_id : Z) (username : option string)  (* (True, "OK", chat_id, username) *)
| bind_refused (reason : string).                   (* (False, reason, None, None) *)

Inductive raising (A : Type) :=
| Returned (a : A)
| Raised (e : string).
Arguments Returned {A} a.
Arguments Raised {A} e.

Definition verify_bind (env : platform) (channel_input : string) (user_id : Z)
  : raising bind_verdict :=
  match get_chat env channel_input with
  | Refused e =>
      Returned (bind_refused
        ("Не могу получить канал. Проверь @username/chat_id и доступ. (" +:+ e +:+ ")"))
  | Failed e => Raised e
  | Ok (chat_id, username) =>
      match get_chat_member env chat_id (bot_id env) with
      | Refused e =>
          Returned (bind_refused ("Не могу проверить права бота. (" +:+ e +:+ ")"))
      | Failed e => Raised e
      | Ok bot_member =>
          match bot_member with
          | ADMINISTRATOR =>
              match get_chat_member env chat_id user_id with
              | Refused e =>
                  Returned (bind_refused ("Не могу проверить владельца. (" +:+ e +:+ ")"))
              | Failed e => Raised e
              | Ok user_member =>
                  match user_member with
                  | OWNER => Returned (bind_ok chat_id username)
                  | _ =>
                      Returned (bind_refused
                        "Привязать канал может только владелец (creator), не админ.")
                  end
              end
          | _ =>
              Returned (bind_refused
                "Бот не администратор канала. Выдай боту админку (права на постинг).")
          end
      end
  end.

Definition ensure_registered_channel (env : platform) (d : database)
           (channel_input : string) : option Z :=
  match get_chat env channel_input with
  | Ok (chat_id, _) =>
      match get_channel_by_chat_id d chat_id with
      | Some _ => Some chat_id
      | None => None
      end
  | _ => None
  end.

Definition can_moderate (env : platform) (d : database) (chat_id user_id : Z) : bool :=
  match get_channel_by_chat_id d chat_id with
  | None => false
  | Some row =>
      if user_id =? owner_user_id row then true
      else if String.eqb (reviewers_mode row) "owner" then false
      else if String.eqb (reviewers_mode row) "selected"
      then bool_decide (user_id ∈ list_reviewers d chat_id)
      else if String.eqb (reviewers_mode row) "admins"
      then match get_chat_member env chat_id user_id with
           | Ok ADMINISTRATOR | Ok OWNER => true
           | _ => false
           end
      else false
  end.

(** ** The world a handler runs in *)

(** An entry of [USER_STATE]. *)
Record user_state := {
  mode : option string;          (* send_pick_channel | send_wait_content | ctl_bind_wait | rv_add_wait | rv_del_wait *)
  selected_chat_id : option Z;
  pending : option pending_content;
  rv_chat_id : option Z
}.

(** The statements the helpers above commit. *)
Inductive db_write :=
| w_set_user_consent (user_id accepted : Z) (policy_hash : string)
| w_upsert_channel (chat_id : Z) (username : option string) (owner_user_id moderation : Z)
| w_add_reviewer (chat_id user_id : Z)
| w_remove_reviewer (chat_id user_id : Z)
| w_create_deeplink (code : string) (chat_id : Z)
| w_create_submission (chat_id sender_user_id : Z) (content_type : string)
                      (text file_id : option string) (status : string)
| w_set_submission_status (sub_id : Z) (status : string).

Definition apply_write (now : string) (w : db_write) (d : database) : database :=
  match w with
  | w_set_user_consent u a h => set_user_consent now u a h d
  | w_upsert_channel c n o m => upsert_channel now c n o m d
  | w_add_reviewer c u => add_reviewer now c u d
  | w_remove_reviewer c u => remove_reviewer c u d
  | w_create_deeplink code c => create_deeplink now code c d
  | w_create_submission c u ct t f s => create_submission now c u ct t f s d
  | w_set_submission_status i s => set_submission_status i s d
  end.

(** What a handler does to the outside, in the order it does it. *)
Inductive action :=
| answer (alert : option string)                         (* q.answer(..) *)
| edit_message_text (text : string) (kb : option keyboard)
| reply_text (text : string) (kb : option keyboard)
| reply_markdown (text : string) (kb : option keyboard)  (* parse_mode=MARKDOWN_V2 *)
| send (chat_id : Z) (p : payload) (kb : option keyboard) (* context.bot.send_* *)
| commit (w : db_write)
| event_log (text : string).   (* logger.info, and a best-effort copy to BOT_OWNER_ID *)

Record world := {
  db : database;
  USER_STATE : gmap Z user_state;
  trace : list action
}.

Definition M (A : Type) : Type := world -> A * world.

Definition ret {A} (a : A) : M A := fun w => (a, w).
Definition bind {A B} (m : M A) (k : A -> M B) : M B :=
  fun w => k (fst (m w)) (snd (m w)).

Declare Scope bot_scope.
Delimit Scope bot_scope with bot.
Notation "x <- m ;; k" := (bind m (fun x => k))
  (at level 100, m at next level, right associativity) : bot_scope.
Notation "m ;; k" := (bind m (fun _ => k))
  (at level 100, right associativity) : bot_scope.
Local Open Scope bot_scope.

Definition perform (a : action) : M unit :=
  fun w => (tt, {| db := db w; USER_STATE := USER_STATE w; trace := trace w ++ [a] |}).

Definition read_db : M database := fun w => (db w, w).

(** A helper that writes: the statement runs and is committed. *)
Definition exec (env : platform) (q : db_write) : M unit :=
  fun w => (tt, {| db := apply_write (now env) q (db w);
                   USER_STATE := USER_STATE w;
                   trace := trace w ++ [commit q] |}).

(** [context.bot.send_*(chat_id, ..)]: the call is made; the result says
    whether it raised. *)
Definition bot_send (env : platform) (chat_id : Z) (p : payload)
           (kb : option keyboard) : M (option string) :=
  perform (send chat_id p kb) ;; ret (send_error env chat_id p).

(** *** In-memory state *)

Definition fresh_state : user_state :=
  {| mode := None; selected_chat_id := None; pending := None; rv_chat_id := None |}.

(** [st(uid)]: [USER_STATE.setdefault(uid, {...})] *)
Definition st (uid : Z) : M user_state :=
  fun w =>
    match USER_STATE w !! uid with
    | Some s => (s, w)
    | None => (fresh_state,
               {| db := db w; USER_STATE := <[uid := fresh_state]> (USER_STATE w);
                  trace := trace w |})
    end.

(** Assignments to the dictionary [st(uid)] returned. *)
Definition update_st (uid : Z) (f : user_state -> user_state) : M unit :=
  s <- st uid ;;
  fun w => (tt, {| db := db w; USER_STATE := <[uid := f s]> (USER_STATE w);
                   trace := trace w |}).

Definition set_mode (m : option string) (s : user_state) : user_state :=
  {| mode := m; selected_chat_id := selected_chat_id s;
     pending := pending s; rv_chat_id := rv_chat_id s |}.
Definition set_selected_chat_id (c : option Z) (s : user_state) : user_state :=
  {| mode := mode s; selected_chat_id := c;
     pending := pending s; rv_chat_id := rv_chat_id s |}.
Definition set_pending (p : option pending_content) (s : user_state) : user_state :=
  {| mode := mode s; selected_chat_id := selected_chat_id s;
     pending := p; rv_chat_id := rv_chat_id s |}.
Definition set_rv_chat_id (c : option Z) (s : user_state) : user_state :=
  {| mode := mode s; selected_chat_id := selected_chat_id s;
     pending := pending s; rv_chat_id := c |}.

Definition reset_send (uid : Z) : M unit :=
  update_st uid (fun s => set_pending None (set_selected_chat_id None (set_mode None s))).

(** Truth value of an optional integer: [None] and [0] are false. *)
Definition truthy (o : option Z) : bool :=
  match o with Some z => negb (z =? 0) | None => false end.

(** ** Consent gate *)

Definition ensure_consent_or_show (cfg : config) (env : platform) (uid : Z) : M bool :=
  if uid =? 0 then ret false else
  d <- read_db ;;
  if user_is_allowed cfg d uid then ret true else
  perform (reply_markdown (POLICY_TEXT cfg) (Some policy_kb)) ;;
  match markdown_error env with
  | None => ret false
  | Some e =>
      perform (reply_text
            ("Не могу отобразить политику (ошибка форматирования MarkdownV2). "
             +:+ "Проверь privacy_anon.md." +:+ nl +:+ nl +:+ "Тех. ошибка: " +:+ e) None) ;;
      ret false
  end.

(** ** Core actions *)

Definition caption_of (text : string) : option string :=
  if PyStr.is_empty text then None else Some text.

Definition post_to_channel (env : platform) (chat_id : Z) (p : pending_content)
  : M (option string) :=
  let ctype := content_type p in
  let text := PyStr.strip (PyStr.or_empty (text p)) in
  let fid := file_id p in
  if String.eqb ctype "text" then bot_send env chat_id (message text) None
  else if String.eqb ctype "photo" then bot_send env chat_id (media photo fid (caption_of text)) None
  else if String.eqb ctype "video" then bot_send env chat_id (media video fid (caption_of text)) None
  else if String.eqb ctype "document" then bot_send env chat_id (media document fid (caption_of text)) None
  else if String.eqb ctype "audio" then bot_send env chat_id (media audio fid (caption_of text)) None
  else if String.eqb ctype "voice" then bot_send env chat_id (media voice fid (caption_of text)) None
  else bot_send env chat_id (message text) None.

Definition send_ticket_to_owner (env : platform) (owner_user_id sub_id : Z)
           (p : pending_content) : M unit :=
  let text_preview := PyStr.strip (PyStr.or_empty (text p)) in
  let ctype := content_type p in
  let header := "🆕 На проверку #" +:+ PyStr.str sub_id +:+ nl +:+ "Тип: " +:+ ctype in
  let header :=
    if PyStr.is_empty text_preview then header
    else header +:+ nl +:+ nl +:+ "Текст/подпись:" +:+ nl +:+ text_preview in
  let kb := Some (ticket_kb sub_id) in
  (if String.eqb ctype "text" then bot_send env owner_user_id (message header) kb
   else if String.eqb ctype "photo" then bot_send env owner_user_id (media photo (file_id p) (Some header)) kb
   else if String.eqb ctype "video" then bot_send env owner_user_id (media video (file_id p) (Some header)) kb
   else if String.eqb ctype "document" then bot_send env owner_user_id (media document (file_id p) (Some header)) kb
   else if String.eqb ctype "audio" then bot_send env owner_user_id (media audio (file_id p) (Some header)) kb
   else if String.eqb ctype "voice" then bot_send env owner_user_id (media voice (file_id p) (Some header)) kb
   else bot_send env owner_user_id (message header) kb) ;;
  ret tt.

(** [create_submission] returns the new row's [id]. *)
Definition create_submission_id (env : platform) (chat_id sender_user_id : Z)
           (content_type : string) (text file_id : option string)
           (status : string) : M Z :=
  d <- read_db ;;
  exec env (w_create_submission chat_id sender_user_id content_type text file_id status) ;;
  ret (next_id d).

(** ** Handlers *)

(** The callback data of the buttons handled below. *)
Inductive callback_data :=
| policy_accept
| policy_decline
| send_confirm
| send_cancel
| mod_ok (sub_id : Z)     (* "mod_ok:{sub_id}" *)
| mod_no (sub_id : Z)     (* "mod_no:{sub_id}" *)
| ch_link (chat_id : Z).  (* "ch_link:{chat_id}" *)

Definition start_cmd (cfg : config) (env : platform) (uid : Z) (args : list string)
  : M unit :=
  ok <- ensure_consent_or_show cfg env uid ;;
  if negb ok then ret tt else
  let code := match args with a :: _ => PyStr.strip a | [] => EmptyString end in
  d <- read_db ;;
  if negb (PyStr.is_empty code) && truthy (resolve_deeplink d code) then
    update_st uid (set_selected_chat_id (resolve_deeplink d code)) ;;
    perform (reply_text "Канал выбран по ссылке. Нажми «Отправить»." (Some main_menu))
  else perform (reply_text "Меню:" (Some main_menu)).

(** The edit of the policy message is taken to succeed, so the
    [reply_text] of the [except] branch does not appear. *)
Definition on_policy_callbacks (cfg : config) (env : platform) (uid : Z)
           (data : callback_data) : M unit :=
  perform (answer None) ;;
  match data with
  | policy_accept =>
      exec env (w_set_user_consent uid 1 (POLICY_HASH cfg)) ;;
      perform (event_log "Пользователь принял политику (без идентификации).") ;;
      perform (edit_message_text "✅ Принято. Продолжаем." (Some main_menu))
  | policy_decline =>
      exec env (w_set_user_consent uid 0 (POLICY_HASH cfg)) ;;
      perform (event_log "Пользователь отказался от политики (без идентификации).") ;;
      perform (edit_message_text "❌ Ок. Для использования бота нужно принять политику." None)
  | _ => ret tt
  end.

(** The [ch_link:] branch of [on_menu]: the owner asks for the channel's link. *)
Definition on_menu_ch_link (cfg : config) (env : platform) (uid chat_id : Z) : M unit :=
  ok <- ensure_consent_or_show cfg env uid ;;
  if negb ok then ret tt else
  perform (answer None) ;;
  d <- read_db ;;
  match get_channel_by_chat_id d chat_id with
  | Some row =>
      if owner_user_id row =? uid then
        let code := make_code_for_chat cfg chat_id in
        exec env (w_create_deeplink code chat_id) ;;
        perform (edit_message_text
                   ("Ссылка для отправки в этот канал:" +:+ nl
                    +:+ "https://t.me/" +:+ bot_username env +:+ "?start=" +:+ code +:+ nl +:+ nl
                    +:+ "Пользователь перейдёт по ссылке → бот запомнит канал → «Отправить».")
                   (Some (link_back_kb chat_id))) ;;
        perform (event_log ("Сгенерирована ссылка: channel=" +:+ PyStr.str chat_id))
      else perform (answer (Some "Нет доступа"))
  | None => perform (answer (Some "Нет доступа"))
  end.

Definition is_mode (m : string) (s : user_state) : bool :=
  match mode s with Some m' => String.eqb m' m | None => false end.

Definition rv_chat_or_0 (s : user_state) : Z :=
  match rv_chat_id s with Some c => c | None => 0 end.

Definition on_text (cfg : config) (env : platform) (uid : Z) (message_text : string)
  : M (raising unit) :=
  ok <- ensure_consent_or_show cfg env uid ;;
  if negb ok then ret (Returned tt) else
  s <- st uid ;;
  let text := PyStr.strip message_text in
  d <- read_db ;;
  (* manage selected reviewers add/del *)
  if is_mode "rv_add_wait" s || is_mode "rv_del_wait" s then
    let chat_id := rv_chat_or_0 s in
    match get_channel_by_chat_id d chat_id with
    | Some row =>
        if owner_user_id row =? uid then
          if negb (PyStr.isdigit text) then
            perform (reply_text "Нужен числовой user_id." None) ;; ret (Returned tt)
          else
            match PyStr.int_of_digits text with
            | None => ret (Raised "ValueError")          (* int(text) *)
            | Some target =>
                if negb (sqlite_int target) then
                  ret (Raised "OverflowError")           (* the statement is not run *)
                else
                  (if is_mode "rv_add_wait" s then
                     exec env (w_add_reviewer chat_id target) ;;
                     perform (reply_text ("Добавлен: " +:+ PyStr.str target) (Some main_menu)) ;;
                     perform (event_log ("Добавлен проверяющий: channel="
                                         +:+ PyStr.str chat_id))
                   else
                     exec env (w_remove_reviewer chat_id target) ;;
                     perform (reply_text ("Удалён: " +:+ PyStr.str target) (Some main_menu)) ;;
                     perform (event_log ("Удалён проверяющий: channel="
                                         +:+ PyStr.str chat_id))) ;;
                  update_st uid (fun s => set_rv_chat_id None (set_mode None s)) ;;
                  ret (Returned tt)
            end
        else
          perform (reply_text "Нет доступа." (Some main_menu)) ;;
          update_st uid (fun s => set_rv_chat_id None (set_mode None s)) ;;
          ret (Returned tt)
    | None =>
        perform (reply_text "Нет доступа." (Some main_menu)) ;;
        update_st uid (fun s => set_rv_chat_id None (set_mode None s)) ;;
        ret (Returned tt)
    end
  (* bind flow *)
  else if is_mode "ctl_bind_wait" s then
    let channel_in := normalize_channel_input text in
    if negb (CHANNEL_INPUT_RE_match channel_in) then
      perform (reply_text "Неверный формат. Введи @username или -100...." None) ;;
      ret (Returned tt)
    else
      match verify_bind env channel_in uid with
      | Raised e => ret (Raised e)
      | Returned (bind_refused reason) =>
          perform (reply_text ("❌ Не удалось привязать: " +:+ reason) None) ;;
          ret (Returned tt)
      | Returned (bind_ok chat_id username) =>
          exec env (w_upsert_channel chat_id username uid 1) ;;
          update_st uid (set_mode None) ;;
          perform (reply_text
                     ("✅ Канал привязан." +:+ nl +:+ "chat_id: " +:+ PyStr.str chat_id +:+ nl
                      +:+ "username: "
                      +:+ match username with
                          | Some u => if PyStr.is_empty u then "нет" else "@" +:+ u
                          | None => "нет"
                          end
                      +:+ nl +:+ "Модерация: ВКЛ")
                     (Some main_menu)) ;;
          perform (event_log ("Канал привязан: channel=" +:+ PyStr.str chat_id)) ;;
          ret (Returned tt)
      end
  (* send: pick channel *)
  else if is_mode "send_pick_channel" s then
    let channel_in := normalize_channel_input text in
    if negb (CHANNEL_INPUT_RE_match channel_in) then
      perform (reply_text "Неверный формат. Введи @username или -100...." None) ;;
      ret (Returned tt)
    else if truthy (ensure_registered_channel env d channel_in) then
      update_st uid (fun s => set_mode (Some "send_wait_content")
                        (set_selected_chat_id (ensure_registered_channel env d channel_in) s)) ;;
      perform (reply_text
                 ("Канал выбран." +:+ nl
                  +:+ "Теперь пришли текст или медиа (фото/видео/файл/голос) и, если нужно, подпись." +:+ nl
                  +:+ "После этого появится кнопка «Отправить».")
                 (Some back_to_menu)) ;;
      ret (Returned tt)
    else
      perform (reply_text
                 ("❌ Этот канал не зарегистрирован." +:+ nl
                  +:+ "Его должен сначала привязать владелец через «Контролировать».") None) ;;
      ret (Returned tt)
  (* if channel selected, treat text as content *)
  else if truthy (selected_chat_id s)
          && match mode s with
             | None => true
             | Some m => String.eqb m "send_wait_content"
             end then
    if PyStr.is_empty text then
      perform (reply_text "Пустое сообщение." None) ;; ret (Returned tt)
    else
      update_st uid (fun s => set_mode (Some "send_wait_content")
                        (set_pending (Some {| content_type := "text"; text := Some text;
                                              file_id := None |}) s)) ;;
      perform (reply_text "Готово. Подтверди отправку:" (Some confirm_send_kb)) ;;
      ret (Returned tt)
  else
    perform (reply_text "Нажми /start и выбери действие." (Some main_menu)) ;;
    ret (Returned tt).

Definition on_send_buttons (cfg : config) (env : platform) (uid : Z)
           (data : callback_data) : M unit :=
  ok <- ensure_consent_or_show cfg env uid ;;
  if negb ok then ret tt else
  perform (answer None) ;;
  s <- st uid ;;
  match data with
  | send_cancel =>
      reset_send uid ;;
      perform (edit_message_text "Отменено." (Some main_menu))
  | send_confirm =>
      match selected_chat_id s, pending s with
      | Some chat_id, Some p =>
          if chat_id =? 0 then
            perform (edit_message_text "Нечего отправлять." (Some main_menu)) ;;
            reset_send uid
          else
            d <- read_db ;;
            match get_channel_by_chat_id d chat_id with
            | None =>
                perform (edit_message_text "Канал не зарегистрирован владельцем."
                                           (Some main_menu)) ;;
                reset_send uid
            | Some row =>
                if moderation row =? 1 then
                  sub_id <- create_submission_id env chat_id uid (content_type p)
                                                 (text p) (file_id p) STATUS_PENDING ;;
                  perform (edit_message_text "Сообщение отправлено на проверку 🕵️‍♂️"
                                             (Some main_menu)) ;;
                  send_ticket_to_owner env (owner_user_id row) sub_id p ;;
                  perform (event_log ("Новое сообщение на проверку: channel="
                                      +:+ PyStr.str chat_id +:+ ", sid=" +:+ PyStr.str sub_id)) ;;
                  reset_send uid
                else
                  (* direct post *)
                  err <- post_to_channel env chat_id p ;;
                  match err with
                  | None =>
                      create_submission_id env chat_id uid (content_type p)
                                           (text p) (file_id p) STATUS_SENT ;;
                      perform (edit_message_text "Сообщение отправлено ✅" (Some main_menu)) ;;
                      perform (event_log ("Сообщение отправлено напрямую: channel="
                                          +:+ PyStr.str chat_id))
                  | Some e =>
                      perform (edit_message_text ("Не смог отправить в канал. Ошибка: " +:+ e)
                                                 (Some main_menu)) ;;
                      perform (event_log ("Ошибка отправки в канал: channel="
                                          +:+ PyStr.str chat_id))
                  end ;;
                  reset_send uid
            end
      | _, _ =>
          perform (edit_message_text "Нечего отправлять." (Some main_menu)) ;;
          reset_send uid
      end
  | _ => ret tt
  end.

(** The two decisions share everything up to the permission check. *)
Definition on_moderation (cfg : config) (env : platform) (uid : Z)
           (data : callback_data) : M unit :=
  ok <- ensure_consent_or_show cfg env uid ;;
  if negb ok then ret tt else
  perform (answer None) ;;
  match data with
  | mod_ok sub_id | mod_no sub_id =>
      d <- read_db ;;
      match get_submission d sub_id with
      | None => perform (edit_message_text "Заявка не найдена." None)
      | Some row =>
          if negb (String.eqb (s_status row) STATUS_PENDING) then
            perform (edit_message_text "Уже обработано." None)
          else if negb (can_moderate env d (s_chat_id row) uid) then
            perform (edit_message_text "Нет доступа." None)
          else
            let chat_id := s_chat_id row in
            let sender_user_id := s_sender_user_id row in
            let p := {| content_type := s_content_type row; text := s_text row;
                        file_id := s_file_id row |} in
            match data with
            | mod_ok _ =>
                bot_send env sender_user_id
                         (message "Отправка сообщения была одобрена проверкой ✅") None ;;
                err <- post_to_channel env chat_id p ;;
                match err with
                | None =>
                    exec env (w_set_submission_status sub_id STATUS_SENT) ;;
                    bot_send env sender_user_id (message "Сообщение отправлено ✅") None ;;
                    perform (edit_message_text "✅ Одобрено и опубликовано" None) ;;
                    perform (event_log ("Сообщение одобрено и отправлено: channel="
                                        +:+ PyStr.str chat_id +:+ ", sid=" +:+ PyStr.str sub_id))
                | Some e =>
                    perform (edit_message_text ("Ошибка отправки в канал: " +:+ e) None) ;;
                    perform (event_log ("Ошибка при публикации после одобрения: channel="
                                        +:+ PyStr.str chat_id +:+ ", sid=" +:+ PyStr.str sub_id))
                end
            | _ =>
                (* reject *)
                exec env (w_set_submission_status sub_id STATUS_REJECTED) ;;
                bot_send env sender_user_id (message "Сообщение отклонено ❌") None ;;
                perform (edit_message_text "❌ Отклонено" None) ;;
                perform (event_log ("Сообщение отклонено: channel="
                                    +:+ PyStr.str chat_id +:+ ", sid=" +:+ PyStr.str sub_id))
            end
      end
  | _ => ret tt
  end.

(** Running a handler. *)
Definition run {A} (m : M A) (w : world) : world := snd (m w).
Definition result {A} (m : M A) (w : world) : A := fst (m w).

(** What a handler added to the trace of [w]. *)
Definition new_actions (w w' : world) : list action :=
  skipn (length (trace w)) (trace w').

(** ** Vocabulary of the statements *)

(** The user passes the consent gate in [w]. *)
Definition consented (cfg : config) (w : world) (uid : Z) : Prop :=
  uid ≠ 0 ∧ user_is_allowed cfg (db w) uid = true.

(** What [st(uid)] returns. *)
Definition state_in (m : gmap Z user_state) (uid : Z) : user_state :=
  default fresh_state (m !! uid).
Definition state_of (w : world) (uid : Z) : user_state := state_in (USER_STATE w) uid.

(** The state [reset_send] leaves: only [rv_chat_id] survives. *)
Definition cleared (s : user_state) : user_state :=
  {| mode := None; selected_chat_id := None; pending := None; rv_chat_id := rv_chat_id s |}.

(** [w] after the actions [l]. *)
Definition log (w : world) (l : list action) : world :=
  {| db := db w; USER_STATE := USER_STATE w; trace := trace w ++ l |}.

Definition with_db (d : database) (w : world) : world :=
  {| db := d; USER_STATE := USER_STATE w; trace := trace w |}.

(** The call [post_to_channel] makes for a pending item. *)
Definition channel_payload (p : pending_content) : payload :=
  let text := PyStr.strip (PyStr.or_empty (text p)) in
  if String.eqb (content_type p) "text" then message text
  else if String.eqb (content_type p) "photo" then media photo (file_id p) (caption_of text)
  else if String.eqb (content_type p) "video" then media video (file_id p) (caption_of text)
  else if String.eqb (content_type p) "document" then media document (file_id p) (caption_of text)
  else if String.eqb (content_type p) "audio" then media audio (file_id p) (caption_of text)
  else if String.eqb (content_type p) "voice" then media voice (file_id p) (caption_of text)
  else message text.

(** The pending item [on_moderation] rebuilds from a stored row. *)
Definition pending_of (row : submission_row) : pending_content :=
  {| content_type := s_content_type row; text := s_text row; file_id := s_file_id row |}.

Inductive decision := approve | reject.

Definition decision_data (dec : decision) (sub_id : Z) : callback_data :=
  match dec with approve => mod_ok sub_id | reject => mod_no sub_id end.

Definition status_of (w : world) (sub_id : Z) : option string :=
  s_status <$> get_submission (db w) sub_id.

(** Later presses of a decision button for [sub_id]: under which platform,
    by whom, which decision. *)
Definition later_decisions (cfg : config) (sub_id : Z)
           (l : list (platform * Z * decision)) (w : world) : world :=
  fold_left (fun w x => run (on_moderation cfg x.1.1 x.1.2 (decision_data x.2 sub_id)) w) l w.

(** Neither a Bot API send nor a commit. *)
Definition quiet (l : list action) : Prop :=
  Forall (fun a => match a with send _ _ _ | commit _ => False | _ => True end) l.

(** What the consent gate shows to a user it stops. *)
Definition policy_prompt (cfg : config) (env : platform) : list action :=
  reply_markdown (POLICY_TEXT cfg) (Some policy_kb)
  :: match markdown_error env with
     | None => []
     | Some e =>
         [reply_text
            ("Не могу отобразить политику (ошибка форматирования MarkdownV2). "
             +:+ "Проверь privacy_anon.md." +:+ nl +:+ nl +:+ "Тех. ошибка: " +:+ e) None]
     end.

Fixpoint first_index (P : action → bool) (l : list action) : option nat :=
  match l with
  | [] => None
  | a :: r => if P a then Some O else S <$> first_index P r
  end.

Definition is_send_to (chat_id : Z) (a : action) : bool :=
  match a with send c _ _ => c =? chat_id | _ => false end.

Definition is_status_commit (sub_id : Z) (status : string) (a : action) : bool :=
  match a with
  | commit (w_set_submission_status i s) => (i =? sub_id) && String.eqb s status
  | _ => false
  end.

(** The Bot API sends of [l] that go to [chat_id]. *)
Definition sends_to (chat_id : Z) (l : list action) : list action :=
  List.filter (is_send_to chat_id) l.

(** The order of an approval as the specification words it: the first
    send into the channel comes before the commit of [sent], which comes
    before the first message to the sender. *)
Definition approve_order_claimed (l : list action) (chat_id sender sub_id : Z) : Prop :=
  ∃ i j k : nat,
    first_index (is_send_to chat_id) l = Some i
    ∧ first_index (is_status_commit sub_id STATUS_SENT) l = Some j
    ∧ first_index (is_send_to sender) l = Some k
    ∧ (i < j)%nat ∧ (j < k)%nat.

(** The three checks of a bind request, passed for [chat_id]. *)
Definition bind_checks (env : platform) (channel_input : string) (uid chat_id : Z)
           (username : option string) : Prop :=
  get_chat env channel_input = Ok (chat_id, username)
  ∧ get_chat_member env chat_id (bot_id env) = Ok ADMINISTRATOR
  ∧ get_chat_member env chat_id uid = Ok OWNER.


(** [user_id] is on the allow-list of [chat_id]. *)
Definition in_allowlist (d : database) (chat_id user_id : Z) : Prop :=
  is_Some (channel_reviewers d !! (chat_id, user_id)).

(** *** Consent decisions over time *)

(** A press of "accept" or "decline", under the configuration and
    platform of that moment. *)
Record consent_event := {
  ce_cfg : config;
  ce_env : platform;
  ce_uid : Z;
  ce_accept : bool
}.

Definition consent_step (w : world) (e : consent_event) : world :=
  run (on_policy_callbacks (ce_cfg e) (ce_env e) (ce_uid e)
                           (if ce_accept e then policy_accept else policy_decline)) w.

Definition consent_history (h : list consent_event) (w : world) : world :=
  fold_left consent_step h w.

(** The specification's reading of [isAllowed]: the latest decision of
    the user accepted the policy whose hash is the current one. *)
Definition latest_decision (uid : Z) (h : list consent_event) : option consent_event :=
  List.find (fun e => ce_uid e =? uid) (rev h).

Definition isAllowed (cfg : config) (uid : Z) (h : list consent_event) : bool :=
  match latest_decision uid h with
  | Some e => ce_accept e && String.eqb (POLICY_HASH (ce_cfg e)) (POLICY_HASH cfg)
  | None => false
  end.

Definition initial_world : world := {| db := empty_db; USER_STATE := ∅; trace := [] |}.

(** *** Deeplinks over time *)




(** *** Stripping *)

(** A skipping function removes a non-empty prefix. *)
Definition skips (skip : list N → option (list N)) : Prop :=
  ∀ l r, skip l = Some r → ∃ p, p ≠ [] ∧ l = p ++ r.

(** ** A small deployment, used to exercise the statements *)

Definition example_cfg : config :=
  {| BOT_OWNER_ID := 0; DEEPLINK_SALT := "pepper"; policy_file := Some "Be kind." |}.

(** The same deployment after the policy file was edited. *)
Definition example_cfg_edited : config :=
  {| BOT_OWNER_ID := 0; DEEPLINK_SALT := "pepper"; policy_file := Some "Be kinder." |}.

Definition example_env : platform :=
  {| now := "2024-05-01T12:00:00+00:00";
     bot_id := 7000;
     bot_username := "relay_bot";
     get_chat := fun s => if String.eqb s "@gossip" then Ok (-1001234567, Some "gossip")
                          else Refused "Chat not found";
     get_chat_member := fun c u =>
       if (c =? -1001234567) && (u =? 7000) then Ok ADMINISTRATOR
       else if (c =? -1001234567) && (u =? 10) then Ok OWNER
       else Ok MEMBER;
     send_error := fun _ _ => None;
     markdown_error := None |}.

(** The same platform with every send into the channel failing. *)
Definition example_env_down : platform :=
  {| now := now example_env; bot_id := bot_id example_env;
     bot_username := bot_username example_env;
     get_chat := get_chat example_env;
     get_chat_member := get_chat_member example_env;
     send_error := fun c _ =>
       if c =? -1001234567 then Some "Forbidden: bot was kicked" else None;
     markdown_error := None |}.

(** User 10 owns channel -1001234567; user 20 has one pending text in it. *)
Definition example_db : database :=
  create_submission "t3" (-1001234567) 20 "text" (Some "hello") None STATUS_PENDING
    (upsert_channel "t2" (-1001234567) (Some "gossip") 10 1
       (set_user_consent "t1" 20 1 (POLICY_HASH example_cfg)
          (set_user_consent "t0" 10 1 (POLICY_HASH example_cfg) empty_db))).

Definition example_world : world :=
  {| db := example_db; USER_STATE := ∅; trace := [] |}.

(** User 10 has pressed "bind a channel". *)
Definition example_world_binding : world :=
  {| db := example_db;
     USER_STATE := {[ 10 := set_mode (Some "ctl_bind_wait") fresh_state ]};
     trace := [] |}.

(** Moderation is off and user 20 has selected the channel. *)
Definition example_world_sending : world :=
  {| db := set_channel_moderation (-1001234567) 0 example_db;
     USER_STATE := {[ 20 := set_selected_chat_id (Some (-1001234567)) fresh_state ]};
     trace := [] |}.

(** * More of the program

    The rest of [bot.py] that the same world supports: the media handler
    and the two queries behind the moderation queue. *)

(** ** Media *)

(** What [on_media] reads of a message: the [file_id]s of its photo sizes
    (smallest first; empty when it has no photo), the [file_id] of its
    video, document, audio and voice if any, and its caption. *)
Record media_message := {
  msg_photo : list string;
  msg_video : option string;
  msg_document : option string;
  msg_audio : option string;
  msg_voice : option string;
  msg_caption : option string
}.

(** The content type and [file_id] the handler picks: the first of photo,
    video, document, audio, voice that the message has. *)
Definition media_content (msg : media_message) : option (string * string) :=
  match last (msg_photo msg) with
  | Some fid => Some ("photo", fid)
  | None =>
      match msg_video msg with
      | Some fid => Some ("video", fid)
      | None =>
          match msg_document msg with
          | Some fid => Some ("document", fid)
          | None =>
              match msg_audio msg with
              | Some fid => Some ("audio", fid)
              | None =>
                  match msg_voice msg with
                  | Some fid => Some ("voice", fid)
                  | None => None
                  end
              end
          end
      end
  end.

Definition on_media (cfg : config) (env : platform) (uid : Z) (msg : media_message)
  : M unit :=
  ok <- ensure_consent_or_show cfg env uid ;;
  if negb ok then ret tt else
  s <- st uid ;;
  if negb (truthy (selected_chat_id s)) then
    perform (reply_text "Сначала выбери канал: /start → «Отправить» → «Ввести канал»." None)
  else
    match media_content msg with
    | None => ret tt
    | Some (ctype, fid) =>
        update_st uid
          (fun s => set_mode (Some "send_wait_content")
                      (set_pending (Some {| content_type := ctype;
                                            text := Some (PyStr.or_empty (msg_caption msg));
                                            file_id := Some fid |}) s)) ;;
        perform (reply_text "Файл получен. Подтверди отправку:" (Some confirm_send_kb))
    end.

(** ** The moderation queue *)

(** [WHERE chat_id=? AND status='pending'] *)
Definition pending_in (chat_id : Z) (kv : Z * submission_row) : Prop :=
  s_chat_id kv.2 = chat_id ∧ s_status kv.2 = STATUS_PENDING.

Global Instance pending_in_dec chat_id kv : Decision (pending_in chat_id kv) :=
  (_ : Decision (s_chat_id kv.2 = chat_id ∧ s_status kv.2 = STATUS_PENDING)).

(** [ORDER BY id DESC] *)
Definition newer_first (a b : Z * submission_row) : Prop := b.1 ≤ a.1.

Global Instance newer_first_dec a b : Decision (newer_first a b) :=
  (_ : Decision (b.1 ≤ a.1)).

(** The pending submissions of a chat, newest first. *)
Definition pending_rows (d : database) (chat_id : Z) : list (Z * submission_row) :=
  merge_sort newer_first (filter (pending_in chat_id) (map_to_list (submissions d))).

(** [LIMIT ? OFFSET ?]: a negative offset counts as 0, a negative limit as
    no limit. *)
Definition limit_offset {A} (limit offset : Z) (l : list A) : list A :=
  let l := drop (Z.to_nat offset) l in
  if limit <? 0 then l else take (Z.to_nat limit) l.

(** The rows are [(id, content_type, COALESCE(text, ''))]. *)
Definition list_pending_submissions (d : database) (chat_id limit offset : Z)
  : list (Z * string * string) :=
  map (fun kv => (kv.1, s_content_type kv.2, PyStr.or_empty (s_text kv.2)))
      (limit_offset limit offset (pending_rows d chat_id)).

Definition count_pending_submissions (d : database) (chat_id : Z) : Z :=
  Z.of_nat (length (filter (pending_in chat_id) (map_to_list (submissions d)))).

(** ** Text measured in characters *)

Module PyChars.

(** A continuation byte of a multi-byte character. *)
Definition is_cont (b : N) : bool := (128 <=? b)%N && (b <? 192)%N.

(** The characters of a text, each with the bytes that encode it. *)
Fixpoint chars (l : list N) : list (list N) :=
  match l with
  | [] => []
  | b :: r =>
      let rest := chars r in
      match r, rest with
      | c :: _, g :: gs => if is_cont c then (b :: g) :: gs else [b] :: rest
      | _, _ => [b] :: rest
      end
  end.

(** [len(s)] *)
Definition len (s : string) : Z := Z.of_nat (length (chars (PyStr.bytes_of s))).

(** [s[:n]] *)
Definition prefix (n : nat) (s : string) : string :=
  PyStr.of_bytes (concat (firstn n (chars (PyStr.bytes_of s)))).

End PyChars.

(** ** Keyboards, button by button *)

Module UI.

(** A button: its label and its callback data. *)
Definition button : Type := string * string.

(** An [InlineKeyboardMarkup]: rows of buttons. *)
Definition markup : Type := list (list button).

Definition main_menu : markup :=
  [ [("📨 Отправить", "menu_send")];
    [("🛠 Контролировать", "menu_control")];
    [("📜 Правила и анонимность", "menu_policy")] ].

Definition back_to_menu : markup := [ [("⬅️ В меню", "menu_back")] ].

Definition send_menu : markup :=
  [ [("🔗 Ввести канал", "send_pick_channel")];
    [("⬅️ В меню", "menu_back")] ].

Definition control_menu : markup :=
  [ [("➕ Привязать канал", "ctl_bind")];
    [("📋 Мои каналы", "ctl_list")];
    [("⬅️ В меню", "menu_back")] ].

Definition reviewers_manage_kb (chat_id : Z) : markup :=
  [ [("➕ Добавить user_id", "rv_add:" +:+ PyStr.str chat_id)];
    [("➖ Удалить user_id", "rv_del:" +:+ PyStr.str chat_id)];
    [("⬅️ Назад", "ch_open:" +:+ PyStr.str chat_id)] ].

Definition channel_controls (chat_id moderation : Z) (reviewers_mode : string) : markup :=
  let mode_title :=
    if String.eqb reviewers_mode "owner" then "Только владелец"
    else if String.eqb reviewers_mode "admins" then "Все админы"
    else if String.eqb reviewers_mode "selected" then "Выбранные"
    else reviewers_mode in
  [ [("Модерация: " +:+ (if moderation =? 1 then "ВКЛ ✅" else "ВЫКЛ ❎"),
      "ch_toggle:" +:+ PyStr.str chat_id)];
    [("Проверяют: " +:+ mode_title, "ch_reviewers_mode:" +:+ PyStr.str chat_id)];
    [("🗂 Очередь на проверку", "ch_queue:" +:+ PyStr.str chat_id)] ]
  ++ (if String.eqb reviewers_mode "selected"
      then [ [("👥 Управлять проверяющими", "ch_reviewers_manage:" +:+ PyStr.str chat_id)] ]
      else [])
  ++ [ [("🔗 Ссылка для отправки", "ch_link:" +:+ PyStr.str chat_id)];
       [("⬅️ Назад", "ctl_list")] ].

Definition confirm_send_kb : markup :=
  [ [("✅ Отправить", "send_confirm")];
    [("❌ Отмена", "send_cancel")] ].

Definition ticket_kb (sub_id : Z) : markup :=
  [ [("✅ Одобрить", "mod_ok:" +:+ PyStr.str sub_id);
     ("❌ Отклонить", "mod_no:" +:+ PyStr.str sub_id)] ].

(** The label of a queued item: its text is cut to 30 characters. *)
Definition queue_label (sid : Z) (ctype txt : string) : string :=
  let preview := if 30 <? PyChars.len txt then PyChars.prefix 30 txt +:+ "…" else txt in
  "#" +:+ PyStr.str sid +:+ " | " +:+ ctype
  +:+ (if PyStr.is_empty preview then "" else " | " +:+ preview).

(** The "back" and "forward" buttons of a queue page. *)
Definition queue_nav (chat_id total offset limit : Z) : list button :=
  (if 0 <? offset
   then [("⬅️", "q_page:" +:+ PyStr.str chat_id +:+ ":" +:+ PyStr.str (Z.max 0 (offset - limit)))]
   else [])
  ++ (if offset + limit <? total
      then [("➡️", "q_page:" +:+ PyStr.str chat_id +:+ ":" +:+ PyStr.str (offset + limit))]
      else []).

Definition queue_kb (chat_id : Z) (items : list (Z * string * string))
           (total offset limit : Z) : markup :=
  map (fun item => [(queue_label item.1.1 item.1.2 item.2,
                     "q_open:" +:+ PyStr.str chat_id +:+ ":" +:+ PyStr.str item.1.1)])
      items
  ++ match queue_nav chat_id total offset limit with
     | [] => []
     | nav => [nav]
     end
  ++ [ [("⬅️ Назад", "ch_open:" +:+ PyStr.str chat_id)] ].

Definition policy_kb : markup :=
  [ [("✅ Принять и продолжить", "policy_accept")];
    [("❌ Отказаться и выйти", "policy_decline")] ].

Definition policy_back_kb : markup := [ [("⬅️ В меню", "menu_back")] ].

End UI.

(** ** Two more queries *)

(** [ORDER BY chat_id] *)
Definition by_chat_id (a b : Z * channel_row) : Prop := a.1 ≤ b.1.

Global Instance by_chat_id_dec a b : Decision (by_chat_id a b) :=
  (_ : Decision (a.1 ≤ b.1)).

Definition get_channels_by_owner (d : database) (owner : Z) : list (Z * channel_row) :=
  merge_sort by_chat_id
             (filter (fun kv => owner_user_id kv.2 = owner) (map_to_list (channels d))).

(** [list_reviewers] in the order the query gives: [ORDER BY user_id]. *)
Definition list_reviewers_sorted (d : database) (chat_id : Z) : list Z :=
  merge_sort Z.le (list_reviewers d chat_id).

(** ** The menu handler

    [on_menu] shows keyboards built on the spot and changes two channel
    settings, so it gets a trace of its own kind: the actions of the other
    handlers, and the ones only it performs.

    The callback data arrives parsed: the handler reads the integers the
    keyboards above have put behind the colons, ids of the database and
    offsets of a page, all within SQLite's 64 bits.  Data that no keyboard
    of the bot carries and on which [int] or the database driver raises
    (a word behind the colon, an id of more than 64 bits) is not
    modelled; [unknown s] stands for data none of the branches matches,
    which is acknowledged and nothing else.  As for the other handlers,
    the calls on the update being handled ([q.answer], [q.edit_message_*])
    are taken to succeed, so the outer [except] of the [q_open:] branch is
    never entered ([send_ticket_to_owner] swallows its own failures).
    What is left to raise in the model is the lookup of the reviewer mode
    in its list. *)

Module Menu.

(** The callback data [on_menu] tells apart. *)
Inductive data :=
| menu_back
| menu_policy
| menu_send
| send_pick_channel
| menu_control
| ctl_bind
| ctl_list
| ch_open (chat_id : Z)
| ch_toggle (chat_id : Z)
| ch_reviewers_mode (chat_id : Z)
| ch_reviewers_manage (chat_id : Z)
| rv_add (chat_id : Z)
| rv_del (chat_id : Z)
| ch_queue (chat_id : Z)
| q_page (chat_id offset : Z)
| q_open (chat_id sid : Z)
| ch_link (chat_id : Z)
| unknown (s : string).

(** The data as the button carries it. *)
Definition wire (d : data) : string :=
  match d with
  | menu_back => "menu_back"
  | menu_policy => "menu_policy"
  | menu_send => "menu_send"
  | send_pick_channel => "send_pick_channel"
  | menu_control => "menu_control"
  | ctl_bind => "ctl_bind"
  | ctl_list => "ctl_list"
  | ch_open c => "ch_open:" +:+ PyStr.str c
  | ch_toggle c => "ch_toggle:" +:+ PyStr.str c
  | ch_reviewers_mode c => "ch_reviewers_mode:" +:+ PyStr.str c
  | ch_reviewers_manage c => "ch_reviewers_manage:" +:+ PyStr.str c
  | rv_add c => "rv_add:" +:+ PyStr.str c
  | rv_del c => "rv_del:" +:+ PyStr.str c
  | ch_queue c => "ch_queue:" +:+ PyStr.str c
  | q_page c o => "q_page:" +:+ PyStr.str c +:+ ":" +:+ PyStr.str o
  | q_open c s => "q_open:" +:+ PyStr.str c +:+ ":" +:+ PyStr.str s
  | ch_link c => "ch_link:" +:+ PyStr.str c
  | unknown s => s
  end.

Inductive act :=
| base (a : action)                                  (* as in the other handlers *)
| answer_text (text : string)                        (* q.answer(text) *)
| edit_text (text : string) (kb : UI.markup)         (* q.edit_message_text(text, reply_markup=kb) *)
| edit_markdown (text : string) (kb : UI.markup)     (* the same with parse_mode=MARKDOWN_V2 *)
| edit_reply_markup (kb : UI.markup)                 (* q.edit_message_reply_markup(kb) *)
| delete_message                                     (* q.message.delete() *)
| commit_moderation (chat_id moderation : Z)         (* set_channel_moderation *)
| commit_reviewers_mode (chat_id : Z) (mode : string). (* set_reviewers_mode *)

Record state := {
  m_db : database;
  m_users : gmap Z user_state;
  m_trace : list act
}.

(** The world of the other handlers, with nothing done yet. *)
Definition to_world (s : state) : world :=
  {| db := m_db s; USER_STATE := m_users s; trace := [] |}.

Definition MM (A : Type) : Type := state -> A * state.

Definition mret {A} (a : A) : MM A := fun s => (a, s).
Definition mbind {A B} (m : MM A) (k : A -> MM B) : MM B :=
  fun s => k (fst (m s)) (snd (m s)).

(** A step of the other handlers, run here. *)
Definition lift {A} (m : M A) : MM A :=
  fun s =>
    (fst (m (to_world s)),
     {| m_db := db (snd (m (to_world s)));
        m_users := USER_STATE (snd (m (to_world s)));
        m_trace := m_trace s ++ map base (trace (snd (m (to_world s)))) |}).

Definition mdo (a : act) : MM unit :=
  fun s => (tt, {| m_db := m_db s; m_users := m_users s; m_trace := m_trace s ++ [a] |}).

Definition mread : MM database := fun s => (m_db s, s).

Definition write_moderation (chat_id moderation : Z) : MM unit :=
  fun s => (tt, {| m_db := set_channel_moderation chat_id moderation (m_db s);
                   m_users := m_users s;
                   m_trace := m_trace s ++ [commit_moderation chat_id moderation] |}).

Definition write_reviewers_mode (chat_id : Z) (mode : string) : MM unit :=
  fun s => (tt, {| m_db := set_reviewers_mode chat_id mode (m_db s);
                   m_users := m_users s;
                   m_trace := m_trace s ++ [commit_reviewers_mode chat_id mode] |}).

Declare Scope menu_scope.
Delimit Scope menu_scope with menu.
Notation "x <- m ;; k" := (mbind m (fun x => k))
  (at level 100, m at next level, right associativity) : menu_scope.
Notation "m ;; k" := (mbind m (fun _ => k))
  (at level 100, right associativity) : menu_scope.
Local Open Scope menu_scope.

Definition alert (text : string) : MM unit := mdo (base (answer (Some text))).

(** [f"@{username}" if username else str(chat_id)] *)
Definition title (chat_id : Z) (username : option string) : string :=
  match username with
  | Some u => if PyStr.is_empty u then PyStr.str chat_id else "@" +:+ u
  | None => PyStr.str chat_id
  end.

(** A row of "my channels". *)
Definition channel_button (kv : Z * channel_row) : list UI.button :=
  let mode_title :=
    if String.eqb (reviewers_mode kv.2) "owner" then "владелец"
    else if String.eqb (reviewers_mode kv.2) "admins" then "админы"
    else if String.eqb (reviewers_mode kv.2) "selected" then "выбранные"
    else reviewers_mode kv.2 in
  [(title kv.1 (username kv.2) +:+ " | мод:"
    +:+ (if moderation kv.2 =? 0 then "OFF" else "ON") +:+ " | " +:+ mode_title,
    "ch_open:" +:+ PyStr.str kv.1)].

(** ["\n".join(map(str, ids))] *)
Fixpoint join_ids (ids : list Z) : string :=
  match ids with
  | [] => ""
  | [i] => PyStr.str i
  | i :: r => PyStr.str i +:+ nl +:+ join_ids r
  end.

(** [order[(order.index(mode) + 1) % len(order)]]; [None] where
    [order.index] raises. *)
Definition next_mode (mode : string) : option string :=
  if String.eqb mode "owner" then Some "admins"
  else if String.eqb mode "admins" then Some "selected"
  else if String.eqb mode "selected" then Some "owner"
  else None.

(** The header of an opened queue item. *)
Definition item_header (sid : Z) (content_type : string) (text : option string) : string :=
  let header := "🧾 Заявка #" +:+ PyStr.str sid +:+ nl +:+ "Тип: " +:+ content_type in
  if PyStr.is_empty (PyStr.or_empty text) then header
  else header +:+ nl +:+ nl +:+ "Текст/подпись:" +:+ nl +:+ PyStr.or_empty text.

(** The queue page shown for an offset. *)
Definition show_queue (chat_id offset : Z) : MM unit :=
  d <- mread ;;
  let total := count_pending_submissions d chat_id in
  let items := list_pending_submissions d chat_id 10 offset in
  mdo (edit_text ("Очередь на проверку (pending): " +:+ PyStr.str total)
                 (UI.queue_kb chat_id items total offset 10)).

Definition is_owner (d : database) (chat_id uid : Z) : bool :=
  match get_channel_by_chat_id d chat_id with
  | Some row => owner_user_id row =? uid
  | None => false
  end.

Definition on_menu (cfg : config) (env : platform) (uid : Z) (data : data)
  : MM (raising unit) :=
  match data with
  | ch_link chat_id =>
      (* the branch of its own above, gate and acknowledgement included *)
      lift (on_menu_ch_link cfg env uid chat_id) ;; mret (Returned tt)
  | _ =>
  ok <- lift (ensure_consent_or_show cfg env uid) ;;
  if negb ok then mret (Returned tt) else
  lift (perform (answer None)) ;;
  d <- mread ;;
  match data with
  | menu_back =>
      lift (reset_send uid) ;;
      mdo (edit_text "Меню:" UI.main_menu) ;; mret (Returned tt)
  | menu_policy =>
      mdo (edit_markdown (POLICY_TEXT cfg) UI.policy_back_kb) ;;
      match markdown_error env with
      | None => mret (Returned tt)
      | Some e =>
          mdo (edit_text
                 ("Не могу отобразить политику (ошибка форматирования MarkdownV2). "
                  +:+ "Проверь privacy_anon.md." +:+ nl +:+ nl +:+ "Тех. ошибка: " +:+ e)
                 UI.policy_back_kb) ;;
          mret (Returned tt)
      end
  | menu_send =>
      mdo (edit_text ("Отправка анонимного сообщения." +:+ nl
                      +:+ "Если ты зашёл по ссылке канала — он уже выбран." +:+ nl
                      +:+ "Иначе нажми «Ввести канал».") UI.send_menu) ;;
      mret (Returned tt)
  | send_pick_channel =>
      lift (update_st uid (set_mode (Some "send_pick_channel"))) ;;
      mdo (edit_text ("Введи @username канала или chat_id (-100...)." +:+ nl
                      +:+ "Канал должен быть предварительно привязан владельцем через «Контролировать».")
                     UI.back_to_menu) ;;
      mret (Returned tt)
  | menu_control =>
      mdo (edit_text "Контроль:" UI.control_menu) ;; mret (Returned tt)
  | ctl_bind =>
      lift (update_st uid (set_mode (Some "ctl_bind_wait"))) ;;
      mdo (edit_text ("Привязка канала." +:+ nl
                      +:+ "Введи @username канала или chat_id (-100...)." +:+ nl +:+ nl
                      +:+ "Требования:" +:+ nl
                      +:+ "• бот админ канала" +:+ nl
                      +:+ "• привязать может только creator (владелец)" +:+ nl)
                     UI.back_to_menu) ;;
      mret (Returned tt)
  | ctl_list =>
      match get_channels_by_owner d uid with
      | [] =>
          mdo (edit_text "У тебя нет привязанных каналов." UI.control_menu) ;;
          mret (Returned tt)
      | channels =>
          mdo (edit_text "Мои каналы:"
                         (map channel_button channels ++ [[("⬅️ Назад", "menu_control")]])) ;;
          mret (Returned tt)
      end
  | ch_open chat_id =>
      match get_channel_by_chat_id d chat_id with
      | Some row =>
          if owner_user_id row =? uid then
            mdo (edit_text ("Канал: " +:+ title chat_id (username row) +:+ nl
                            +:+ "chat_id: " +:+ PyStr.str chat_id)
                           (UI.channel_controls chat_id (moderation row) (reviewers_mode row))) ;;
            mret (Returned tt)
          else mdo (edit_text "Нет доступа." UI.control_menu) ;; mret (Returned tt)
      | None => mdo (edit_text "Нет доступа." UI.control_menu) ;; mret (Returned tt)
      end
  | ch_toggle chat_id =>
      match get_channel_by_chat_id d chat_id with
      | Some row =>
          if owner_user_id row =? uid then
            let new_val := if moderation row =? 1 then 0 else 1 in
            write_moderation chat_id new_val ;;
            mdo (edit_reply_markup (UI.channel_controls chat_id new_val (reviewers_mode row))) ;;
            mdo (answer_text "Готово") ;;
            mdo (base (event_log ("Модерация переключена: channel=" +:+ PyStr.str chat_id
                                  +:+ ", moderation=" +:+ PyStr.str new_val))) ;;
            mret (Returned tt)
          else alert "Нет доступа" ;; mret (Returned tt)
      | None => alert "Нет доступа" ;; mret (Returned tt)
      end
  | ch_reviewers_mode chat_id =>
      match get_channel_by_chat_id d chat_id with
      | Some row =>
          if owner_user_id row =? uid then
            match next_mode (reviewers_mode row) with
            | None => mret (Raised "ValueError")
            | Some new_mode =>
                write_reviewers_mode chat_id new_mode ;;
                mdo (edit_reply_markup (UI.channel_controls chat_id (moderation row) new_mode)) ;;
                mdo (answer_text "Готово") ;;
                mdo (base (event_log ("Режим проверяющих изменён: channel="
                                      +:+ PyStr.str chat_id +:+ ", mode=" +:+ new_mode))) ;;
                mret (Returned tt)
            end
          else alert "Только владелец может менять это" ;; mret (Returned tt)
      | None => alert "Только владелец может менять это" ;; mret (Returned tt)
      end
  | ch_reviewers_manage chat_id =>
      if is_owner d chat_id uid then
        let reviewers := list_reviewers_sorted d chat_id in
        mdo (edit_text ("Проверяющие (user_id):" +:+ nl
                        +:+ match reviewers with
                            | [] => "— пусто —"
                            | _ => join_ids reviewers
                            end)
                       (UI.reviewers_manage_kb chat_id)) ;;
        mret (Returned tt)
      else alert "Нет доступа" ;; mret (Returned tt)
  | rv_add chat_id =>
      if is_owner d chat_id uid then
        lift (update_st uid (fun s => set_rv_chat_id (Some chat_id)
                                        (set_mode (Some "rv_add_wait") s))) ;;
        mdo (edit_text "Пришли user_id, которого добавить в проверяющие."
                       (UI.reviewers_manage_kb chat_id)) ;;
        mret (Returned tt)
      else alert "Нет доступа" ;; mret (Returned tt)
  | rv_del chat_id =>
      if is_owner d chat_id uid then
        lift (update_st uid (fun s => set_rv_chat_id (Some chat_id)
                                        (set_mode (Some "rv_del_wait") s))) ;;
        mdo (edit_text "Пришли user_id, которого удалить из проверяющих."
                       (UI.reviewers_manage_kb chat_id)) ;;
        mret (Returned tt)
      else alert "Нет доступа" ;; mret (Returned tt)
  | ch_queue chat_id =>
      if can_moderate env d chat_id uid then show_queue chat_id 0 ;; mret (Returned tt)
      else alert "Нет доступа" ;; mret (Returned tt)
  | q_page chat_id offset =>
      if can_moderate env d chat_id uid then show_queue chat_id offset ;; mret (Returned tt)
      else alert "Нет доступа" ;; mret (Returned tt)
  | q_open chat_id sid =>
      if can_moderate env d chat_id uid then
        match get_submission d sid with
        | Some row =>
            if String.eqb (s_status row) STATUS_PENDING then
              if String.eqb (s_content_type row) "text" then
                mdo (edit_text (item_header sid (s_content_type row) (s_text row))
                               (UI.ticket_kb sid)) ;;
                mret (Returned tt)
              else
                mdo delete_message ;;
                lift (send_ticket_to_owner env uid sid
                        {| content_type := s_content_type row; text := s_text row;
                           file_id := s_file_id row |}) ;;
                mret (Returned tt)
            else alert "Уже обработано" ;; mret (Returned tt)
        | None => alert "Уже обработано" ;; mret (Returned tt)
        end
      else alert "Нет доступа" ;; mret (Returned tt)
  | _ => mret (Returned tt)
  end
  end.

Definition run {A} (m : MM A) (s : state) : state := snd (m s).
Definition result {A} (m : MM A) (s : state) : A := fst (m s).

(** What a press added to the trace. *)
Definition new_acts (s s' : state) : list act := skipn (length (m_trace s)) (m_trace s').

(** The user passes the consent gate. *)
Definition consents (cfg : config) (s : state) (uid : Z) : Prop :=
  consented cfg (to_world s) uid.

(** What [st(uid)] returns. *)
Definition user (s : state) (uid : Z) : user_state := state_in (m_users s) uid.

(** [s] after the actions [l]. *)
Definition logged (s : state) (l : list act) : state :=
  {| m_db := m_db s; m_users := m_users s; m_trace := m_trace s ++ l |}.

(** [s] with the entry of [uid] in [USER_STATE] set. *)
Definition with_user (uid : Z) (u : user_state) (s : state) : state :=
  {| m_db := m_db s; m_users := <[uid := u]> (m_users s); m_trace := m_trace s |}.

(** A world of the other handlers, seen from here. *)
Definition of_world (w : world) : state :=
  {| m_db := db w; m_users := USER_STATE w; m_trace := map base (trace w) |}.

(** The state a press leaves. *)
Definition press (cfg : config) (env : platform) (uid : Z) (data : data)
           (s : state) : state :=
  run (on_menu cfg env uid data) s.

(** The presses that show or change the settings of a channel, with the
    channel. *)
Definition settings_of (d : data) : option Z :=
  match d with
  | ch_open c | ch_toggle c | ch_reviewers_mode c | ch_reviewers_manage c
  | rv_add c | rv_del c => Some c
  | _ => None
  end.

(** The presses that show the moderation queue of a channel, with the
    channel. *)
Definition queue_of (d : data) : option Z :=
  match d with
  | ch_queue c | q_page c _ | q_open c _ => Some c
  | _ => None
  end.

(** What a press is refused with, after the acknowledgement. *)
Definition refusals : list act :=
  [ base (answer (Some "Нет доступа"));
    base (answer (Some "Только владелец может менять это"));
    edit_text "Нет доступа." UI.control_menu ].

End Menu.

(** ** Vocabulary of the further statements *)

(** An update that goes through the consent gate, with what it carries. *)
Inductive gated_update :=
| upd_start (args : list string)
| upd_text (message_text : string)
| upd_media (msg : media_message)
| upd_send (data : callback_data)
| upd_moderation (data : callback_data)
| upd_link (chat_id : Z).

Definition handle (cfg : config) (env : platform) (uid : Z) (u : gated_update)
           (w : world) : world :=
  match u with
  | upd_start args => run (start_cmd cfg env uid args) w
  | upd_text t => run (on_text cfg env uid t) w
  | upd_media m => run (on_media cfg env uid m) w
  | upd_send data => run (on_send_buttons cfg env uid data) w
  | upd_moderation data => run (on_moderation cfg env uid data) w
  | upd_link c => run (on_menu_ch_link cfg env uid c) w
  end.

(** The call [send_ticket_to_owner] makes for a pending item. *)
Definition ticket_payload (sub_id : Z) (p : pending_content) : payload :=
  let text_preview := PyStr.strip (PyStr.or_empty (text p)) in
  let header := "🆕 На проверку #" +:+ PyStr.str sub_id +:+ nl +:+ "Тип: " +:+ content_type p in
  let header :=
    if PyStr.is_empty text_preview then header
    else header +:+ nl +:+ nl +:+ "Текст/подпись:" +:+ nl +:+ text_preview in
  if String.eqb (content_type p) "text" then message header
  else if String.eqb (content_type p) "photo" then media photo (file_id p) (Some header)
  else if String.eqb (content_type p) "video" then media video (file_id p) (Some header)
  else if String.eqb (content_type p) "document" then media document (file_id p) (Some header)
  else if String.eqb (content_type p) "audio" then media audio (file_id p) (Some header)
  else if String.eqb (content_type p) "voice" then media voice (file_id p) (Some header)
  else message header.

(** The reference [on_text] looks up for a typed text. *)
Definition typed_reference (message_text : string) : string :=
  normalize_channel_input (PyStr.strip message_text).

(** ** Calls to the Bot API *)

(** The [context.bot.send_*] calls behind some actions, each with the chat
    it addresses: the sends of the handlers and, when [BOT_OWNER_ID] is
    set, the copy [event_log] sends of every entry.  The replies to and the
    edits of the message being handled are not among them: they go to the
    chat the update came from. *)
Definition bot_calls (cfg : config) (l : list action) : list (Z * payload) :=
  omap (fun a => match a with
                 | send c p _ => Some (c, p)
                 | event_log text =>
                     if BOT_OWNER_ID cfg =? 0 then None
                     else Some (BOT_OWNER_ID cfg, message ("🧾 " +:+ text))
                 | _ => None
                 end) l.

(** What these calls bring to one chat. *)
Definition calls_to (cfg : config) (chat_id : Z) (l : list action) : list payload :=
  omap (fun cp : Z * payload => if cp.1 =? chat_id then Some cp.2 else None)
       (bot_calls cfg l).

(** A deployment whose event log goes to chat 777. *)
Definition example_cfg_logged : config :=
  {| BOT_OWNER_ID := 777; DEEPLINK_SALT := "pepper"; policy_file := Some "Be kind." |}.

(** ** Further states of the small deployment *)

(** User 20 was asked for a channel. *)
Definition example_world_picking : world :=
  {| db := example_db;
     USER_STATE := {[ 20 := set_mode (Some "send_pick_channel") fresh_state ]};
     trace := [] |}.

(** Moderation is on and user 20 has selected the channel. *)
Definition example_world_moderated : world :=
  {| db := example_db;
     USER_STATE := {[ 20 := set_selected_chat_id (Some (-1001234567)) fresh_state ]};
     trace := [] |}.

(** The owner is about to add, or remove, a reviewer of the channel. *)
Definition example_world_reviewers (m : string) : world :=
  {| db := set_reviewers_mode (-1001234567) "selected" example_db;
     USER_STATE := {[ 10 := set_rv_chat_id (Some (-1001234567))
                              (set_mode (Some m) fresh_state) ]};
     trace := [] |}.

(** A photo in two sizes with a caption. *)
Definition example_photo : media_message :=
  {| msg_photo := ["small-id"; "large-id"]; msg_video := None; msg_document := None;
     msg_audio := None; msg_voice := None; msg_caption := Some " hi " |}.

(** User 99 never saw the policy. *)
Definition example_stranger : Z := 99.

(** A byte of a visible ASCII character: no whitespace and no part of a
    longer character. *)
Definition visible (b : N) : Prop := (32 < b)%N ∧ (b < 128)%N.

(** ** Every update the dispatcher routes *)

Inductive update :=
| gated (u : gated_update)              (* /start, texts, media, send and moderation buttons *)
| policy_button (data : callback_data)  (* accept or decline *)
| menu_button (data : Menu.data).       (* every other button *)

(** An update as it arrives: from a user, with the platform as it answers
    while the update is handled. *)
Record event := {
  ev_platform : platform;
  ev_user : Z;
  ev_update : update
}.

Definition deliver (cfg : config) (s : Menu.state) (e : event) : Menu.state :=
  match ev_update e with
  | gated u =>
      Menu.run (Menu.lift (fun w => (tt, handle cfg (ev_platform e) (ev_user e) u w))) s
  | policy_button data =>
      Menu.run (Menu.lift (on_policy_callbacks cfg (ev_platform e) (ev_user e) data)) s
  | menu_button data => Menu.press cfg (ev_platform e) (ev_user e) data s
  end.

(** The state after the updates [es], handled one after the other from a
    fresh database. *)
Definition history (cfg : config) (es : list event) : Menu.state :=
  foldl (deliver cfg) (Menu.of_world initial_world) es.

(** ** What the tables promise each other *)

Definition bound (d : database) (chat_id : Z) : Prop :=
  is_Some (get_channel_by_chat_id d chat_id).

Record consistent (d : database) : Prop := {
  settings_known : ∀ c row,
    channels d !! c = Some row →
    (moderation row = 0 ∨ moderation row = 1)
    ∧ reviewers_mode row ∈ ["owner"; "admins"; "selected"];
  deeplinks_bound : ∀ code row,
    deeplinks d !! code = Some row → bound d (dl_chat_id row);
  reviewers_bound : ∀ c u t,
    channel_reviewers d !! (c, u) = Some t → bound d c;
  submissions_bound : ∀ i row,
    submissions d !! i = Some row →
    0 < i ∧ bound d (s_chat_id row)
    ∧ s_status row ∈ [STATUS_PENDING; STATUS_SENT; STATUS_REJECTED]
}.

(** ** Statements committed to the database *)

Inductive statement :=
| plain (q : db_write)
| moderation_set (chat_id moderation : Z)            (* set_channel_moderation *)
| reviewers_mode_set (chat_id : Z) (mode : string).  (* set_reviewers_mode *)

Definition statement_of (a : Menu.act) : option statement :=
  match a with
  | Menu.base (commit q) => Some (plain q)
  | Menu.commit_moderation c v => Some (moderation_set c v)
  | Menu.commit_reviewers_mode c m => Some (reviewers_mode_set c m)
  | _ => None
  end.

(** The statements among some actions, in their order. *)
Definition statements (l : list Menu.act) : list statement := omap statement_of l.

Definition apply_statement (now : string) (q : statement) (d : database) : database :=
  match q with
  | plain q => apply_write now q d
  | moderation_set c v => set_channel_moderation c v d
  | reviewers_mode_set c m => set_reviewers_mode c m d
  end.

(** What the handlers have checked of a statement when they commit it. *)
Definition checked (d : database) (q : statement) : Prop :=
  match q with
  | plain (w_set_user_consent _ a _) => a = 0 ∨ a = 1
  | plain (w_upsert_channel _ _ _ m) => m = 1
  | plain (w_add_reviewer c _) => bound d c
  | plain (w_remove_reviewer c _) => bound d c
  | plain (w_create_deeplink _ c) => bound d c
  | plain (w_create_submission c _ _ _ _ s) =>
      bound d c ∧ s ∈ [STATUS_PENDING; STATUS_SENT]
  | plain (w_set_submission_status i s) =>
      (∃ row, get_submission d i = Some row ∧ s_status row = STATUS_PENDING)
      ∧ s ∈ [STATUS_SENT; STATUS_REJECTED]
  | moderation_set c v => bound d c ∧ (v = 0 ∨ v = 1)
  | reviewers_mode_set c m => bound d c ∧ m ∈ ["owner"; "admins"; "selected"]
  end.

(** ** Vocabulary of the statements on the menu *)


(** The callback data of the buttons of a keyboard, row by row. *)
Definition button_data (kb : UI.markup) : list string := (concat kb).*2.

(** The world of the other handlers that a state of the menu stands for. *)
Definition world_of (s : Menu.state) : world := Menu.to_world s.

(** * Properties *)

Local Open Scope bot_scope.

(** ** Running the monad *)

Lemma st_result uid w : fst (st uid w) = state_in (USER_STATE w) uid.
Proof. unfold st, state_in. by destruct (USER_STATE w !! uid). Qed.

Lemma st_world uid w :
  snd (st uid w)
  = {| db := db w; USER_STATE := <[uid := state_in (USER_STATE w) uid]> (USER_STATE w);
       trace := trace w |}.
Proof.
  unfold st, state_in. destruct (USER_STATE w !! uid) eqn:E; cbn; [|done].
  rewrite insert_id by done. by destruct w.
Qed.

Lemma update_st_world uid f w :
  snd (update_st uid f w)
  = {| db := db w; USER_STATE := <[uid := f (state_in (USER_STATE w) uid)]> (USER_STATE w);
       trace := trace w |}.
Proof.
  unfold update_st, bind. cbn [snd]. rewrite st_result, st_world.
  cbn. by rewrite insert_insert_eq.
Qed.

Lemma reset_send_world uid w :
  snd (reset_send uid w)
  = {| db := db w; USER_STATE := <[uid := cleared (state_in (USER_STATE w) uid)]> (USER_STATE w);
       trace := trace w |}.
Proof. unfold reset_send. by rewrite update_st_world. Qed.

Lemma state_in_insert uid s m : state_in (<[uid := s]> m) uid = s.
Proof. unfold state_in. by rewrite lookup_insert_eq. Qed.

(** Symbolic execution of a handler: the monad is unfolded, the state
    helpers are replaced by their effect on the world. *)
Ltac run_m :=
  repeat (unfold run, result, bind, ret, perform, exec, read_db, bot_send,
                 create_submission_id, log, with_db, state_of;
          rewrite ?st_result, ?st_world, ?update_st_world, ?reset_send_world;
          cbn [fst snd db USER_STATE trace negb decision_data apply_write];
          rewrite ?state_in_insert, ?insert_insert_eq).

Ltac tidy := rewrite <- ?app_assoc; cbn [app].

Lemma new_actions_app w d m l :
  new_actions w {| db := d; USER_STATE := m; trace := trace w ++ l |} = l.
Proof. unfold new_actions; cbn. by rewrite drop_app_length. Qed.

Lemma new_actions_log w l : new_actions w (log w l) = l.
Proof. apply new_actions_app. Qed.

Lemma new_actions_log_db w d l : new_actions w (log (with_db d w) l) = l.
Proof. apply (new_actions_app w d (USER_STATE w) l). Qed.

(** ** The consent gate *)

Lemma gate_open cfg env uid w :
  consented cfg w uid → ensure_consent_or_show cfg env uid w = (true, w).
Proof.
  intros [Hu Ha]. unfold ensure_consent_or_show.
  destruct (Z.eqb_spec uid 0) as [|_]; [done|].
  run_m. by rewrite Ha.
Qed.

Lemma gate_cases cfg env uid w :
  (consented cfg w uid ∧ ensure_consent_or_show cfg env uid w = (true, w))
  ∨ (¬ consented cfg w uid
     ∧ ∃ l, ensure_consent_or_show cfg env uid w = (false, log w l)
            ∧ (l = [] ∨ l = policy_prompt cfg env)).
Proof.
  destruct (Z.eqb_spec uid 0) as [E|N].
  - right. split; [intros [? _]; done|]. exists []. split; [|by left].
    unfold ensure_consent_or_show. subst uid. cbn. unfold ret, log.
    rewrite app_nil_r. by destruct w.
  - destruct (user_is_allowed cfg (db w) uid) eqn:Ha.
    + left. split; [done|]. by apply gate_open.
    + right. split; [intros [_ ?]; congruence|]. exists (policy_prompt cfg env).
      split; [|by right]. unfold ensure_consent_or_show, policy_prompt.
      destruct (Z.eqb_spec uid 0); [done|]. run_m. rewrite Ha.
      destruct (markdown_error env); run_m; tidy; reflexivity.
Qed.

Lemma quiet_policy_prompt cfg env : quiet (policy_prompt cfg env).
Proof. unfold quiet, policy_prompt. destruct (markdown_error env); repeat constructor. Qed.

(** Entering a handler whose user passes the gate. *)
Ltac enter H :=
  unfold run; unfold bind at 1; rewrite (gate_open _ _ _ _ H); cbn [fst snd negb].

(** ** Publishing *)

Lemma post_to_channel_payload env chat_id p :
  post_to_channel env chat_id p = bot_send env chat_id (channel_payload p) None.
Proof.
  unfold post_to_channel, channel_payload.
  repeat match goal with
         | |- context [String.eqb ?a ?b] => destruct (String.eqb a b); [reflexivity|]
         end.
  reflexivity.
Qed.

(** ** Moderation decisions, branch by branch *)

Section Moderation.
Variables (cfg : config) (env : platform) (uid sub_id : Z) (w : world).
Hypothesis Hgate : consented cfg w uid.

Lemma on_moderation_missing dec :
  get_submission (db w) sub_id = None →
  run (on_moderation cfg env uid (decision_data dec sub_id)) w
  = log w [answer None; edit_message_text "Заявка не найдена." None].
Proof.
  intros Hrow. unfold on_moderation. enter Hgate.
  destruct dec; run_m; rewrite Hrow; run_m; tidy; reflexivity.
Qed.

Variable row : submission_row.
Hypothesis Hrow : get_submission (db w) sub_id = Some row.

Lemma on_moderation_decided dec :
  s_status row ≠ STATUS_PENDING →
  run (on_moderation cfg env uid (decision_data dec sub_id)) w
  = log w [answer None; edit_message_text "Уже обработано." None].
Proof.
  intros Hst. apply String.eqb_neq in Hst. unfold on_moderation. enter Hgate.
  destruct dec; run_m; rewrite Hrow, Hst; run_m; tidy; reflexivity.
Qed.

Hypothesis Hpending : s_status row = STATUS_PENDING.

Lemma on_moderation_denied dec :
  can_moderate env (db w) (s_chat_id row) uid = false →
  run (on_moderation cfg env uid (decision_data dec sub_id)) w
  = log w [answer None; edit_message_text "Нет доступа." None].
Proof.
  intros Hcan. unfold on_moderation. enter Hgate.
  destruct dec; run_m; rewrite Hrow, Hpending, String.eqb_refl, Hcan;
    run_m; tidy; reflexivity.
Qed.

Hypothesis Hcan : can_moderate env (db w) (s_chat_id row) uid = true.

Lemma on_moderation_approve_published :
  send_error env (s_chat_id row) (channel_payload (pending_of row)) = None →
  run (on_moderation cfg env uid (mod_ok sub_id)) w
  = log (with_db (set_submission_status sub_id STATUS_SENT (db w)) w)
      [ answer None;
        send (s_sender_user_id row)
             (message "Отправка сообщения была одобрена проверкой ✅") None;
        send (s_chat_id row) (channel_payload (pending_of row)) None;
        commit (w_set_submission_status sub_id STATUS_SENT);
        send (s_sender_user_id row) (message "Сообщение отправлено ✅") None;
        edit_message_text "✅ Одобрено и опубликовано" None;
        event_log ("Сообщение одобрено и отправлено: channel="
                   +:+ PyStr.str (s_chat_id row) +:+ ", sid=" +:+ PyStr.str sub_id) ].
Proof.
  intros Hsend. unfold on_moderation. enter Hgate.
  run_m; rewrite Hrow, Hpending, String.eqb_refl, Hcan; run_m.
  rewrite post_to_channel_payload. run_m. fold (pending_of row). rewrite Hsend.
  run_m. tidy. reflexivity.
Qed.

Lemma on_moderation_approve_failed e :
  send_error env (s_chat_id row) (channel_payload (pending_of row)) = Some e →
  run (on_moderation cfg env uid (mod_ok sub_id)) w
  = log w
      [ answer None;
        send (s_sender_user_id row)
             (message "Отправка сообщения была одобрена проверкой ✅") None;
        send (s_chat_id row) (channel_payload (pending_of row)) None;
        edit_message_text ("Ошибка отправки в канал: " +:+ e) None;
        event_log ("Ошибка при публикации после одобрения: channel="
                   +:+ PyStr.str (s_chat_id row) +:+ ", sid=" +:+ PyStr.str sub_id) ].
Proof.
  intros Hsend. unfold on_moderation. enter Hgate.
  run_m; rewrite Hrow, Hpending, String.eqb_refl, Hcan; run_m.
  rewrite post_to_channel_payload. run_m. fold (pending_of row). rewrite Hsend.
  run_m. tidy. reflexivity.
Qed.

Lemma on_moderation_reject :
  run (on_moderation cfg env uid (mod_no sub_id)) w
  = log (with_db (set_submission_status sub_id STATUS_REJECTED (db w)) w)
      [ answer None;
        commit (w_set_submission_status sub_id STATUS_REJECTED);
        send (s_sender_user_id row) (message "Сообщение отклонено ❌") None;
        edit_message_text "❌ Отклонено" None;
        event_log ("Сообщение отклонено: channel="
                   +:+ PyStr.str (s_chat_id row) +:+ ", sid=" +:+ PyStr.str sub_id) ].
Proof.
  unfold on_moderation. enter Hgate.
  run_m; rewrite Hrow, Hpending, String.eqb_refl, Hcan; run_m.
  tidy. reflexivity.
Qed.
End Moderation.

Lemma status_of_set w i st row :
  get_submission (db w) i = Some row →
  status_of (with_db (set_submission_status i st (db w)) w) i = Some st.
Proof.
  unfold status_of, get_submission, with_db, set_submission_status; cbn. intros H.
  rewrite lookup_alter_eq. by rewrite H.
Qed.

Lemma status_of_log_db w d l i :
  status_of (log (with_db d w) l) i = status_of (with_db d w) i.
Proof. reflexivity. Qed.

(** A decision either leaves the database alone or moves a pending
    submission to [sent] or [rejected]. *)
Lemma on_moderation_db cfg env uid dec sub_id w :
  let w' := run (on_moderation cfg env uid (decision_data dec sub_id)) w in
  db w' = db w
  ∨ (status_of w sub_id = Some STATUS_PENDING
     ∧ (status_of w' sub_id = Some STATUS_SENT ∨ status_of w' sub_id = Some STATUS_REJECTED)).
Proof.
  intros w'. subst w'.
  destruct (gate_cases cfg env uid w) as [[Hc _]|[_ (l & Hl & _)]].
  2:{ left. unfold on_moderation, run. unfold bind at 1. rewrite Hl. reflexivity. }
  destruct (get_submission (db w) sub_id) as [row|] eqn:Hrow.
  2:{ left. by rewrite on_moderation_missing. }
  destruct (decide (s_status row = STATUS_PENDING)) as [Hp|Hp].
  2:{ left. by erewrite on_moderation_decided. }
  destruct (can_moderate env (db w) (s_chat_id row) uid) eqn:Hcan.
  2:{ left. by erewrite on_moderation_denied. }
  assert (status_of w sub_id = Some STATUS_PENDING) as Hs
    by (unfold status_of; rewrite Hrow; cbn; by rewrite Hp).
  destruct dec; cbn [decision_data].
  - destruct (send_error env (s_chat_id row) (channel_payload (pending_of row))) eqn:Hs'.
    + left. by erewrite on_moderation_approve_failed.
    + right. split; [done|]. left. erewrite on_moderation_approve_published by done.
      rewrite status_of_log_db. by eapply status_of_set.
  - right. split; [done|]. right. erewrite on_moderation_reject by done.
    rewrite status_of_log_db. by eapply status_of_set.
Qed.

(** Once decided, a submission is final: a later decision changes nothing
    and neither sends nor commits anything. *)
Lemma decided_is_final cfg env uid dec sub_id w st :
  status_of w sub_id = Some st → st ≠ STATUS_PENDING →
  let w' := run (on_moderation cfg env uid (decision_data dec sub_id)) w in
  db w' = db w ∧ quiet (new_actions w w')
  ∧ (consented cfg w uid →
     new_actions w w' = [answer None; edit_message_text "Уже обработано." None]).
Proof.
  intros Hst Hne w'. subst w'.
  unfold status_of in Hst.
  destruct (get_submission (db w) sub_id) as [row|] eqn:Hrow; [|done].
  cbn in Hst. injection Hst as <-.
  destruct (gate_cases cfg env uid w) as [[Hc _]|[Hn (l & Hl & Hq)]].
  - erewrite on_moderation_decided by done. rewrite new_actions_log.
    split; [done|]. split; [repeat constructor|done].
  - assert (run (on_moderation cfg env uid (decision_data dec sub_id)) w = log w l) as ->.
    { unfold on_moderation, run. unfold bind at 1. rewrite Hl. reflexivity. }
    rewrite new_actions_log. split; [done|]. split; [|done].
    destruct Hq as [->| ->]; [constructor|apply quiet_policy_prompt].
Qed.

(** However many decisions follow, a decided submission keeps its status. *)
Lemma decided_stays_decided cfg sub_id l w st :
  status_of w sub_id = Some st → st ≠ STATUS_PENDING →
  db (later_decisions cfg sub_id l w) = db w.
Proof.
  intros Hst Hne. revert w Hst. unfold later_decisions.
  induction l as [|[[env uid] dec] l IH]; intros w Hst; [reflexivity|].
  cbn [fold_left fst snd].
  destruct (decided_is_final cfg env uid dec sub_id w st Hst Hne) as (Hdb & _).
  rewrite IH; [done|]. unfold status_of. by rewrite Hdb.
Qed.

(** Claim C1.  The transitions pending -> sent and pending -> rejected
    are one-way and exclusive.  When two decisions (each an approval or a
    rejection, by any users, under any platform behaviour) are applied to
    the same submission and the first one changes its status, then the
    status was [pending] and has become [sent] or [rejected]; the second
    decision leaves the database as it is, makes no Bot API send and no
    commit, and, for a reviewer who passes the consent gate, consists of
    the acknowledgement and the message "Уже обработано." only.  So at
    most one of the two changes the status. *)
Theorem decisions_are_exclusive cfg env1 env2 uid1 uid2 dec1 dec2 sub_id w0 :
  let w1 := run (on_moderation cfg env1 uid1 (decision_data dec1 sub_id)) w0 in
  let w2 := run (on_moderation cfg env2 uid2 (decision_data dec2 sub_id)) w1 in
  status_of w1 sub_id ≠ status_of w0 sub_id →
  status_of w0 sub_id = Some STATUS_PENDING
  ∧ (status_of w1 sub_id = Some STATUS_SENT ∨ status_of w1 sub_id = Some STATUS_REJECTED)
  ∧ db w2 = db w1
  ∧ quiet (new_actions w1 w2)
  ∧ (consented cfg w1 uid2 →
     new_actions w1 w2 = [answer None; edit_message_text "Уже обработано." None]).
Proof.
  intros w1 w2 Hch.
  destruct (on_moderation_db cfg env1 uid1 dec1 sub_id w0) as [Hdb|[Hp Hs]].
  - exfalso. apply Hch. unfold status_of. fold w1 in Hdb. by rewrite Hdb.
  - fold w1 in Hs. split; [done|]. split; [done|].
    assert (∃ st, status_of w1 sub_id = Some st ∧ st ≠ STATUS_PENDING) as (st & Hst & Hne)
      by (destruct Hs as [-> | ->]; eexists; split; try reflexivity; discriminate).
    apply (decided_is_final cfg env2 uid2 dec2 sub_id w1 st Hst Hne).
Qed.

(** In the example deployment the owner approves submission 1 and then
    tries to reject it. *)
Lemma decisions_are_exclusive_witness :
  let w1 := run (on_moderation example_cfg example_env 10 (mod_ok 1)) example_world in
  let w2 := run (on_moderation example_cfg example_env 10 (mod_no 1)) w1 in
  status_of example_world 1 = Some STATUS_PENDING
  ∧ status_of w1 1 = Some STATUS_SENT
  ∧ db w2 = db w1
  ∧ new_actions w1 w2 = [answer None; edit_message_text "Уже обработано." None].
Proof.
  intros w1 w2.
  destruct (decisions_are_exclusive example_cfg example_env example_env 10 10
              approve reject 1 example_world) as (H0 & _ & H2 & _ & H4).
  - vm_compute. discriminate.
  - split; [exact H0|]. split; [vm_compute; reflexivity|]. split; [exact H2|].
    apply H4. split; [discriminate|vm_compute; reflexivity].
Defined.

(** Claim C2, as stated, fails: in the approval of the pending submission
    1 of the example deployment the sender (user 20) is written to before
    anything is sent into the channel, so the order "publish, commit,
    notify" does not hold. *)
Lemma approve_order_counterexample :
  ¬ approve_order_claimed
      (new_actions example_world
         (run (on_moderation example_cfg example_env 10 (mod_ok 1)) example_world))
      (-1001234567) 20 1.
Proof.
  intros (i & j & k & Hi & Hj & Hk & Hij & Hjk).
  vm_compute in Hi, Hj, Hk.
  injection Hi as <-. injection Hj as <-. injection Hk as <-. lia.
Qed.

(** Claim C2, amended.  When an authorised reviewer approves a pending
    submission, the handler acknowledges the press, sends the sender the
    notice that the submission was approved, then sends the content into
    the channel; if that send succeeds it commits the status [sent], then
    tells the sender the message was sent, then reports to the reviewer.
    For a rejection it commits [rejected] and then notifies the sender. *)
Theorem decision_order cfg env uid sub_id w row :
  consented cfg w uid →
  get_submission (db w) sub_id = Some row →
  s_status row = STATUS_PENDING →
  can_moderate env (db w) (s_chat_id row) uid = true →
  new_actions w (run (on_moderation cfg env uid (mod_ok sub_id)) w)
  = [ answer None;
      send (s_sender_user_id row)
           (message "Отправка сообщения была одобрена проверкой ✅") None;
      send (s_chat_id row) (channel_payload (pending_of row)) None ]
    ++ match send_error env (s_chat_id row) (channel_payload (pending_of row)) with
       | None =>
           [ commit (w_set_submission_status sub_id STATUS_SENT);
             send (s_sender_user_id row) (message "Сообщение отправлено ✅") None;
             edit_message_text "✅ Одобрено и опубликовано" None;
             event_log ("Сообщение одобрено и отправлено: channel="
                        +:+ PyStr.str (s_chat_id row) +:+ ", sid=" +:+ PyStr.str sub_id) ]
       | Some e =>
           [ edit_message_text ("Ошибка отправки в канал: " +:+ e) None;
             event_log ("Ошибка при публикации после одобрения: channel="
                        +:+ PyStr.str (s_chat_id row) +:+ ", sid=" +:+ PyStr.str sub_id) ]
       end
  ∧ new_actions w (run (on_moderation cfg env uid (mod_no sub_id)) w)
    = [ answer None;
        commit (w_set_submission_status sub_id STATUS_REJECTED);
        send (s_sender_user_id row) (message "Сообщение отклонено ❌") None;
        edit_message_text "❌ Отклонено" None;
        event_log ("Сообщение отклонено: channel="
                   +:+ PyStr.str (s_chat_id row) +:+ ", sid=" +:+ PyStr.str sub_id) ].
Proof.
  intros Hc Hrow Hp Hcan. split.
  - destruct (send_error env (s_chat_id row) (channel_payload (pending_of row))) eqn:Hs.
    + erewrite on_moderation_approve_failed by done. by rewrite new_actions_log.
    + erewrite on_moderation_approve_published by done. by rewrite new_actions_log_db.
  - erewrite on_moderation_reject by done. by rewrite new_actions_log_db.
Qed.

(** The owner approves, or rejects, submission 1 of the example deployment. *)
Lemma decision_order_witness :
  new_actions example_world
    (run (on_moderation example_cfg example_env 10 (mod_ok 1)) example_world)
  = [ answer None;
      send 20 (message "Отправка сообщения была одобрена проверкой ✅") None;
      send (-1001234567) (message "hello") None;
      commit (w_set_submission_status 1 "sent");
      send 20 (message "Сообщение отправлено ✅") None;
      edit_message_text "✅ Одобрено и опубликовано" None;
      event_log "Сообщение одобрено и отправлено: channel=-1001234567, sid=1" ]
  ∧ new_actions example_world
      (run (on_moderation example_cfg example_env 10 (mod_no 1)) example_world)
    = [ answer None;
        commit (w_set_submission_status 1 "rejected");
        send 20 (message "Сообщение отклонено ❌") None;
        edit_message_text "❌ Отклонено" None;
        event_log "Сообщение отклонено: channel=-1001234567, sid=1" ].
Proof.
  destruct (decision_order example_cfg example_env 10 1 example_world
              {| s_chat_id := -1001234567; s_sender_user_id := 20;
                 s_content_type := "text"; s_text := Some "hello"; s_file_id := None;
                 s_status := STATUS_PENDING; s_created_at := "t3" |}) as [Ha Hr].
  - split; [discriminate|vm_compute; reflexivity].
  - vm_compute; reflexivity.
  - reflexivity.
  - vm_compute; reflexivity.
  - split; [rewrite Ha|rewrite Hr]; vm_compute; reflexivity.
Defined.

(** Claim C3.  If the send into the channel fails while an authorised
    reviewer approves a pending submission, nothing is committed: the
    database is unchanged, the stored status is still [pending], and the
    reviewer's message is edited to report the failure with its text. *)
Theorem publish_failure_keeps_pending cfg env uid sub_id w row e :
  consented cfg w uid →
  get_submission (db w) sub_id = Some row →
  s_status row = STATUS_PENDING →
  can_moderate env (db w) (s_chat_id row) uid = true →
  send_error env (s_chat_id row) (channel_payload (pending_of row)) = Some e →
  let w' := run (on_moderation cfg env uid (mod_ok sub_id)) w in
  db w' = db w
  ∧ status_of w' sub_id = Some STATUS_PENDING
  ∧ edit_message_text ("Ошибка отправки в канал: " +:+ e) None ∈ new_actions w w'
  ∧ Forall (fun a => match a with commit _ => False | _ => True end) (new_actions w w').
Proof.
  intros Hc Hrow Hp Hcan Hs w'. subst w'.
  erewrite on_moderation_approve_failed by done. rewrite new_actions_log.
  split; [done|]. split; [|split].
  - unfold status_of, log; cbn. rewrite Hrow. cbn. by rewrite Hp.
  - rewrite !elem_of_cons. auto.
  - repeat constructor.
Qed.

(** The owner approves submission 1 while the bot has been removed from the
    channel. *)
Lemma publish_failure_keeps_pending_witness :
  let w' := run (on_moderation example_cfg example_env_down 10 (mod_ok 1)) example_world in
  db w' = db example_world
  ∧ status_of w' 1 = Some STATUS_PENDING
  ∧ edit_message_text "Ошибка отправки в канал: Forbidden: bot was kicked" None
    ∈ new_actions example_world w'.
Proof.
  intros w'.
  destruct (publish_failure_keeps_pending example_cfg example_env_down 10 1 example_world
              {| s_chat_id := -1001234567; s_sender_user_id := 20;
                 s_content_type := "text"; s_text := Some "hello"; s_file_id := None;
                 s_status := STATUS_PENDING; s_created_at := "t3" |}
              "Forbidden: bot was kicked") as (H1 & H2 & H3 & _).
  - split; [discriminate|vm_compute; reflexivity].
  - vm_compute; reflexivity.
  - reflexivity.
  - vm_compute; reflexivity.
  - vm_compute; reflexivity.
  - split; [exact H1|]. split; [exact H2|exact H3].
Defined.

(** ** Binding a channel *)

Lemma verify_bind_ok env channel_input uid chat_id username :
  verify_bind env channel_input uid = Returned (bind_ok chat_id username)
  ↔ bind_checks env channel_input uid chat_id username.
Proof.
  unfold verify_bind, bind_checks. split.
  - destruct (get_chat env channel_input) as [[c n]| |]; try discriminate.
    destruct (get_chat_member env c (bot_id env)) as [[]| |] eqn:Hb; try discriminate.
    destruct (get_chat_member env c uid) as [[]| |] eqn:Hu; try discriminate.
    intros [= <- <-]. by rewrite Hb, Hu.
  - intros (-> & Hb & Hu). by rewrite Hb, Hu.
Qed.

Section Bind.
Variables (cfg : config) (env : platform) (uid : Z) (message_text : string) (w : world).
Hypothesis Hgate : consented cfg w uid.
Hypothesis Hmode : mode (state_of w uid) = Some "ctl_bind_wait".


Lemma on_text_bind_malformed :
  CHANNEL_INPUT_RE_match (normalize_channel_input (PyStr.strip message_text)) = false →
  run (on_text cfg env uid message_text) w
  = {| db := db w;
       USER_STATE := <[uid := state_of w uid]> (USER_STATE w);
       trace := trace w ++ [reply_text "Неверный формат. Введи @username или -100...." None] |}.
Proof.
  intros Hre. unfold on_text. enter Hgate. unfold state_of in Hmode. run_m.
  unfold is_mode. rewrite Hmode. cbn [String.eqb Ascii.eqb Bool.eqb orb].
  rewrite Hre. run_m. reflexivity.
Qed.

Hypothesis Hformat : CHANNEL_INPUT_RE_match (normalize_channel_input (PyStr.strip message_text)) = true.

Lemma on_text_bind :
  run (on_text cfg env uid message_text) w
  = match verify_bind env (normalize_channel_input (PyStr.strip message_text)) uid with
    | Raised _ =>
        {| db := db w; USER_STATE := <[uid := state_of w uid]> (USER_STATE w);
           trace := trace w |}
    | Returned (bind_refused reason) =>
        {| db := db w; USER_STATE := <[uid := state_of w uid]> (USER_STATE w);
           trace := trace w ++ [reply_text ("❌ Не удалось привязать: " +:+ reason) None] |}
    | Returned (bind_ok chat_id username) =>
        {| db := upsert_channel (now env) chat_id username uid 1 (db w);
           USER_STATE := <[uid := set_mode None (state_of w uid)]> (USER_STATE w);
           trace := trace w
             ++ [ commit (w_upsert_channel chat_id username uid 1);
                  reply_text
                    ("✅ Канал привязан." +:+ nl +:+ "chat_id: " +:+ PyStr.str chat_id +:+ nl
                     +:+ "username: "
                     +:+ match username with
                         | Some u => if PyStr.is_empty u then "нет" else "@" +:+ u
                         | None => "нет"
                         end
                     +:+ nl +:+ "Модерация: ВКЛ")
                    (Some main_menu);
                  event_log ("Канал привязан: channel=" +:+ PyStr.str chat_id) ] |}
    end.
Proof.
  unfold on_text. enter Hgate. unfold state_of in Hmode. run_m.
  unfold is_mode. rewrite Hmode. cbn [String.eqb Ascii.eqb Bool.eqb orb].
  rewrite Hformat. cbn [negb].
  destruct (verify_bind env (normalize_channel_input (PyStr.strip message_text)) uid) as [[c n|reason]|e]; run_m; tidy; reflexivity.
Qed.
End Bind.



(** Claim C9.  On the first successful bind of a chat the row created has
    moderation on (1) and reviewer mode [owner]; on a re-bind the stored
    [moderation], [reviewers_mode] and [created_at] are kept and only the
    handle and the owner are refreshed; the other channels are untouched;
    and binding again with the same handle and owner changes nothing. *)
Theorem rebind_keeps_settings cfg env uid message_text w chat_id username :
  consented cfg w uid →
  mode (state_of w uid) = Some "ctl_bind_wait" →
  CHANNEL_INPUT_RE_match (normalize_channel_input (PyStr.strip message_text)) = true →
  bind_checks env (normalize_channel_input (PyStr.strip message_text)) uid chat_id username →
  let w' := run (on_text cfg env uid message_text) w in
  channels (db w') !! chat_id
  = Some match channels (db w) !! chat_id with
         | None =>
             {| username := username; owner_user_id := uid; moderation := 1;
                reviewers_mode := "owner"; ch_created_at := now env |}
         | Some old =>
             {| username := username; owner_user_id := uid;
                moderation := moderation old; reviewers_mode := reviewers_mode old;
                ch_created_at := ch_created_at old |}
         end
  ∧ (∀ c, c ≠ chat_id → channels (db w') !! c = channels (db w) !! c)
  ∧ (∀ now', upsert_channel now' chat_id username uid 1 (db w') = db w').
Proof.
  intros Hc Hmode Hre Hb w'. subst w'.
  rewrite on_text_bind by done. apply verify_bind_ok in Hb. rewrite Hb.
  cbn [db]. unfold upsert_channel at 1 2. cbn [channels].
  destruct (channels (db w) !! chat_id) as [[n o m rm ca]|] eqn:Hold; cbn.
  - rewrite lookup_insert_eq. split; [done|]. split.
    + intros c Hne. by rewrite lookup_insert_ne.
    + intros now'. unfold upsert_channel; cbn. rewrite Hold, lookup_insert_eq.
      by rewrite insert_insert_eq.
  - rewrite lookup_insert_eq. split; [done|]. split.
    + intros c Hne. by rewrite lookup_insert_ne.
    + intros now'. unfold upsert_channel; cbn. rewrite Hold, lookup_insert_eq.
      by rewrite insert_insert_eq.
Qed.

(** The owner re-binds a channel whose moderation was switched off and whose
    reviewer mode was set to [admins]. *)
Lemma rebind_keeps_settings_witness :
  let w := {| db := set_reviewers_mode (-1001234567) "admins"
                      (set_channel_moderation (-1001234567) 0 example_db);
              USER_STATE := USER_STATE example_world_binding; trace := [] |} in
  let w' := run (on_text example_cfg example_env 10 "@gossip") w in
  channels (db w') !! (-1001234567)
  = Some {| username := Some "gossip"; owner_user_id := 10; moderation := 0;
            reviewers_mode := "admins"; ch_created_at := "t2" |}.
Proof.
  intros w w'.
  destruct (rebind_keeps_settings example_cfg example_env 10 "@gossip" w
              (-1001234567) (Some "gossip")) as (H1 & _).
  - split; [discriminate|vm_compute; reflexivity].
  - vm_compute; reflexivity.
  - vm_compute; reflexivity.
  - repeat split; vm_compute; reflexivity.
  - subst w'. rewrite H1. vm_compute. reflexivity.
Defined.

(** ** Who may moderate *)

Lemma list_reviewers_elem d chat_id user_id :
  user_id ∈ list_reviewers d chat_id ↔ in_allowlist d chat_id user_id.
Proof.
  unfold list_reviewers, in_allowlist. rewrite list_elem_of_In, in_map_iff. split.
  - intros ([c u] & Hu & Hin). cbn in Hu. subst u.
    apply list_elem_of_In, list_elem_of_filter in Hin as [Hc Hin]. cbn in Hc. subst c.
    apply list_elem_of_In, in_map_iff in Hin as ([k v] & Hk & Hin). cbn in Hk. subst k.
    apply list_elem_of_In, elem_of_map_to_list in Hin. by exists v.
  - intros [v Hv]. exists (chat_id, user_id). split; [done|].
    apply list_elem_of_In, list_elem_of_filter. split; [done|].
    apply list_elem_of_In, in_map_iff. exists (chat_id, user_id, v). split; [done|].
    by apply list_elem_of_In, elem_of_map_to_list.
Qed.

(** Claim C5.  [can_moderate] is false for a chat that is not bound.  For
    a bound chat it is true for the owner whatever the reviewer mode; for
    any other user it is false in mode [owner], it is true in mode
    [selected] iff the user is on the chat's allow-list, and it is true in
    mode [admins] iff the platform, asked now, reports the user as an
    administrator or the owner of the chat. *)
Theorem can_moderate_cases env d chat_id user_id :
  (get_channel_by_chat_id d chat_id = None →
   can_moderate env d chat_id user_id = false)
  ∧ (∀ row, get_channel_by_chat_id d chat_id = Some row →
       (user_id = owner_user_id row → can_moderate env d chat_id user_id = true)
       ∧ (user_id ≠ owner_user_id row →
          (reviewers_mode row = "owner" → can_moderate env d chat_id user_id = false)
          ∧ (reviewers_mode row = "selected" →
             (can_moderate env d chat_id user_id = true
              ↔ in_allowlist d chat_id user_id))
          ∧ (reviewers_mode row = "admins" →
             (can_moderate env d chat_id user_id = true
              ↔ get_chat_member env chat_id user_id = Ok ADMINISTRATOR
                ∨ get_chat_member env chat_id user_id = Ok OWNER)))).
Proof.
  unfold can_moderate. split; [by intros ->|].
  intros row ->. split.
  - intros ->. by rewrite Z.eqb_refl.
  - intros Hne. apply Z.eqb_neq in Hne. rewrite Hne. split; [|split].
    + by intros ->.
    + intros ->. cbn. rewrite bool_decide_eq_true. apply list_reviewers_elem.
    + intros ->. cbn.
      destruct (get_chat_member env chat_id user_id) as [[]| |]; split;
        try done; try (by intros [|]); auto.
Qed.

(** The owner, a stranger, a listed reviewer, an administrator, and a chat
    that is not bound. *)
Lemma can_moderate_cases_witness :
  let selected := add_reviewer "t4" (-1001234567) 30
                    (set_reviewers_mode (-1001234567) "selected" example_db) in
  let admins := set_reviewers_mode (-1001234567) "admins" example_db in
  can_moderate example_env example_db (-1001234567) 10 = true
  ∧ can_moderate example_env example_db (-1001234567) 30 = false
  ∧ can_moderate example_env selected (-1001234567) 30 = true
  ∧ can_moderate example_env admins (-1001234567) 7000 = true
  ∧ can_moderate example_env example_db 5 10 = false.
Proof.
  intros selected admins.
  pose (row m := {| username := Some "gossip"; owner_user_id := 10; moderation := 1;
                    reviewers_mode := m; ch_created_at := "t2" |}).
  destruct (can_moderate_cases example_env example_db (-1001234567) 10) as [_ H1].
  destruct (H1 (row "owner")) as [H1' _]; [vm_compute; reflexivity|].
  destruct (can_moderate_cases example_env example_db (-1001234567) 30) as [_ H2].
  destruct (H2 (row "owner")) as [_ H2']; [vm_compute; reflexivity|].
  destruct H2' as (H2'' & _); [discriminate|].
  destruct (can_moderate_cases example_env selected (-1001234567) 30) as [_ H3].
  destruct (H3 (row "selected")) as [_ H3']; [vm_compute; reflexivity|].
  destruct H3' as (_ & H3'' & _); [discriminate|].
  destruct (can_moderate_cases example_env admins (-1001234567) 7000) as [_ H4].
  destruct (H4 (row "admins")) as [_ H4']; [vm_compute; reflexivity|].
  destruct H4' as (_ & _ & H4''); [discriminate|].
  destruct (can_moderate_cases example_env example_db 5 10) as [H5 _].
  split; [apply H1'; reflexivity|].
  split; [apply H2''; reflexivity|].
  split; [apply H3''; [reflexivity|]; exists "t4"; vm_compute; reflexivity|].
  split; [apply H4''; [reflexivity|]; left; vm_compute; reflexivity|].
  apply H5. vm_compute; reflexivity.
Defined.

(** ** Consent *)

Lemma consent_step_db w e :
  db (consent_step w e)
  = set_user_consent (now (ce_env e)) (ce_uid e) (if ce_accept e then 1 else 0)
                     (POLICY_HASH (ce_cfg e)) (db w).
Proof.
  unfold consent_step, on_policy_callbacks. destruct (ce_accept e); run_m; reflexivity.
Qed.

Lemma consent_history_snoc h e w :
  consent_history (h ++ [e]) w = consent_step (consent_history h w) e.
Proof. unfold consent_history. by rewrite fold_left_app. Qed.

Lemma latest_decision_snoc uid h e :
  latest_decision uid (h ++ [e])
  = if ce_uid e =? uid then Some e else latest_decision uid h.
Proof. unfold latest_decision. by rewrite rev_app_distr. Qed.

Lemma get_user_consent_history uid h :
  get_user_consent (db (consent_history h initial_world)) uid
  = match latest_decision uid h with
    | Some e => Some (if ce_accept e then 1 else 0, POLICY_HASH (ce_cfg e))
    | None => None
    end.
Proof.
  induction h as [|e h IH] using rev_ind; [reflexivity|].
  rewrite consent_history_snoc, latest_decision_snoc, consent_step_db.
  unfold get_user_consent, set_user_consent in *. cbn [user_consents].
  destruct (Z.eqb_spec (ce_uid e) uid) as [->|Hne].
  - by rewrite lookup_insert_eq.
  - by rewrite lookup_insert_ne.
Qed.

(** Claim C6.  After any history of consent decisions, starting from an
    empty database, a user is allowed iff the latest decision recorded for
    that user accepted the policy and the hash stored with it equals the
    current policy hash; a user with no recorded decision is not allowed;
    and over any database a user allowed under one policy hash is not
    allowed under a different one. *)
Theorem allowed_iff_latest_accept cfg h uid :
  user_is_allowed cfg (db (consent_history h initial_world)) uid = isAllowed cfg uid h
  ∧ (user_is_allowed cfg (db (consent_history h initial_world)) uid = true
     ↔ ∃ e, latest_decision uid h = Some e ∧ ce_accept e = true
            ∧ POLICY_HASH (ce_cfg e) = POLICY_HASH cfg)
  ∧ (latest_decision uid h = None →
     user_is_allowed cfg (db (consent_history h initial_world)) uid = false)
  ∧ (∀ cfg' d, POLICY_HASH cfg' ≠ POLICY_HASH cfg →
               user_is_allowed cfg d uid = true → user_is_allowed cfg' d uid = false).
Proof.
  assert (user_is_allowed cfg (db (consent_history h initial_world)) uid
          = isAllowed cfg uid h) as Heq.
  { unfold user_is_allowed, isAllowed. rewrite get_user_consent_history.
    destruct (latest_decision uid h) as [e|]; [|done]. by destruct (ce_accept e). }
  split; [done|]. rewrite Heq. unfold isAllowed. split; [|split].
  - destruct (latest_decision uid h) as [e|]; [|split; [done|by intros (? & ? & _)]].
    rewrite andb_true_iff, String.eqb_eq. split.
    + intros [? ?]. by exists e.
    + intros (e' & [= <-] & ? & ?). done.
  - by intros ->.
  - intros cfg' d Hne. unfold user_is_allowed.
    destruct (get_user_consent d uid) as [[a ph]|]; [|done].
    rewrite andb_true_iff, String.eqb_eq. intros [_ ->].
    apply andb_false_iff. right. apply String.eqb_neq. congruence.
Qed.

(** User 20 declines then accepts, or accepts then declines; user 10 never
    decided; and the policy file is edited afterwards. *)
Lemma allowed_iff_latest_accept_witness :
  let accept := {| ce_cfg := example_cfg; ce_env := example_env; ce_uid := 20;
                   ce_accept := true |} in
  let decline := {| ce_cfg := example_cfg; ce_env := example_env; ce_uid := 20;
                    ce_accept := false |} in
  user_is_allowed example_cfg (db (consent_history [decline; accept] initial_world)) 20 = true
  ∧ user_is_allowed example_cfg (db (consent_history [accept; decline] initial_world)) 20 = false
  ∧ user_is_allowed example_cfg (db (consent_history [accept] initial_world)) 10 = false
  ∧ user_is_allowed example_cfg_edited
      (db (consent_history [decline; accept] initial_world)) 20 = false.
Proof.
  intros accept decline.
  destruct (allowed_iff_latest_accept example_cfg [decline; accept] 20) as (_ & H1 & _ & H4).
  destruct (allowed_iff_latest_accept example_cfg [accept; decline] 20) as (H2 & _).
  destruct (allowed_iff_latest_accept example_cfg [accept] 10) as (_ & _ & H3 & _).
  assert (user_is_allowed example_cfg
            (db (consent_history [decline; accept] initial_world)) 20 = true) as Ha.
  { apply H1. exists accept. repeat split; reflexivity. }
  split; [exact Ha|]. split; [rewrite H2; vm_compute; reflexivity|].
  split; [apply H3; reflexivity|].
  apply (H4 example_cfg_edited); [vm_compute; discriminate|exact Ha].
Defined.

(** ** Deeplinks *)

Lemma on_menu_ch_link_owner cfg env uid chat_id w row :
  consented cfg w uid →
  get_channel_by_chat_id (db w) chat_id = Some row →
  owner_user_id row = uid →
  run (on_menu_ch_link cfg env uid chat_id) w
  = {| db := create_deeplink (now env) (make_code_for_chat cfg chat_id) chat_id (db w);
       USER_STATE := USER_STATE w;
       trace := trace w
         ++ [ answer None;
              commit (w_create_deeplink (make_code_for_chat cfg chat_id) chat_id);
              edit_message_text
                ("Ссылка для отправки в этот канал:" +:+ nl
                 +:+ "https://t.me/" +:+ bot_username env +:+ "?start="
                 +:+ make_code_for_chat cfg chat_id +:+ nl +:+ nl
                 +:+ "Пользователь перейдёт по ссылке → бот запомнит канал → «Отправить».")
                (Some (link_back_kb chat_id));
              event_log ("Сгенерирована ссылка: channel=" +:+ PyStr.str chat_id) ] |}.
Proof.
  intros Hc Hrow Hown. unfold on_menu_ch_link. enter Hc. run_m.
  rewrite Hrow, Hown, Z.eqb_refl. run_m. tidy. reflexivity.
Qed.










(** ** [str.strip] *)

Lemma drop_prefix_app p l r : PyStr.drop_prefix p l = Some r → l = p ++ r.
Proof.
  revert l; induction p as [|a p IH]; intros [|b l] H; cbn in *; try congruence.
  destruct (N.eqb_spec a b) as [->|]; [|done]. f_equal. by apply IH.
Qed.

Lemma drop_prefix_extend p l r t :
  PyStr.drop_prefix p l = Some r → PyStr.drop_prefix p (l ++ t) = Some (r ++ t).
Proof.
  revert l; induction p as [|a p IH]; intros l H; cbn in *.
  - by injection H as ->.
  - destruct l as [|b l]; [done|]. cbn. destruct (N.eqb a b); [by apply IH|done].
Qed.

Lemma first_match_app ps l r :
  PyStr.first_match ps l = Some r → ∃ p, p ∈ ps ∧ l = p ++ r.
Proof.
  induction ps as [|p ps IH]; cbn; [done|].
  destruct (PyStr.drop_prefix p l) eqn:E.
  - intros [= ->]. exists p. split; [left|by apply drop_prefix_app].
  - intros H. destruct (IH H) as (q & ? & ?). exists q. split; [by right|done].
Qed.

Lemma first_match_extend ps l r t :
  PyStr.first_match ps l = Some r → is_Some (PyStr.first_match ps (l ++ t)).
Proof.
  induction ps as [|p ps IH]; cbn; [done|].
  destruct (PyStr.drop_prefix p l) eqn:E.
  - intros _. by rewrite (drop_prefix_extend _ _ _ t E).
  - intros H. destruct (PyStr.drop_prefix p (l ++ t)); [done|by apply IH].
Qed.

Lemma skips_space : skips PyStr.skip_space.
Proof.
  intros l r H. destruct (first_match_app _ _ _ H) as (p & Hp & ->).
  exists p. split; [|done]. intros ->. revert Hp. unfold PyStr.whitespace.
  rewrite !elem_of_cons, elem_of_nil. intros H'. repeat destruct H' as [H'|H']; done.
Qed.

Lemma skips_space_rev : skips PyStr.skip_space_rev.
Proof.
  intros l r H. destruct (first_match_app _ _ _ H) as (p & Hp & ->).
  exists p. split; [|done]. intros ->. revert Hp. unfold PyStr.whitespace. cbn [map rev app].
  rewrite !elem_of_cons, elem_of_nil. intros H'. repeat destruct H' as [H'|H']; done.
Qed.

Section Skip.
Variable skip : list N → option (list N).
Hypothesis Hskip : skips skip.

Lemma skip_all_stuck n l : skip l = None → PyStr.skip_all skip n l = l.
Proof. intros H. destruct n; cbn; [done|]. by rewrite H. Qed.

Lemma skip_all_suffix n l : ∃ p, l = p ++ PyStr.skip_all skip n l.
Proof.
  revert l; induction n as [|n IH]; intros l; cbn; [by exists []|].
  destruct (skip l) as [r|] eqn:E; [|by exists []].
  destruct (Hskip _ _ E) as (p & _ & ->). destruct (IH r) as (q & Hq).
  exists (p ++ q). by rewrite <- app_assoc, <- Hq.
Qed.

Lemma skip_all_done n l : (length l ≤ n)%nat → skip (PyStr.skip_all skip n l) = None.
Proof.
  revert l; induction n as [|n IH]; intros l Hn; cbn.
  - destruct l; [|cbn in Hn; lia]. destruct (skip []) as [r|] eqn:E; [|done].
    destruct (Hskip _ _ E) as (p & Hp & Hl). by destruct p.
  - destruct (skip l) as [r|] eqn:E; [|done]. apply IH.
    destruct (Hskip _ _ E) as (p & Hp & ->). rewrite length_app in Hn.
    destruct p; [done|]. cbn in Hn. lia.
Qed.
End Skip.

Lemma lstrip_bytes_done l : PyStr.skip_space (PyStr.lstrip_bytes l) = None.
Proof. apply skip_all_done; [apply skips_space|done]. Qed.

Lemma rstrip_bytes_prefix l : ∃ t, l = PyStr.rstrip_bytes l ++ t.
Proof.
  unfold PyStr.rstrip_bytes.
  destruct (skip_all_suffix _ skips_space_rev (length l) (rev l)) as (p & Hp).
  exists (rev p). rewrite <- rev_app_distr, <- Hp. by rewrite rev_involutive.
Qed.

Lemma strip_bytes_idem l :
  let r := PyStr.rstrip_bytes (PyStr.lstrip_bytes l) in
  PyStr.rstrip_bytes (PyStr.lstrip_bytes r) = r.
Proof.
  intros r.
  assert (PyStr.skip_space r = None) as Hl.
  { destruct (PyStr.skip_space r) as [x|] eqn:E; [|done].
    destruct (rstrip_bytes_prefix (PyStr.lstrip_bytes l)) as (t & Ht). fold r in Ht.
    destruct (first_match_extend _ _ _ t E) as (y & Hy).
    rewrite <- Ht in Hy.
    pose proof (lstrip_bytes_done l) as Hd. unfold PyStr.skip_space in Hd. congruence. }
  unfold PyStr.lstrip_bytes at 1. rewrite skip_all_stuck by done.
  unfold PyStr.rstrip_bytes at 1. rewrite skip_all_stuck; [apply rev_involutive|].
  subst r. unfold PyStr.rstrip_bytes. rewrite rev_involutive.
  apply skip_all_done; [apply skips_space_rev|]. by rewrite length_rev.
Qed.

Lemma bytes_of_lt s : Forall (fun b => (b < 256)%N) (PyStr.bytes_of s).
Proof.
  unfold PyStr.bytes_of. induction s as [|a s IH]; cbn; constructor; [|done].
  apply N_ascii_bounded.
Qed.

Lemma bytes_of_bytes l : Forall (fun b => (b < 256)%N) l → PyStr.bytes_of (PyStr.of_bytes l) = l.
Proof.
  unfold PyStr.bytes_of, PyStr.of_bytes. rewrite list_ascii_of_string_of_list_ascii.
  induction 1 as [|b l Hb _ IH]; cbn; [done|]. f_equal; [|done].
  by apply N_ascii_embedding.
Qed.

Lemma strip_idempotent s : PyStr.strip (PyStr.strip s) = PyStr.strip s.
Proof.
  unfold PyStr.strip. rewrite bytes_of_bytes; [by rewrite strip_bytes_idem|].
  destruct (rstrip_bytes_prefix (PyStr.lstrip_bytes (PyStr.bytes_of s))) as (t & Ht).
  destruct (skip_all_suffix _ skips_space (length (PyStr.bytes_of s)) (PyStr.bytes_of s)) as (p & Hp).
  fold (PyStr.lstrip_bytes (PyStr.bytes_of s)) in Hp.
  pose proof (bytes_of_lt s) as H. rewrite Hp, Ht in H.
  apply Forall_app in H as [_ H]. by apply Forall_app in H as [H _].
Qed.

(** ** Sending *)

Lemma last_id_bound (m : gmap Z submission_row) k : is_Some (m !! k) → k ≤ last_id m.
Proof.
  unfold last_id.
  apply (map_fold_weak_ind (fun r m => is_Some (m !! k) → k ≤ r)).
  - rewrite lookup_empty. by intros [? ?].
  - intros i x m' r Hi IH. destruct (decide (i = k)) as [->|Hne].
    + intros _. lia.
    + rewrite lookup_insert_ne by done. intros H. specialize (IH H). lia.
Qed.

Lemma next_id_fresh d : submissions d !! next_id d = None.
Proof.
  destruct (submissions d !! next_id d) eqn:E; [|done].
  assert (next_id d ≤ last_id (submissions d)) by (apply last_id_bound; eauto).
  unfold next_id in *. lia.
Qed.

Lemma on_text_stage cfg env uid message_text w chat_id :
  consented cfg w uid →
  selected_chat_id (state_of w uid) = Some chat_id → chat_id ≠ 0 →
  mode (state_of w uid) = None ∨ mode (state_of w uid) = Some "send_wait_content" →
  PyStr.strip message_text ≠ "" →
  run (on_text cfg env uid message_text) w
  = {| db := db w;
       USER_STATE :=
         <[uid := set_mode (Some "send_wait_content")
                    (set_pending (Some {| content_type := "text";
                                          text := Some (PyStr.strip message_text);
                                          file_id := None |})
                                 (state_of w uid))]> (USER_STATE w);
       trace := trace w ++ [reply_text "Готово. Подтверди отправку:" (Some confirm_send_kb)] |}.
Proof.
  intros Hc Hsel Hne Hmode Hs. unfold on_text. enter Hc.
  unfold state_of in Hsel, Hmode. run_m. unfold is_mode.
  apply Z.eqb_neq in Hne.
  assert (PyStr.is_empty (PyStr.strip message_text) = false) as He
    by (by destruct (PyStr.strip message_text)).
  destruct Hmode as [Hm|Hm]; rewrite Hm; cbn [String.eqb Ascii.eqb Bool.eqb orb];
    rewrite Hsel; cbn [truthy]; rewrite Hne; cbn [andb negb]; rewrite He;
    run_m; reflexivity.
Qed.

Lemma on_send_confirm_direct cfg env uid w chat_id p row :
  consented cfg w uid →
  selected_chat_id (state_of w uid) = Some chat_id → chat_id ≠ 0 →
  pending (state_of w uid) = Some p →
  get_channel_by_chat_id (db w) chat_id = Some row → moderation row ≠ 1 →
  run (on_send_buttons cfg env uid send_confirm) w
  = match send_error env chat_id (channel_payload p) with
    | None =>
        {| db := create_submission (now env) chat_id uid (content_type p) (text p)
                                   (file_id p) STATUS_SENT (db w);
           USER_STATE := <[uid := cleared (state_of w uid)]> (USER_STATE w);
           trace := trace w
             ++ [ answer None;
                  send chat_id (channel_payload p) None;
                  commit (w_create_submission chat_id uid (content_type p) (text p)
                                              (file_id p) STATUS_SENT);
                  edit_message_text "Сообщение отправлено ✅" (Some main_menu);
                  event_log ("Сообщение отправлено напрямую: channel="
                             +:+ PyStr.str chat_id) ] |}
    | Some e =>
        {| db := db w;
           USER_STATE := <[uid := cleared (state_of w uid)]> (USER_STATE w);
           trace := trace w
             ++ [ answer None;
                  send chat_id (channel_payload p) None;
                  edit_message_text ("Не смог отправить в канал. Ошибка: " +:+ e)
                                    (Some main_menu);
                  event_log ("Ошибка отправки в канал: channel=" +:+ PyStr.str chat_id) ] |}
    end.
Proof.
  intros Hc Hsel Hne Hp Hrow Hmod. unfold on_send_buttons. enter Hc.
  unfold state_of in Hsel, Hp. run_m. rewrite Hsel, Hp.
  apply Z.eqb_neq in Hne, Hmod. rewrite Hne. run_m. rewrite Hrow, Hmod.
  rewrite post_to_channel_payload. run_m.
  destruct (send_error env chat_id (channel_payload p)); run_m; tidy; reflexivity.
Qed.

(** Claim C8.  A user who has selected a registered channel with
    moderation off types a text and confirms.  The text is staged
    stripped; the confirmation makes exactly one send into the channel,
    carrying that text.  If the send succeeds, exactly one row is added to
    [submissions], under a fresh id, with that text and status [sent].  If
    it fails, no row is added and the sender's message is edited to report
    the error with its text. *)
Theorem direct_post_round_trip cfg env1 env2 uid message_text w chat_id row :
  consented cfg w uid →
  selected_chat_id (state_of w uid) = Some chat_id → chat_id ≠ 0 →
  mode (state_of w uid) = None ∨ mode (state_of w uid) = Some "send_wait_content" →
  PyStr.strip message_text ≠ "" →
  get_channel_by_chat_id (db w) chat_id = Some row → moderation row ≠ 1 →
  let t := PyStr.strip message_text in
  let w1 := run (on_text cfg env1 uid message_text) w in
  let w2 := run (on_send_buttons cfg env2 uid send_confirm) w1 in
  pending (state_of w1 uid)
  = Some {| content_type := "text"; text := Some t; file_id := None |}
  ∧ db w1 = db w
  ∧ sends_to chat_id (new_actions w1 w2) = [send chat_id (message t) None]
  ∧ match send_error env2 chat_id (message t) with
    | None =>
        submissions (db w2)
        = <[next_id (db w) :=
              {| s_chat_id := chat_id; s_sender_user_id := uid;
                 s_content_type := "text"; s_text := Some t; s_file_id := None;
                 s_status := STATUS_SENT; s_created_at := now env2 |}]> (submissions (db w))
        ∧ submissions (db w) !! next_id (db w) = None
        ∧ size (submissions (db w2)) = S (size (submissions (db w)))
    | Some e =>
        db w2 = db w
        ∧ edit_message_text ("Не смог отправить в канал. Ошибка: " +:+ e) (Some main_menu)
          ∈ new_actions w1 w2
    end.
Proof.
  intros Hc Hsel Hne Hmode Hs Hrow Hmod t w1 w2.
  assert (w1 = {| db := db w;
                  USER_STATE :=
                    <[uid := set_mode (Some "send_wait_content")
                               (set_pending (Some {| content_type := "text"; text := Some t;
                                                     file_id := None |})
                                            (state_of w uid))]> (USER_STATE w);
                  trace := trace w ++ [reply_text "Готово. Подтверди отправку:"
                                                  (Some confirm_send_kb)] |}) as Hw1
    by (by apply on_text_stage with (chat_id := chat_id)).
  assert (state_of w1 uid
          = set_mode (Some "send_wait_content")
              (set_pending (Some {| content_type := "text"; text := Some t; file_id := None |})
                           (state_of w uid))) as Hst1
    by (rewrite Hw1; unfold state_of; cbn [USER_STATE]; by rewrite state_in_insert).
  assert (db w1 = db w) as Hdb1 by (by rewrite Hw1).
  assert (channel_payload {| content_type := "text"; text := Some t; file_id := None |}
          = message t) as Hpay.
  { unfold channel_payload. cbn [content_type text file_id PyStr.or_empty].
    rewrite String.eqb_refl. subst t. by rewrite strip_idempotent. }
  assert (w2 = match send_error env2 chat_id (message t) with
               | None =>
                   {| db := create_submission (now env2) chat_id uid "text" (Some t) None
                                              STATUS_SENT (db w1);
                      USER_STATE := <[uid := cleared (state_of w1 uid)]> (USER_STATE w1);
                      trace := trace w1
                        ++ [ answer None; send chat_id (message t) None;
                             commit (w_create_submission chat_id uid "text" (Some t) None
                                                         STATUS_SENT);
                             edit_message_text "Сообщение отправлено ✅" (Some main_menu);
                             event_log ("Сообщение отправлено напрямую: channel="
                                        +:+ PyStr.str chat_id) ] |}
               | Some e =>
                   {| db := db w1;
                      USER_STATE := <[uid := cleared (state_of w1 uid)]> (USER_STATE w1);
                      trace := trace w1
                        ++ [ answer None; send chat_id (message t) None;
                             edit_message_text ("Не смог отправить в канал. Ошибка: " +:+ e)
                                               (Some main_menu);
                             event_log ("Ошибка отправки в канал: channel="
                                        +:+ PyStr.str chat_id) ] |}
               end) as Hw2.
  { subst w2. rewrite <- Hpay.
    apply (on_send_confirm_direct cfg env2 uid w1 chat_id
             {| content_type := "text"; text := Some t; file_id := None |} row).
    - destruct Hc as [? Ha]. split; [done|]. by rewrite Hdb1.
    - by rewrite Hst1.
    - done.
    - by rewrite Hst1.
    - by rewrite Hdb1.
    - done. }
  split; [by rewrite Hst1|]. split; [done|].
  assert (is_send_to chat_id (send chat_id (message t) None) = true) as Hself
    by (cbn; apply Z.eqb_refl).
  destruct (send_error env2 chat_id (message t)) as [e|]; rewrite Hw2, new_actions_app.
  - split; [unfold sends_to; cbn [List.filter is_send_to]; by rewrite Z.eqb_refl|].
    split; [done|]. rewrite !elem_of_cons. auto.
  - split; [unfold sends_to; cbn [List.filter is_send_to]; by rewrite Z.eqb_refl|].
    assert (submissions (create_submission (now env2) chat_id uid "text" (Some t) None
                                           STATUS_SENT (db w1))
            = <[next_id (db w) :=
                  {| s_chat_id := chat_id; s_sender_user_id := uid;
                     s_content_type := "text"; s_text := Some t; s_file_id := None;
                     s_status := STATUS_SENT; s_created_at := now env2 |}]>
                (submissions (db w))) as Hsub
      by (unfold create_submission; cbn [submissions]; by rewrite Hdb1).
    cbn [db]. rewrite Hsub. split; [done|]. split; [apply next_id_fresh|].
    apply map_size_insert_None, next_id_fresh.
Qed.

(** User 20 types a padded text and confirms, with the channel reachable and
    with the bot removed from it. *)
Lemma direct_post_round_trip_witness :
  let w1 := run (on_text example_cfg example_env 20 "  good morning ") example_world_sending in
  let w2 := run (on_send_buttons example_cfg example_env 20 send_confirm) w1 in
  let w3 := run (on_send_buttons example_cfg example_env_down 20 send_confirm) w1 in
  sends_to (-1001234567) (new_actions w1 w2)
  = [send (-1001234567) (message "good morning") None]
  ∧ submissions (db w2) !! 2
    = Some {| s_chat_id := -1001234567; s_sender_user_id := 20; s_content_type := "text";
              s_text := Some "good morning"; s_file_id := None; s_status := "sent";
              s_created_at := now example_env |}
  ∧ size (submissions (db w2)) = 2%nat
  ∧ db w3 = db example_world_sending
  ∧ edit_message_text "Не смог отправить в канал. Ошибка: Forbidden: bot was kicked"
                      (Some main_menu) ∈ new_actions w1 w3.
Proof.
  intros w1 w2 w3.
  pose (row := {| username := Some "gossip"; owner_user_id := 10; moderation := 0;
                  reviewers_mode := "owner"; ch_created_at := "t2" |}).
  assert (consented example_cfg example_world_sending 20) as Hc
    by (split; [discriminate|vm_compute; reflexivity]).
  destruct (direct_post_round_trip example_cfg example_env example_env 20
              "  good morning " example_world_sending (-1001234567) row)
    as (_ & _ & Hsend & Hok);
    [exact Hc|vm_compute; reflexivity|discriminate|left; vm_compute; reflexivity
    |vm_compute; discriminate|vm_compute; reflexivity|discriminate|].
  destruct (direct_post_round_trip example_cfg example_env example_env_down 20
              "  good morning " example_world_sending (-1001234567) row)
    as (_ & _ & _ & Hfail);
    [exact Hc|vm_compute; reflexivity|discriminate|left; vm_compute; reflexivity
    |vm_compute; discriminate|vm_compute; reflexivity|discriminate|].
  split; [exact Hsend|].
  split; [vm_compute; reflexivity|].
  split; [vm_compute; reflexivity|].
  exact Hfail.
Defined.

(** Claim C10.  Confirming a send when no channel is selected or nothing
    is staged creates no submission and publishes nothing: the database is
    unchanged, the only actions are the acknowledgement and the message
    "Нечего отправлять.", and the user's send state is reset (mode idle,
    selected channel and staged content cleared). *)
Theorem nothing_to_send cfg env uid w :
  consented cfg w uid →
  truthy (selected_chat_id (state_of w uid)) = false ∨ pending (state_of w uid) = None →
  let w' := run (on_send_buttons cfg env uid send_confirm) w in
  db w' = db w
  ∧ new_actions w w' = [answer None; edit_message_text "Нечего отправлять." (Some main_menu)]
  ∧ state_of w' uid = cleared (state_of w uid).
Proof.
  intros Hc Hs w'. subst w'.
  assert (run (on_send_buttons cfg env uid send_confirm) w
          = {| db := db w; USER_STATE := <[uid := cleared (state_of w uid)]> (USER_STATE w);
               trace := trace w ++ [answer None;
                                    edit_message_text "Нечего отправлять." (Some main_menu)] |})
    as ->.
  { unfold on_send_buttons. enter Hc. run_m. unfold state_of in Hs.
    destruct (selected_chat_id _) as [c|]; destruct (pending _) as [p|];
      run_m; tidy; try reflexivity.
    destruct Hs as [Hs|Hs]; [|done]. cbn in Hs. apply negb_false_iff in Hs. rewrite Hs.
    run_m; tidy; reflexivity. }
  split; [done|]. split; [apply new_actions_app|].
  unfold state_of; cbn. by rewrite state_in_insert.
Qed.

(** User 20 confirms with a channel selected but nothing staged. *)
Lemma nothing_to_send_witness :
  let w' := run (on_send_buttons example_cfg example_env 20 send_confirm)
                example_world_sending in
  db w' = db example_world_sending
  ∧ new_actions example_world_sending w'
    = [answer None; edit_message_text "Нечего отправлять." (Some main_menu)]
  ∧ state_of w' 20 = fresh_state.
Proof.
  intros w'.
  destruct (nothing_to_send example_cfg example_env 20 example_world_sending)
    as (H1 & H2 & H3).
  - split; [discriminate|vm_compute; reflexivity].
  - right. vm_compute; reflexivity.
  - split; [exact H1|]. split; [exact H2|]. subst w'. rewrite H3. vm_compute; reflexivity.
Defined.

(** * Further properties *)

(** ** The shape of a deeplink code *)

Lemma be_bytes_length n x : length (Hashlib.be_bytes n x) = n.
Proof.
  revert x; induction n as [|n IH]; intros x; cbn; [done|].
  rewrite length_app, IH. cbn. lia.
Qed.

Lemma round_length st kw : length (Hashlib.round st kw) = length st.
Proof.
  unfold Hashlib.round.
  destruct st as [|a [|b [|c [|d [|e [|f [|g [|h [|i st]]]]]]]]]; reflexivity.
Qed.

Lemma rounds_length kws st : length (fold_left Hashlib.round kws st) = length st.
Proof.
  revert st; induction kws as [|kw kws IH]; intros st; cbn; [done|].
  by rewrite IH, round_length.
Qed.

Lemma compress_length h block : length (Hashlib.compress h block) = length h.
Proof.
  unfold Hashlib.compress. rewrite length_map, length_combine, rounds_length. lia.
Qed.

Lemma compress_all_length bs h : length (fold_left Hashlib.compress bs h) = length h.
Proof.
  revert h; induction bs as [|b bs IH]; intros h; cbn; [done|].
  by rewrite IH, compress_length.
Qed.

Lemma be_words_length ws :
  length (concat (map (Hashlib.be_bytes 4) ws)) = (4 * length ws)%nat.
Proof.
  induction ws as [|x ws IH]; cbn [map concat]; [done|].
  rewrite length_app, be_bytes_length, IH. cbn [length]. lia.
Qed.

(** A digest has 32 bytes. *)
Lemma sha256_length msg : length (Hashlib.sha256 msg) = 32%nat.
Proof.
  unfold Hashlib.sha256. rewrite be_words_length, compress_all_length. reflexivity.
Qed.

Lemma bits_length n x : length (Base64.bits n x) = n.
Proof.
  revert x; induction n as [|n IH]; intros x; cbn; [done|].
  rewrite length_app, IH. cbn. lia.
Qed.

Lemma all_bits_length data :
  length (concat (map (Base64.bits 8) data)) = (8 * length data)%nat.
Proof.
  induction data as [|x data IH]; cbn [map concat]; [done|].
  rewrite length_app, bits_length, IH. cbn [length]. lia.
Qed.

Lemma quintets_enough n fuel l :
  (n ≤ fuel)%nat → (5 * n ≤ length l)%nat → (n ≤ length (Base64.quintets fuel l))%nat.
Proof.
  revert fuel l; induction n as [|n IH]; intros fuel l Hf Hl; [lia|].
  destruct fuel as [|fuel]; [lia|]. destruct l as [|b l]; [cbn in Hl; lia|].
  cbn [Base64.quintets length]. apply le_n_S, IH; [lia|].
  rewrite length_skipn. cbn [length] in *. lia.
Qed.

Lemma quintet_small (q : list bool) :
  (Base64.of_bits (firstn 5 q ++ repeat false (5 - length (firstn 5 q))) < 32)%N.
Proof.
  destruct q as [|[] [|[] [|[] [|[] [|[] q]]]]]; vm_compute; reflexivity.
Qed.

Lemma quintets_small fuel l : Forall (fun q => (q < 32)%N) (Base64.quintets fuel l).
Proof.
  revert l; induction fuel as [|fuel IH]; intros l; cbn; [constructor|].
  destruct l as [|b l]; [constructor|]. constructor; [|apply IH].
  apply (quintet_small (b :: l)).
Qed.

(** A base32 letter: [A-Z] or [2-7]. *)
Lemma alphabet_letter q :
  (q < 32)%N →
  let c := nth (N.to_nat q) Base64.alphabet 0%N in
  ((65 ≤ c)%N ∧ (c ≤ 90)%N) ∨ ((50 ≤ c)%N ∧ (c ≤ 55)%N).
Proof.
  intros Hq. assert (N.to_nat q < 32)%nat as Hn by lia.
  revert Hn. generalize (N.to_nat q) as n. intros n Hn.
  do 32 (destruct n as [|n]; [vm_compute; intuition discriminate|]). lia.
Qed.

Lemma drop_eq_padding k l : Base64.drop_eq (repeat 61%N k ++ l) = Base64.drop_eq l.
Proof. induction k as [|k IH]; cbn; [done|]. exact IH. Qed.

Lemma rstrip_eq_padding cs k :
  Forall (fun c => c ≠ 61%N) cs → Base64.rstrip_eq (cs ++ repeat 61%N k) = cs.
Proof.
  intros Hcs. unfold Base64.rstrip_eq.
  rewrite rev_app_distr, rev_repeat, drop_eq_padding.
  assert (Base64.drop_eq (rev cs) = rev cs) as ->; [|apply rev_involutive].
  destruct (rev cs) as [|c r] eqn:E; [done|]. cbn.
  assert (c ≠ 61%N) as Hc.
  { rewrite Forall_forall in Hcs. apply Hcs, list_elem_of_In, in_rev.
    rewrite E. by left. }
  apply N.eqb_neq in Hc. by rewrite Hc.
Qed.

Lemma take_of_bytes n l : PyStr.take n (PyStr.of_bytes l) = PyStr.of_bytes (firstn n l).
Proof.
  revert l; induction n as [|n IH]; intros [|b l]; try reflexivity.
  unfold PyStr.of_bytes in *. cbn. f_equal. apply IH.
Qed.

(** The bytes of a code: twenty base32 letters. *)
Lemma make_code_bytes cfg chat_id :
  ∃ cs, PyStr.bytes_of (make_code_for_chat cfg chat_id) = cs
        ∧ make_code_for_chat cfg chat_id = PyStr.of_bytes cs
        ∧ length cs = 20%nat
        ∧ Forall (fun c => ((65 ≤ c)%N ∧ (c ≤ 90)%N) ∨ ((50 ≤ c)%N ∧ (c ≤ 55)%N)) cs.
Proof.
  unfold make_code_for_chat.
  set (digest := Hashlib.sha256 _).
  assert (length digest = 32%nat) as Hd by apply sha256_length.
  unfold Base64.b32encode.
  set (bs := concat (map (Base64.bits 8) digest)).
  assert (length bs = 256%nat) as Hbs by (subst bs; rewrite all_bits_length, Hd; done).
  set (qs := Base64.quintets (length bs) bs).
  set (cs := map (fun q => nth (N.to_nat q) Base64.alphabet 0%N) qs).
  assert (Forall (fun c => ((65 ≤ c)%N ∧ (c ≤ 90)%N) ∨ ((50 ≤ c)%N ∧ (c ≤ 55)%N)) cs) as Hcs.
  { subst cs. apply List.Forall_map. eapply Forall_impl; [apply quintets_small|].
    intros q Hq. by apply alphabet_letter. }
  assert (20 ≤ length cs)%nat as Hlen.
  { subst cs qs. rewrite length_map. apply quintets_enough; lia. }
  rewrite rstrip_eq_padding by (eapply Forall_impl; [exact Hcs|]; cbn; lia).
  rewrite take_of_bytes. exists (firstn 20 cs).
  assert (Forall (fun c => ((65 ≤ c)%N ∧ (c ≤ 90)%N) ∨ ((50 ≤ c)%N ∧ (c ≤ 55)%N))
                 (firstn 20 cs)) as Htake by (by apply Forall_take).
  split; [|split; [done|split; [rewrite length_firstn; lia|done]]].
  apply bytes_of_bytes. eapply Forall_impl; [exact Htake|]. cbn. lia.
Qed.

Lemma bytes_of_length s : length (PyStr.bytes_of s) = String.length s.
Proof.
  unfold PyStr.bytes_of. rewrite length_map.
  induction s as [|a s IH]; cbn; [done|]. by rewrite IH.
Qed.

(** X1.  Every deeplink code has exactly twenty characters, each of them a
    capital letter or a digit from 2 to 7, whatever the chat and the salt:
    it fits a [/start] parameter and needs no escaping in a link. *)
Theorem make_code_shape cfg chat_id :
  String.length (make_code_for_chat cfg chat_id) = 20%nat
  ∧ Forall (fun c => ((65 ≤ c)%N ∧ (c ≤ 90)%N) ∨ ((50 ≤ c)%N ∧ (c ≤ 55)%N))
           (PyStr.bytes_of (make_code_for_chat cfg chat_id)).
Proof.
  destruct (make_code_bytes cfg chat_id) as (cs & Hb & _ & Hlen & Hcs).
  rewrite <- bytes_of_length, Hb. done.
Qed.

(** ** Text without surrounding whitespace *)

Lemma of_bytes_of s : PyStr.of_bytes (PyStr.bytes_of s) = s.
Proof.
  unfold PyStr.of_bytes, PyStr.bytes_of. rewrite map_map.
  rewrite (map_ext _ (fun a => a)) by apply ascii_N_embedding.
  rewrite map_id. apply string_of_list_ascii_of_string.
Qed.

Ltac no_space_head b :=
  repeat match goal with
         | |- context [N.eqb ?a b] =>
             destruct (N.eqb_spec a b) as [?|_]; [exfalso; lia|]
         end.

Lemma skip_space_visible b l : visible b → PyStr.skip_space (b :: l) = None.
Proof.
  intros [? ?]. unfold PyStr.skip_space, PyStr.whitespace.
  cbn [PyStr.first_match PyStr.drop_prefix]. no_space_head b. reflexivity.
Qed.

Lemma skip_space_rev_visible b l : visible b → PyStr.skip_space_rev (b :: l) = None.
Proof.
  intros [? ?]. unfold PyStr.skip_space_rev, PyStr.whitespace.
  cbn [map rev app PyStr.first_match PyStr.drop_prefix]. no_space_head b. reflexivity.
Qed.

Lemma strip_bytes_visible l :
  Forall visible l → PyStr.rstrip_bytes (PyStr.lstrip_bytes l) = l.
Proof.
  intros Hl.
  assert (PyStr.lstrip_bytes l = l) as ->.
  { unfold PyStr.lstrip_bytes. apply skip_all_stuck.
    destruct Hl as [|b l Hb _]; [reflexivity|by apply skip_space_visible]. }
  unfold PyStr.rstrip_bytes. rewrite skip_all_stuck; [apply rev_involutive|].
  destruct (rev l) as [|b r] eqn:E; [reflexivity|].
  apply skip_space_rev_visible. rewrite Forall_forall in Hl.
  apply Hl, list_elem_of_In, in_rev. rewrite E. by left.
Qed.

(** Stripping leaves a text of visible ASCII characters as it is. *)
Lemma strip_visible s : Forall visible (PyStr.bytes_of s) → PyStr.strip s = s.
Proof.
  intros Hs. unfold PyStr.strip. rewrite strip_bytes_visible by done. apply of_bytes_of.
Qed.

Lemma make_code_visible cfg chat_id :
  Forall visible (PyStr.bytes_of (make_code_for_chat cfg chat_id)).
Proof.
  destruct (make_code_bytes cfg chat_id) as (cs & -> & _ & _ & Hcs).
  eapply Forall_impl; [exact Hcs|]. unfold visible. cbn. lia.
Qed.

Lemma make_code_not_empty cfg chat_id :
  PyStr.is_empty (make_code_for_chat cfg chat_id) = false.
Proof.
  destruct (make_code_bytes cfg chat_id) as (cs & Hb & _ & Hlen & _).
  destruct (make_code_for_chat cfg chat_id); [|reflexivity].
  subst cs. discriminate.
Qed.

(** ** The consent gate, closed *)

Lemma gate_closed cfg env uid w :
  ¬ consented cfg w uid →
  ensure_consent_or_show cfg env uid w
  = (false, log w (if uid =? 0 then [] else policy_prompt cfg env)).
Proof.
  intros Hn. unfold ensure_consent_or_show, policy_prompt.
  destruct (Z.eqb_spec uid 0) as [E|N].
  - unfold ret, log. rewrite app_nil_r. by destruct w.
  - destruct (user_is_allowed cfg (db w) uid) eqn:Ha; [exfalso; by apply Hn|].
    run_m. rewrite Ha. destruct (markdown_error env); run_m; tidy; reflexivity.
Qed.

(** X2.  Without consent nothing happens.  For a user who has not
    accepted the current policy, every gated update (/start, a text, a
    media message, a send button, a moderation decision, a link request)
    leaves the database and the in-memory state as they are; all the
    handler does is show the policy (nothing at all for user id 0). *)
Theorem gate_blocks cfg env uid u w :
  ¬ consented cfg w uid →
  let w' := handle cfg env uid u w in
  db w' = db w
  ∧ USER_STATE w' = USER_STATE w
  ∧ new_actions w w' = (if uid =? 0 then [] else policy_prompt cfg env).
Proof.
  intros Hn w'.
  assert (w' = log w (if uid =? 0 then [] else policy_prompt cfg env)) as ->.
  { subst w'. destruct u; cbn [handle];
      unfold start_cmd, on_text, on_media, on_send_buttons, on_moderation,
             on_menu_ch_link, run;
      unfold bind at 1; rewrite (gate_closed _ _ _ _ Hn); reflexivity. }
  split; [done|]. split; [done|]. apply new_actions_log.
Qed.

(** A stranger presses "approve" on the pending submission. *)
Lemma gate_blocks_witness :
  let w' := handle example_cfg example_env example_stranger (upd_moderation (mod_ok 1))
                   example_world in
  db w' = db example_world
  ∧ USER_STATE w' = USER_STATE example_world
  ∧ new_actions example_world w' = [reply_markdown "Be kind." (Some policy_kb)].
Proof.
  intros w'.
  destruct (gate_blocks example_cfg example_env example_stranger (upd_moderation (mod_ok 1))
              example_world) as (H1 & H2 & H3).
  - intros [_ H]. vm_compute in H. discriminate.
  - split; [exact H1|]. split; [exact H2|]. subst w'. rewrite H3. vm_compute. reflexivity.
Defined.

(** ** Typed text, branch by branch *)

Ltac text_mode H :=
  unfold is_mode; rewrite H; cbn [String.eqb Ascii.eqb Bool.eqb orb andb negb].

Lemma fold_digits_some (l : list N) acc n :
  fold_left (fun acc c =>
               match acc, PyStr.decimal_value c with
               | Some a, Some d => Some (10 * a + Z.of_N d)
               | _, _ => None
               end) l acc = Some n →
  Forall (fun c => PyStr.is_decimal c = true) l.
Proof.
  revert acc. induction l as [|c l IH]; intros acc H; [constructor|].
  cbn [fold_left] in H.
  destruct acc as [a|].
  - unfold PyStr.is_decimal. destruct (PyStr.decimal_value c) as [d|] eqn:E.
    + constructor; [by rewrite E|]. by eapply IH.
    + exfalso. clear -H. induction l as [|x l IH]; cbn in H; [discriminate|auto].
  - exfalso. clear -H. induction l as [|x l IH]; cbn in H; [discriminate|auto].
Qed.

(** What [int] converts, [str.isdigit] accepts. *)
Lemma int_of_digits_isdigit s n :
  PyStr.int_of_digits s = Some n → PyStr.isdigit s = true.
Proof.
  unfold PyStr.int_of_digits, PyStr.isdigit.
  destruct (PyStr.codepoints (PyStr.bytes_of s)) as [|c l]; [discriminate|].
  destruct (PyStr.int_max_str_digits <? length (c :: l))%nat; [discriminate|].
  intros H%fold_digits_some. apply forallb_forall. intros x Hx.
  rewrite Forall_forall in H. unfold PyStr.is_digit.
  by rewrite (H x) by (by apply list_elem_of_In).
Qed.

Lemma new_actions_same w d m :
  new_actions w {| db := d; USER_STATE := m; trace := trace w |} = [].
Proof. unfold new_actions; cbn. apply drop_all. Qed.

Section Text.
Variables (cfg : config) (env : platform) (uid : Z) (message_text : string) (w : world).
Hypothesis Hgate : consented cfg w uid.

Lemma on_text_no_channel :
  mode (state_of w uid) = None ∨ mode (state_of w uid) = Some "send_wait_content" →
  truthy (selected_chat_id (state_of w uid)) = false →
  run (on_text cfg env uid message_text) w
  = {| db := db w; USER_STATE := <[uid := state_of w uid]> (USER_STATE w);
       trace := trace w ++ [reply_text "Нажми /start и выбери действие." (Some main_menu)] |}.
Proof.
  intros Hmode Hsel. unfold on_text. enter Hgate. unfold state_of in Hmode, Hsel. run_m.
  destruct Hmode as [Hm|Hm]; text_mode Hm; rewrite Hsel; cbn [andb]; run_m; reflexivity.
Qed.

Lemma on_text_blank chat_id :
  mode (state_of w uid) = None ∨ mode (state_of w uid) = Some "send_wait_content" →
  selected_chat_id (state_of w uid) = Some chat_id → chat_id ≠ 0 →
  PyStr.strip message_text = "" →
  run (on_text cfg env uid message_text) w
  = {| db := db w; USER_STATE := <[uid := state_of w uid]> (USER_STATE w);
       trace := trace w ++ [reply_text "Пустое сообщение." None] |}.
Proof.
  intros Hmode Hsel Hne Hblank. unfold on_text. enter Hgate.
  unfold state_of in Hmode, Hsel. run_m. apply Z.eqb_neq in Hne.
  destruct Hmode as [Hm|Hm]; text_mode Hm; rewrite Hsel; cbn [truthy]; rewrite Hne;
    cbn [andb negb]; rewrite Hblank; cbn [PyStr.is_empty]; run_m; reflexivity.
Qed.

Lemma on_text_pick :
  mode (state_of w uid) = Some "send_pick_channel" →
  run (on_text cfg env uid message_text) w
  = if CHANNEL_INPUT_RE_match (typed_reference message_text) then
      if truthy (ensure_registered_channel env (db w) (typed_reference message_text)) then
        {| db := db w;
           USER_STATE :=
             <[uid := set_mode (Some "send_wait_content")
                        (set_selected_chat_id
                           (ensure_registered_channel env (db w)
                                                      (typed_reference message_text))
                           (state_of w uid))]> (USER_STATE w);
           trace := trace w
             ++ [reply_text
                   ("Канал выбран." +:+ nl
                    +:+ "Теперь пришли текст или медиа (фото/видео/файл/голос) и, если нужно, подпись." +:+ nl
                    +:+ "После этого появится кнопка «Отправить».")
                   (Some back_to_menu)] |}
      else
        {| db := db w; USER_STATE := <[uid := state_of w uid]> (USER_STATE w);
           trace := trace w
             ++ [reply_text
                   ("❌ Этот канал не зарегистрирован." +:+ nl
                    +:+ "Его должен сначала привязать владелец через «Контролировать».")
                   None] |}
    else
      {| db := db w; USER_STATE := <[uid := state_of w uid]> (USER_STATE w);
         trace := trace w ++ [reply_text "Неверный формат. Введи @username или -100...." None] |}.
Proof.
  intros Hmode. unfold on_text, typed_reference. enter Hgate. unfold state_of in Hmode. run_m.
  text_mode Hmode.
  destruct (CHANNEL_INPUT_RE_match _); cbn [negb]; [|run_m; reflexivity].
  destruct (truthy _); run_m; reflexivity.
Qed.

Lemma on_text_rv_denied :
  mode (state_of w uid) = Some "rv_add_wait" ∨ mode (state_of w uid) = Some "rv_del_wait" →
  (∀ row, get_channel_by_chat_id (db w) (rv_chat_or_0 (state_of w uid)) = Some row →
          owner_user_id row ≠ uid) →
  run (on_text cfg env uid message_text) w
  = {| db := db w;
       USER_STATE := <[uid := set_rv_chat_id None (set_mode None (state_of w uid))]> (USER_STATE w);
       trace := trace w ++ [reply_text "Нет доступа." (Some main_menu)] |}.
Proof.
  intros Hmode Hown. unfold on_text. enter Hgate. unfold state_of in Hmode, Hown. run_m.
  destruct (get_channel_by_chat_id (db w) (rv_chat_or_0 (state_in (USER_STATE w) uid)))
    as [row|] eqn:Hrow.
  - specialize (Hown row eq_refl). apply Z.eqb_neq in Hown.
    destruct Hmode as [Hm|Hm]; text_mode Hm; rewrite Hown; run_m; reflexivity.
  - destruct Hmode as [Hm|Hm]; text_mode Hm; run_m; reflexivity.
Qed.

Variable row : channel_row.
Hypothesis Hrow : get_channel_by_chat_id (db w) (rv_chat_or_0 (state_of w uid)) = Some row.
Hypothesis Hown : owner_user_id row = uid.

Lemma on_text_rv_not_a_number :
  mode (state_of w uid) = Some "rv_add_wait" ∨ mode (state_of w uid) = Some "rv_del_wait" →
  PyStr.isdigit (PyStr.strip message_text) = false →
  run (on_text cfg env uid message_text) w
  = {| db := db w; USER_STATE := <[uid := state_of w uid]> (USER_STATE w);
       trace := trace w ++ [reply_text "Нужен числовой user_id." None] |}.
Proof.
  intros Hmode Hdig. unfold on_text. enter Hgate. unfold state_of in Hmode, Hrow. run_m.
  rewrite Hrow, Hown, Z.eqb_refl, Hdig.
  destruct Hmode as [Hm|Hm]; text_mode Hm; run_m; reflexivity.
Qed.

(** The owner's text is made of digits, but either [int] does not
    convert it or SQLite does not take the number: the handler raises
    before it has written or answered anything. *)
Lemma on_text_rv_raises :
  mode (state_of w uid) = Some "rv_add_wait" ∨ mode (state_of w uid) = Some "rv_del_wait" →
  PyStr.isdigit (PyStr.strip message_text) = true →
  (PyStr.int_of_digits (PyStr.strip message_text) = None
   ∨ ∃ n, PyStr.int_of_digits (PyStr.strip message_text) = Some n ∧ sqlite_int n = false) →
  on_text cfg env uid message_text w
  = (Raised (match PyStr.int_of_digits (PyStr.strip message_text) with
             | None => "ValueError"
             | Some _ => "OverflowError"
             end),
     {| db := db w; USER_STATE := <[uid := state_of w uid]> (USER_STATE w);
        trace := trace w |}).
Proof.
  intros Hmode Hdig Hbad. unfold on_text.
  unfold bind at 1. rewrite (gate_open _ _ _ _ Hgate). cbn [fst snd negb].
  unfold state_of in Hmode, Hrow. run_m. rewrite Hrow, Hown, Z.eqb_refl, Hdig.
  destruct Hbad as [Hint|(n & Hint & Hn)]; rewrite Hint, ?Hn;
    destruct Hmode as [Hm|Hm]; text_mode Hm; run_m; reflexivity.
Qed.

Lemma on_text_rv_add target :
  mode (state_of w uid) = Some "rv_add_wait" →
  PyStr.int_of_digits (PyStr.strip message_text) = Some target →
  sqlite_int target = true →
  on_text cfg env uid message_text w
  = (Returned tt,
     {| db := add_reviewer (now env) (rv_chat_or_0 (state_of w uid)) target (db w);
        USER_STATE := <[uid := set_rv_chat_id None (set_mode None (state_of w uid))]>
                        (USER_STATE w);
        trace := trace w
          ++ [ commit (w_add_reviewer (rv_chat_or_0 (state_of w uid)) target);
               reply_text ("Добавлен: " +:+ PyStr.str target) (Some main_menu);
               event_log ("Добавлен проверяющий: channel="
                          +:+ PyStr.str (rv_chat_or_0 (state_of w uid))) ] |}).
Proof.
  intros Hmode Hint Hn. unfold on_text.
  unfold bind at 1. rewrite (gate_open _ _ _ _ Hgate). cbn [fst snd negb].
  unfold state_of in Hmode, Hrow. run_m.
  rewrite Hrow, Hown, Z.eqb_refl, (int_of_digits_isdigit _ _ Hint), Hint, Hn.
  text_mode Hmode. run_m. tidy. reflexivity.
Qed.

Lemma on_text_rv_del target :
  mode (state_of w uid) = Some "rv_del_wait" →
  PyStr.int_of_digits (PyStr.strip message_text) = Some target →
  sqlite_int target = true →
  on_text cfg env uid message_text w
  = (Returned tt,
     {| db := remove_reviewer (rv_chat_or_0 (state_of w uid)) target (db w);
        USER_STATE := <[uid := set_rv_chat_id None (set_mode None (state_of w uid))]>
                        (USER_STATE w);
        trace := trace w
          ++ [ commit (w_remove_reviewer (rv_chat_or_0 (state_of w uid)) target);
               reply_text ("Удалён: " +:+ PyStr.str target) (Some main_menu);
               event_log ("Удалён проверяющий: channel="
                          +:+ PyStr.str (rv_chat_or_0 (state_of w uid))) ] |}).
Proof.
  intros Hmode Hint Hn. unfold on_text.
  unfold bind at 1. rewrite (gate_open _ _ _ _ Hgate). cbn [fst snd negb].
  unfold state_of in Hmode, Hrow. run_m.
  rewrite Hrow, Hown, Z.eqb_refl, (int_of_digits_isdigit _ _ Hint), Hint, Hn.
  text_mode Hmode. run_m. tidy. reflexivity.
Qed.
End Text.

Lemma state_of_updated (d : database) (m : gmap Z user_state) (t : list action) uid s :
  state_of {| db := d; USER_STATE := <[uid := s]> m; trace := t |} uid = s.
Proof. unfold state_of. cbn. apply state_in_insert. Qed.

(** X3.  A text typed while no channel is selected (and no other dialogue
    is open) is never staged: the user is pointed to /start, and the
    database and the user's state stay as they were. *)
Theorem text_without_channel cfg env uid message_text w :
  consented cfg w uid →
  mode (state_of w uid) = None ∨ mode (state_of w uid) = Some "send_wait_content" →
  truthy (selected_chat_id (state_of w uid)) = false →
  let w' := run (on_text cfg env uid message_text) w in
  db w' = db w
  ∧ state_of w' uid = state_of w uid
  ∧ new_actions w w' = [reply_text "Нажми /start и выбери действие." (Some main_menu)].
Proof.
  intros Hc Hmode Hsel w'. subst w'. rewrite on_text_no_channel by done.
  split; [done|]. split; [apply state_of_updated|apply new_actions_app].
Qed.

(** User 20 types a text before choosing a channel. *)
Lemma text_without_channel_witness :
  let w' := run (on_text example_cfg example_env 20 "hello") example_world in
  db w' = db example_world
  ∧ pending (state_of w' 20) = None
  ∧ new_actions example_world w'
    = [reply_text "Нажми /start и выбери действие." (Some main_menu)].
Proof.
  intros w'.
  destruct (text_without_channel example_cfg example_env 20 "hello" example_world)
    as (H1 & H2 & H3).
  - split; [discriminate|vm_compute; reflexivity].
  - left. reflexivity.
  - reflexivity.
  - split; [exact H1|]. split; [|exact H3]. subst w'. rewrite H2. reflexivity.
Defined.

(** X4.  A text that is empty once stripped is not staged: with a channel
    selected the handler answers "Пустое сообщение." and leaves the
    database and the user's state, staged content included, as they were. *)
Theorem blank_text_not_staged cfg env uid message_text w chat_id :
  consented cfg w uid →
  mode (state_of w uid) = None ∨ mode (state_of w uid) = Some "send_wait_content" →
  selected_chat_id (state_of w uid) = Some chat_id → chat_id ≠ 0 →
  PyStr.strip message_text = "" →
  let w' := run (on_text cfg env uid message_text) w in
  db w' = db w
  ∧ state_of w' uid = state_of w uid
  ∧ new_actions w w' = [reply_text "Пустое сообщение." None].
Proof.
  intros Hc Hmode Hsel Hne Hblank w'. subst w'.
  rewrite (on_text_blank _ _ _ _ _ Hc chat_id) by done.
  split; [done|]. split; [apply state_of_updated|apply new_actions_app].
Qed.

(** User 20, with the channel selected, sends spaces and a line break. *)
Lemma blank_text_not_staged_witness :
  let w' := run (on_text example_cfg example_env 20 ("  " +:+ nl)) example_world_sending in
  db w' = db example_world_sending
  ∧ pending (state_of w' 20) = None
  ∧ new_actions example_world_sending w' = [reply_text "Пустое сообщение." None].
Proof.
  intros w'.
  destruct (blank_text_not_staged example_cfg example_env 20 ("  " +:+ nl)
              example_world_sending (-1001234567)) as (H1 & H2 & H3).
  - split; [discriminate|vm_compute; reflexivity].
  - left. reflexivity.
  - reflexivity.
  - discriminate.
  - vm_compute. reflexivity.
  - split; [exact H1|]. split; [|exact H3]. subst w'. rewrite H2. reflexivity.
Defined.

Lemma ensure_registered_channel_bound env d channel_input chat_id :
  ensure_registered_channel env d channel_input = Some chat_id
  ↔ (∃ n, get_chat env channel_input = Ok (chat_id, n)) ∧ is_Some (channels d !! chat_id).
Proof.
  unfold ensure_registered_channel, get_channel_by_chat_id. split.
  - destruct (get_chat env channel_input) as [[c n]| |]; try discriminate.
    destruct (channels d !! c) eqn:E; [|discriminate].
    intros [= <-]. split; [by exists n|by rewrite E].
  - intros [[n ->] [row ->]]. reflexivity.
Qed.

(** X5.  Choosing a channel by typing its reference selects bound
    channels only.  After the step the database is unchanged, and either
    the user's state is unchanged (so the request can be repeated) or the
    selected chat is one the platform resolved the reference to and that
    is bound, with the dialogue waiting for content.  Conversely a
    well-formed reference that resolves to a bound chat selects it. *)
Theorem pick_selects_bound_channels cfg env uid message_text w :
  consented cfg w uid →
  mode (state_of w uid) = Some "send_pick_channel" →
  let ref := typed_reference message_text in
  let w' := run (on_text cfg env uid message_text) w in
  db w' = db w
  ∧ (state_of w' uid = state_of w uid
     ∨ ∃ c, c ≠ 0 ∧ (∃ n, get_chat env ref = Ok (c, n)) ∧ is_Some (channels (db w) !! c)
            ∧ state_of w' uid
              = set_mode (Some "send_wait_content")
                         (set_selected_chat_id (Some c) (state_of w uid)))
  ∧ (∀ c n, CHANNEL_INPUT_RE_match ref = true → get_chat env ref = Ok (c, n) →
            is_Some (channels (db w) !! c) → c ≠ 0 →
            state_of w' uid
            = set_mode (Some "send_wait_content")
                       (set_selected_chat_id (Some c) (state_of w uid))).
Proof.
  intros Hc Hmode ref w'. subst w'. rewrite on_text_pick by done. fold ref.
  destruct (CHANNEL_INPUT_RE_match ref) eqn:Hre.
  - destruct (ensure_registered_channel env (db w) ref) as [c|] eqn:Hreg; cbn [truthy].
    + pose proof (proj1 (ensure_registered_channel_bound _ _ _ _) Hreg) as [Hchat Hbound].
      destruct (Z.eqb_spec c 0) as [->|Hne]; cbn [negb].
      * split; [done|]. split; [left; apply state_of_updated|].
        intros c n _ Hchat' Hb Hne. destruct Hchat as [n' Hchat].
        rewrite Hchat in Hchat'. by injection Hchat' as <- <-.
      * split; [done|]. split; [right; exists c; by rewrite state_of_updated|].
        intros c' n _ Hchat' _ _. destruct Hchat as [n' Hchat].
        rewrite Hchat in Hchat'. injection Hchat' as <- <-. apply state_of_updated.
    + split; [done|]. split; [left; apply state_of_updated|].
      intros c n _ Hchat Hb _.
      assert (ensure_registered_channel env (db w) ref = Some c) as Hsome
        by (apply ensure_registered_channel_bound; eauto).
      congruence.
  - split; [done|]. split; [left; apply state_of_updated|]. intros; discriminate.
Qed.

(** User 20 types the handle of the bound channel, without the "@". *)
Lemma pick_selects_bound_channels_witness :
  let w' := run (on_text example_cfg example_env 20 "gossip") example_world_picking in
  selected_chat_id (state_of w' 20) = Some (-1001234567)
  ∧ mode (state_of w' 20) = Some "send_wait_content".
Proof.
  intros w'.
  destruct (pick_selects_bound_channels example_cfg example_env 20 "gossip"
              example_world_picking) as (_ & _ & H3).
  - split; [discriminate|vm_compute; reflexivity].
  - reflexivity.
  - subst w'. rewrite (H3 (-1001234567) (Some "gossip")).
    + split; reflexivity.
    + vm_compute; reflexivity.
    + vm_compute; reflexivity.
    + eexists. vm_compute. reflexivity.
    + discriminate.
Defined.

Lemma can_moderate_selected env d chat_id user_id row :
  get_channel_by_chat_id d chat_id = Some row →
  reviewers_mode row = "selected" → user_id ≠ owner_user_id row →
  (can_moderate env d chat_id user_id = true ↔ in_allowlist d chat_id user_id).
Proof.
  intros Hrow Hmode Hne. unfold can_moderate. rewrite Hrow, Hmode.
  apply Z.eqb_neq in Hne. rewrite Hne. cbn.
  rewrite bool_decide_eq_true. apply list_reviewers_elem.
Qed.

Lemma can_moderate_owner env d chat_id row :
  get_channel_by_chat_id d chat_id = Some row →
  can_moderate env d chat_id (owner_user_id row) = true.
Proof. intros Hrow. unfold can_moderate. by rewrite Hrow, Z.eqb_refl. Qed.

(** X6.  The owner adds a reviewer by typing a number: a text of digits
    that [int] converts to a number SQLite can store (a 64-bit signed
    integer).  The handler returns, the number is added to the allow-list
    of the channel the dialogue was opened for, the dialogue is closed,
    and under reviewer mode [selected] that user may moderate the channel
    from then on, whatever the platform says. *)
Theorem added_reviewer_may_moderate cfg env uid message_text w chat_id row target :
  consented cfg w uid →
  mode (state_of w uid) = Some "rv_add_wait" →
  rv_chat_id (state_of w uid) = Some chat_id →
  get_channel_by_chat_id (db w) chat_id = Some row →
  owner_user_id row = uid →
  PyStr.int_of_digits (PyStr.strip message_text) = Some target →
  sqlite_int target = true →
  let w' := run (on_text cfg env uid message_text) w in
  result (on_text cfg env uid message_text) w = Returned tt
  ∧ db w' = add_reviewer (now env) chat_id target (db w)
  ∧ in_allowlist (db w') chat_id target
  ∧ (reviewers_mode row = "selected" → ∀ env', can_moderate env' (db w') chat_id target = true)
  ∧ mode (state_of w' uid) = None
  ∧ rv_chat_id (state_of w' uid) = None.
Proof.
  intros Hc Hmode Hrv Hrow Hown Hint Hfit w'.
  assert (rv_chat_or_0 (state_of w uid) = chat_id) as Hchat
    by (unfold rv_chat_or_0; by rewrite Hrv).
  subst w'. unfold run, result.
  rewrite (on_text_rv_add _ _ _ _ _ Hc row) with (target := target)
    by (rewrite ?Hchat; done).
  rewrite Hchat. cbn [fst snd db].
  assert (in_allowlist (add_reviewer (now env) chat_id target (db w)) chat_id target) as Hin.
  { unfold in_allowlist, add_reviewer. cbn.
    destruct (channel_reviewers (db w) !! (chat_id, target)) eqn:E; [by rewrite E|].
    by rewrite lookup_insert_eq. }
  split; [done|]. split; [done|]. split; [done|]. split; [|by rewrite state_of_updated].
  intros Hsel env'. destruct (decide (target = owner_user_id row)) as [->|Hne].
  - by apply can_moderate_owner.
  - by apply (can_moderate_selected env' _ chat_id target row).
Qed.

(** The owner of the example channel, in mode [selected], adds user 30,
    typed in Arabic-Indic digits after a space. *)
Lemma added_reviewer_may_moderate_witness :
  let w := example_world_reviewers "rv_add_wait" in
  let w' := run (on_text example_cfg example_env 10 " ٣٠") w in
  can_moderate example_env (db w) (-1001234567) 30 = false
  ∧ result (on_text example_cfg example_env 10 " ٣٠") w = Returned tt
  ∧ can_moderate example_env (db w') (-1001234567) 30 = true
  ∧ mode (state_of w' 10) = None.
Proof.
  intros w w'.
  destruct (added_reviewer_may_moderate example_cfg example_env 10 " ٣٠" w (-1001234567)
              {| username := Some "gossip"; owner_user_id := 10; moderation := 1;
                 reviewers_mode := "selected"; ch_created_at := "t2" |} 30)
    as (H1 & _ & _ & H3 & H4 & _).
  - split; [discriminate|vm_compute; reflexivity].
  - reflexivity.
  - reflexivity.
  - vm_compute; reflexivity.
  - reflexivity.
  - vm_compute; reflexivity.
  - reflexivity.
  - split; [vm_compute; reflexivity|]. split; [exact H1|]. split; [|exact H4].
    apply (H3 eq_refl example_env).
Defined.

(** X7.  The owner removes a reviewer by typing a number: a text of
    digits that [int] converts to a number SQLite can store.  The handler
    returns, the number is taken off the allow-list, the dialogue is
    closed, and under reviewer mode [selected] that user, unless it is the
    owner, may no longer moderate the channel. *)
Theorem removed_reviewer_may_not_moderate cfg env uid message_text w chat_id row target :
  consented cfg w uid →
  mode (state_of w uid) = Some "rv_del_wait" →
  rv_chat_id (state_of w uid) = Some chat_id →
  get_channel_by_chat_id (db w) chat_id = Some row →
  owner_user_id row = uid →
  PyStr.int_of_digits (PyStr.strip message_text) = Some target →
  sqlite_int target = true →
  let w' := run (on_text cfg env uid message_text) w in
  result (on_text cfg env uid message_text) w = Returned tt
  ∧ db w' = remove_reviewer chat_id target (db w)
  ∧ ¬ in_allowlist (db w') chat_id target
  ∧ (reviewers_mode row = "selected" → target ≠ uid →
     ∀ env', can_moderate env' (db w') chat_id target = false)
  ∧ mode (state_of w' uid) = None
  ∧ rv_chat_id (state_of w' uid) = None.
Proof.
  intros Hc Hmode Hrv Hrow Hown Hint Hfit w'.
  assert (rv_chat_or_0 (state_of w uid) = chat_id) as Hchat
    by (unfold rv_chat_or_0; by rewrite Hrv).
  subst w'. unfold run, result.
  rewrite (on_text_rv_del _ _ _ _ _ Hc row) with (target := target)
    by (rewrite ?Hchat; done).
  rewrite Hchat. cbn [fst snd db].
  assert (¬ in_allowlist (remove_reviewer chat_id target (db w)) chat_id target) as Hout.
  { unfold in_allowlist, remove_reviewer. cbn. rewrite lookup_delete_eq. by intros [? ?]. }
  split; [done|]. split; [done|]. split; [done|]. split; [|by rewrite state_of_updated].
  intros Hsel Hne env'.
  destruct (can_moderate env' (remove_reviewer chat_id target (db w)) chat_id target) eqn:E;
    [|done].
  exfalso. apply Hout.
  apply (can_moderate_selected env' _ chat_id target row); try done. congruence.
Qed.

(** The owner adds user 30 and then removes it again. *)
Lemma removed_reviewer_may_not_moderate_witness :
  let w := {| db := add_reviewer "t4" (-1001234567) 30
                      (db (example_world_reviewers "rv_del_wait"));
              USER_STATE := USER_STATE (example_world_reviewers "rv_del_wait");
              trace := [] |} in
  let w' := run (on_text example_cfg example_env 10 "30") w in
  can_moderate example_env (db w) (-1001234567) 30 = true
  ∧ result (on_text example_cfg example_env 10 "30") w = Returned tt
  ∧ can_moderate example_env (db w') (-1001234567) 30 = false.
Proof.
  intros w w'.
  destruct (removed_reviewer_may_not_moderate example_cfg example_env 10 "30" w
              (-1001234567)
              {| username := Some "gossip"; owner_user_id := 10; moderation := 1;
                 reviewers_mode := "selected"; ch_created_at := "t2" |} 30)
    as (H1 & _ & _ & H3 & _).
  - split; [discriminate|vm_compute; reflexivity].
  - reflexivity.
  - reflexivity.
  - vm_compute; reflexivity.
  - reflexivity.
  - vm_compute; reflexivity.
  - reflexivity.
  - split; [vm_compute; reflexivity|]. split; [exact H1|].
    apply (H3 eq_refl). vm_compute. discriminate.
Defined.

(** X8.  The reviewer dialogue is the owner's.  If the channel it was
    opened for is not bound or belongs to someone else, the typed text
    changes nothing in the database, is answered "Нет доступа." and closes
    the dialogue.  If the owner types something that [str.isdigit]
    rejects, the handler answers "Нужен числовой user_id.", the database
    is unchanged and the dialogue stays open for another try.  If the
    owner types digits that [int] does not convert (a superscript, more
    than 4300 digits) or a number outside SQLite's 64-bit range, the
    handler raises [ValueError], respectively [OverflowError]: nothing is
    written or answered, and the dialogue stays open. *)
Theorem reviewer_dialogue_guards cfg env uid message_text w :
  consented cfg w uid →
  mode (state_of w uid) = Some "rv_add_wait" ∨ mode (state_of w uid) = Some "rv_del_wait" →
  let target_chat := rv_chat_or_0 (state_of w uid) in
  let text := PyStr.strip message_text in
  let w' := run (on_text cfg env uid message_text) w in
  let r := result (on_text cfg env uid message_text) w in
  ((∀ row, get_channel_by_chat_id (db w) target_chat = Some row → owner_user_id row ≠ uid) →
   db w' = db w
   ∧ new_actions w w' = [reply_text "Нет доступа." (Some main_menu)]
   ∧ mode (state_of w' uid) = None ∧ rv_chat_id (state_of w' uid) = None)
  ∧ (∀ row, get_channel_by_chat_id (db w) target_chat = Some row → owner_user_id row = uid →
            PyStr.isdigit text = false →
            db w' = db w
            ∧ new_actions w w' = [reply_text "Нужен числовой user_id." None]
            ∧ state_of w' uid = state_of w uid)
  ∧ (∀ row, get_channel_by_chat_id (db w) target_chat = Some row → owner_user_id row = uid →
            PyStr.isdigit text = true →
            (PyStr.int_of_digits text = None
             ∨ ∃ n, PyStr.int_of_digits text = Some n ∧ sqlite_int n = false) →
            r = Raised (match PyStr.int_of_digits text with
                        | None => "ValueError"
                        | Some _ => "OverflowError"
                        end)
            ∧ db w' = db w
            ∧ new_actions w w' = []
            ∧ state_of w' uid = state_of w uid).
Proof.
  intros Hc Hmode target_chat text w' r. subst w' r target_chat text. split; [|split].
  - intros Hown. rewrite on_text_rv_denied by done.
    split; [done|]. split; [apply new_actions_app|]. by rewrite state_of_updated.
  - intros row Hrow Hown Hdig. rewrite (on_text_rv_not_a_number _ _ _ _ _ Hc row) by done.
    split; [done|]. split; [apply new_actions_app|apply state_of_updated].
  - intros row Hrow Hown Hdig Hbad. unfold run, result.
    rewrite (on_text_rv_raises _ _ _ _ _ Hc row) by done. cbn [fst snd].
    split; [done|]. split; [done|]. split; [apply new_actions_same|apply state_of_updated].
Qed.

(** The owner types a name instead of a number, then a superscript two,
    then 2^63; user 20 types into a dialogue for a channel that is not
    theirs. *)
Lemma reviewer_dialogue_guards_witness :
  let w := example_world_reviewers "rv_add_wait" in
  let w1 := run (on_text example_cfg example_env 10 "@someone") w in
  let w2 := run (on_text example_cfg example_env 10 "²") w in
  let w3 := run (on_text example_cfg example_env 10 "9223372036854775808") w in
  let v := {| db := db w;
              USER_STATE := {[ 20 := set_rv_chat_id (Some (-1001234567))
                                       (set_mode (Some "rv_add_wait") fresh_state) ]};
              trace := [] |} in
  let v1 := run (on_text example_cfg example_env 20 "30") v in
  (db w1 = db w ∧ mode (state_of w1 10) = Some "rv_add_wait")
  ∧ (result (on_text example_cfg example_env 10 "²") w = Raised "ValueError"
     ∧ db w2 = db w ∧ mode (state_of w2 10) = Some "rv_add_wait")
  ∧ (result (on_text example_cfg example_env 10 "9223372036854775808") w
     = Raised "OverflowError"
     ∧ db w3 = db w ∧ mode (state_of w3 10) = Some "rv_add_wait")
  ∧ (db v1 = db v ∧ mode (state_of v1 20) = None).
Proof.
  intros w w1 w2 w3 v v1.
  pose (row := {| username := Some "gossip"; owner_user_id := 10; moderation := 1;
                  reviewers_mode := "selected"; ch_created_at := "t2" |}).
  split; [|split; [|split]].
  - destruct (reviewer_dialogue_guards example_cfg example_env 10 "@someone" w) as (_ & H & _).
    + split; [discriminate|vm_compute; reflexivity].
    + left. reflexivity.
    + destruct (H row) as (H1 & _ & H3);
        [vm_compute; reflexivity|reflexivity|vm_compute; reflexivity|].
      split; [exact H1|]. subst w1. rewrite H3. reflexivity.
  - destruct (reviewer_dialogue_guards example_cfg example_env 10 "²" w) as (_ & _ & H).
    + split; [discriminate|vm_compute; reflexivity].
    + left. reflexivity.
    + destruct (H row) as (H0 & H1 & _ & H3);
        [vm_compute; reflexivity|reflexivity|vm_compute; reflexivity
        |left; vm_compute; reflexivity|].
      split; [exact H0|]. split; [exact H1|]. subst w2. rewrite H3. reflexivity.
  - destruct (reviewer_dialogue_guards example_cfg example_env 10 "9223372036854775808" w)
      as (_ & _ & H).
    + split; [discriminate|vm_compute; reflexivity].
    + left. reflexivity.
    + destruct (H row) as (H0 & H1 & _ & H3);
        [vm_compute; reflexivity|reflexivity|vm_compute; reflexivity
        |right; exists (2 ^ 63); split; vm_compute; reflexivity|].
      split; [exact H0|]. split; [exact H1|]. subst w3. rewrite H3. reflexivity.
  - destruct (reviewer_dialogue_guards example_cfg example_env 20 "30" v) as [H _].
    + split; [discriminate|vm_compute; reflexivity].
    + left. reflexivity.
    + destruct H as (H1 & _ & H3 & _).
      * intros row' Hrow. vm_compute in Hrow. injection Hrow as <-. discriminate.
      * split; [exact H1|exact H3].
Defined.

(** ** The send buttons, the other branches *)

Lemma send_ticket_payload env owner sub_id p :
  send_ticket_to_owner env owner sub_id p
  = (bot_send env owner (ticket_payload sub_id p) (Some (ticket_kb sub_id)) ;; ret tt).
Proof.
  unfold send_ticket_to_owner, ticket_payload.
  repeat match goal with
         | |- context [String.eqb ?a ?b] => destruct (String.eqb a b); [reflexivity|]
         end.
  reflexivity.
Qed.

Lemma on_send_cancel cfg env uid w :
  consented cfg w uid →
  run (on_send_buttons cfg env uid send_cancel) w
  = {| db := db w; USER_STATE := <[uid := cleared (state_of w uid)]> (USER_STATE w);
       trace := trace w ++ [answer None; edit_message_text "Отменено." (Some main_menu)] |}.
Proof.
  intros Hc. unfold on_send_buttons. enter Hc. run_m. tidy. reflexivity.
Qed.

Lemma on_send_confirm_moderated cfg env uid w chat_id p row :
  consented cfg w uid →
  selected_chat_id (state_of w uid) = Some chat_id → chat_id ≠ 0 →
  pending (state_of w uid) = Some p →
  get_channel_by_chat_id (db w) chat_id = Some row → moderation row = 1 →
  run (on_send_buttons cfg env uid send_confirm) w
  = {| db := create_submission (now env) chat_id uid (content_type p) (text p)
                               (file_id p) STATUS_PENDING (db w);
       USER_STATE := <[uid := cleared (state_of w uid)]> (USER_STATE w);
       trace := trace w
         ++ [ answer None;
              commit (w_create_submission chat_id uid (content_type p) (text p)
                                          (file_id p) STATUS_PENDING);
              edit_message_text "Сообщение отправлено на проверку 🕵️‍♂️" (Some main_menu);
              send (owner_user_id row) (ticket_payload (next_id (db w)) p)
                   (Some (ticket_kb (next_id (db w))));
              event_log ("Новое сообщение на проверку: channel=" +:+ PyStr.str chat_id
                         +:+ ", sid=" +:+ PyStr.str (next_id (db w))) ] |}.
Proof.
  intros Hc Hsel Hne Hp Hrow Hmod. unfold on_send_buttons. enter Hc.
  unfold state_of in Hsel, Hp. run_m. rewrite Hsel, Hp.
  apply Z.eqb_neq in Hne. rewrite Hne. run_m. rewrite Hrow, Hmod. cbn [Z.eqb Pos.eqb].
  rewrite send_ticket_payload. run_m. tidy. reflexivity.
Qed.

(** X9.  Cancelling a send clears the user's send state (mode, selected
    channel, staged content) and touches nothing else: the database is
    unchanged and the only actions are the acknowledgement and the message
    "Отменено.". *)
Theorem cancel_clears_send_state cfg env uid w :
  consented cfg w uid →
  let w' := run (on_send_buttons cfg env uid send_cancel) w in
  db w' = db w
  ∧ state_of w' uid = cleared (state_of w uid)
  ∧ new_actions w w' = [answer None; edit_message_text "Отменено." (Some main_menu)].
Proof.
  intros Hc w'. subst w'. rewrite on_send_cancel by done.
  split; [done|]. split; [apply state_of_updated|apply new_actions_app].
Qed.

(** User 20 cancels after selecting the channel. *)
Lemma cancel_clears_send_state_witness :
  let w' := run (on_send_buttons example_cfg example_env 20 send_cancel)
                example_world_sending in
  db w' = db example_world_sending
  ∧ selected_chat_id (state_of w' 20) = None.
Proof.
  intros w'.
  destruct (cancel_clears_send_state example_cfg example_env 20 example_world_sending)
    as (H1 & H2 & _).
  - split; [discriminate|vm_compute; reflexivity].
  - split; [exact H1|]. subst w'. rewrite H2. reflexivity.
Defined.

(** X10.  Confirming staged content for a channel with moderation on
    queues it: exactly one row is added to [submissions], under a fresh
    id, with the staged content and status [pending]; the sender is told
    it went to review and the sender's send state is cleared.  Besides
    answering in the sender's conversation the bot sends two messages: the
    ticket with the two decision buttons to the channel's owner and, when
    [BOT_OWNER_ID] is set, the event-log line to that chat; neither
    depends on the ticket being delivered.  So nothing is sent into the
    channel, unless the channel's id is the owner's or [BOT_OWNER_ID]. *)
Theorem moderated_confirm_queues cfg env uid w chat_id p row :
  consented cfg w uid →
  selected_chat_id (state_of w uid) = Some chat_id → chat_id ≠ 0 →
  pending (state_of w uid) = Some p →
  get_channel_by_chat_id (db w) chat_id = Some row → moderation row = 1 →
  let sub_id := next_id (db w) in
  let w' := run (on_send_buttons cfg env uid send_confirm) w in
  submissions (db w) !! sub_id = None
  ∧ submissions (db w')
    = <[sub_id := {| s_chat_id := chat_id; s_sender_user_id := uid;
                     s_content_type := content_type p; s_text := text p;
                     s_file_id := file_id p; s_status := STATUS_PENDING;
                     s_created_at := now env |}]> (submissions (db w))
  ∧ size (submissions (db w')) = S (size (submissions (db w)))
  ∧ state_of w' uid = cleared (state_of w uid)
  ∧ new_actions w w'
    = [ answer None;
        commit (w_create_submission chat_id uid (content_type p) (text p) (file_id p)
                                    STATUS_PENDING);
        edit_message_text "Сообщение отправлено на проверку 🕵️‍♂️" (Some main_menu);
        send (owner_user_id row) (ticket_payload sub_id p) (Some (ticket_kb sub_id));
        event_log ("Новое сообщение на проверку: channel=" +:+ PyStr.str chat_id
                   +:+ ", sid=" +:+ PyStr.str sub_id) ]
  ∧ bot_calls cfg (new_actions w w')
    = (owner_user_id row, ticket_payload sub_id p)
      :: (if BOT_OWNER_ID cfg =? 0 then []
          else [(BOT_OWNER_ID cfg,
                 message ("🧾 " +:+ "Новое сообщение на проверку: channel="
                          +:+ PyStr.str chat_id +:+ ", sid=" +:+ PyStr.str sub_id))])
  ∧ (owner_user_id row ≠ chat_id → BOT_OWNER_ID cfg ≠ chat_id →
     calls_to cfg chat_id (new_actions w w') = []).
Proof.
  intros Hc Hsel Hne Hp Hrow Hmod sub_id w'. subst w'.
  rewrite (on_send_confirm_moderated _ _ _ _ chat_id p row) by done.
  rewrite new_actions_app, state_of_updated. fold sub_id.
  split; [apply next_id_fresh|]. split; [reflexivity|].
  split; [cbn; apply map_size_insert_None, next_id_fresh|]. split; [done|]. split; [done|].
  split.
  - unfold bot_calls. cbn [omap list_omap option_bind mbind].
    by destruct (BOT_OWNER_ID cfg =? 0).
  - intros Hown Hbot. unfold calls_to, bot_calls. cbn [omap list_omap option_bind mbind].
    apply Z.eqb_neq in Hown, Hbot.
    destruct (BOT_OWNER_ID cfg =? 0); cbn [omap list_omap fst snd];
      by rewrite ?Hown, ?Hbot.
Qed.

(** User 20 stages "meet at noon" for the moderated channel and confirms;
    the event log goes to chat 777. *)
Lemma moderated_confirm_queues_witness :
  let w := run (on_text example_cfg_logged example_env 20 "meet at noon")
               example_world_moderated in
  let w' := run (on_send_buttons example_cfg_logged example_env_down 20 send_confirm) w in
  status_of w' 2 = Some STATUS_PENDING
  ∧ size (submissions (db w')) = 2%nat
  ∧ calls_to example_cfg_logged (-1001234567) (new_actions w w') = []
  ∧ bot_calls example_cfg_logged (new_actions w w')
    = [ (10, message ("🆕 На проверку #2" +:+ nl +:+ "Тип: text" +:+ nl +:+ nl
                      +:+ "Текст/подпись:" +:+ nl +:+ "meet at noon"));
        (777, message "🧾 Новое сообщение на проверку: channel=-1001234567, sid=2") ].
Proof.
  intros w w'.
  destruct (moderated_confirm_queues example_cfg_logged example_env_down 20 w (-1001234567)
              {| content_type := "text"; text := Some "meet at noon"; file_id := None |}
              {| username := Some "gossip"; owner_user_id := 10; moderation := 1;
                 reviewers_mode := "owner"; ch_created_at := "t2" |})
    as (_ & _ & H3 & _ & _ & H6 & H7).
  - split; [discriminate|vm_compute; reflexivity].
  - vm_compute; reflexivity.
  - discriminate.
  - vm_compute; reflexivity.
  - vm_compute; reflexivity.
  - reflexivity.
  - split; [vm_compute; reflexivity|].
    split; [subst w'; rewrite H3; vm_compute; reflexivity|].
    split; [apply H7; discriminate|]. subst w'. rewrite H6. vm_compute. reflexivity.
Defined.

(** ** /start with a link *)

Lemma start_cmd_menu cfg env uid args w :
  consented cfg w uid →
  (let code := match args with a :: _ => PyStr.strip a | [] => "" end in
   PyStr.is_empty code = true ∨ truthy (resolve_deeplink (db w) code) = false) →
  run (start_cmd cfg env uid args) w = log w [reply_text "Меню:" (Some main_menu)].
Proof.
  intros Hc Hcode. unfold start_cmd. enter Hc. run_m. cbn zeta in Hcode.
  destruct Hcode as [-> | ->]; cbn [negb andb]; [reflexivity|].
  by rewrite andb_false_r.
Qed.

Lemma start_cmd_selected cfg env uid code rest w chat_id :
  consented cfg w uid →
  PyStr.is_empty (PyStr.strip code) = false →
  resolve_deeplink (db w) (PyStr.strip code) = Some chat_id → chat_id ≠ 0 →
  run (start_cmd cfg env uid (code :: rest)) w
  = {| db := db w;
       USER_STATE := <[uid := set_selected_chat_id (Some chat_id) (state_of w uid)]> (USER_STATE w);
       trace := trace w
         ++ [reply_text "Канал выбран по ссылке. Нажми «Отправить»." (Some main_menu)] |}.
Proof.
  intros Hc Hcode Hres Hne. unfold start_cmd. enter Hc. run_m.
  rewrite Hcode, Hres. cbn [truthy]. apply Z.eqb_neq in Hne. rewrite Hne. cbn [negb andb].
  run_m. reflexivity.
Qed.

(** X11.  A link leads to its channel.  When the owner asks for the link
    of a bound channel, the link shown carries the channel's code; when a
    consenting user then opens /start with that code, the channel is
    selected for that user.  Nothing else of the user's state changes, and
    the link itself writes nothing but the deeplink row. *)
Theorem link_selects_its_channel cfg env1 env2 owner uid chat_id w row :
  consented cfg w owner → consented cfg w uid →
  get_channel_by_chat_id (db w) chat_id = Some row → owner_user_id row = owner →
  chat_id ≠ 0 →
  let code := make_code_for_chat cfg chat_id in
  let w1 := run (on_menu_ch_link cfg env1 owner chat_id) w in
  let w2 := run (start_cmd cfg env2 uid [code]) w1 in
  edit_message_text
    ("Ссылка для отправки в этот канал:" +:+ nl
     +:+ "https://t.me/" +:+ bot_username env1 +:+ "?start=" +:+ code +:+ nl +:+ nl
     +:+ "Пользователь перейдёт по ссылке → бот запомнит канал → «Отправить».")
    (Some (link_back_kb chat_id)) ∈ new_actions w w1
  ∧ db w1 = create_deeplink (now env1) code chat_id (db w)
  ∧ db w2 = db w1
  ∧ state_of w2 uid = set_selected_chat_id (Some chat_id) (state_of w uid).
Proof.
  intros Ho Hu Hrow Hown Hne code w1 w2.
  assert (w1 = {| db := create_deeplink (now env1) code chat_id (db w);
                  USER_STATE := USER_STATE w;
                  trace := trace w
                    ++ [ answer None;
                         commit (w_create_deeplink code chat_id);
                         edit_message_text
                           ("Ссылка для отправки в этот канал:" +:+ nl
                            +:+ "https://t.me/" +:+ bot_username env1 +:+ "?start="
                            +:+ code +:+ nl +:+ nl
                            +:+ "Пользователь перейдёт по ссылке → бот запомнит канал → «Отправить».")
                           (Some (link_back_kb chat_id));
                         event_log ("Сгенерирована ссылка: channel=" +:+ PyStr.str chat_id) ] |})
    as Hw1 by (by apply on_menu_ch_link_owner with (row := row)).
  assert (PyStr.strip code = code) as Hstrip
    by (apply strip_visible, make_code_visible).
  assert (w2 = {| db := db w1;
                  USER_STATE := <[uid := set_selected_chat_id (Some chat_id) (state_of w1 uid)]>
                                  (USER_STATE w1);
                  trace := trace w1
                    ++ [reply_text "Канал выбран по ссылке. Нажми «Отправить»."
                                   (Some main_menu)] |}) as Hw2.
  { apply start_cmd_selected.
    - destruct Hu as [? Ha]. split; [done|]. by rewrite Hw1.
    - rewrite Hstrip. apply make_code_not_empty.
    - rewrite Hstrip, Hw1. unfold resolve_deeplink, create_deeplink. cbn.
      by rewrite lookup_insert_eq.
    - done. }
  split; [rewrite Hw1, new_actions_app, !elem_of_cons; auto|].
  split; [by rewrite Hw1|]. split; [by rewrite Hw2|].
  rewrite Hw2, state_of_updated. by rewrite Hw1.
Qed.

(** The owner of the example channel asks for its link; user 20 follows it. *)
Lemma link_selects_its_channel_witness :
  let w1 := run (on_menu_ch_link example_cfg example_env 10 (-1001234567)) example_world in
  let w2 := run (start_cmd example_cfg example_env 20 ["MKQSOIBKBHE2IE3AJM6U"]) w1 in
  selected_chat_id (state_of w2 20) = Some (-1001234567)
  ∧ edit_message_text
      ("Ссылка для отправки в этот канал:" +:+ nl
       +:+ "https://t.me/relay_bot?start=MKQSOIBKBHE2IE3AJM6U" +:+ nl +:+ nl
       +:+ "Пользователь перейдёт по ссылке → бот запомнит канал → «Отправить».")
      (Some (link_back_kb (-1001234567))) ∈ new_actions example_world w1.
Proof.
  intros w1 w2.
  destruct (link_selects_its_channel example_cfg example_env example_env 10 20
              (-1001234567) example_world
              {| username := Some "gossip"; owner_user_id := 10; moderation := 1;
                 reviewers_mode := "owner"; ch_created_at := "t2" |})
    as (H1 & _ & _ & H4).
  - split; [discriminate|vm_compute; reflexivity].
  - split; [discriminate|vm_compute; reflexivity].
  - vm_compute; reflexivity.
  - reflexivity.
  - discriminate.
  - split; [|exact H1].
    subst w2 w1.
    change "MKQSOIBKBHE2IE3AJM6U" with (make_code_for_chat example_cfg (-1001234567)).
    rewrite H4. reflexivity.
Defined.

(** X12.  A code that was never issued selects nothing.  /start without
    an argument, with an empty one, or with a code that does not resolve
    shows the menu and leaves the database and the in-memory state of
    every user exactly as they were. *)
Theorem unknown_code_selects_nothing cfg env uid args w :
  consented cfg w uid →
  (let code := match args with a :: _ => PyStr.strip a | [] => "" end in
   PyStr.is_empty code = true ∨ resolve_deeplink (db w) code = None) →
  let w' := run (start_cmd cfg env uid args) w in
  db w' = db w
  ∧ USER_STATE w' = USER_STATE w
  ∧ new_actions w w' = [reply_text "Меню:" (Some main_menu)].
Proof.
  intros Hc Hcode w'. subst w'. rewrite start_cmd_menu; [|done|].
  - split; [done|]. split; [done|]. apply new_actions_log.
  - cbn zeta in *. destruct Hcode as [?| ->]; [by left|by right].
Qed.

(** User 20 opens /start with a code nobody issued. *)
Lemma unknown_code_selects_nothing_witness :
  let w' := run (start_cmd example_cfg example_env 20 ["AAAAAAAAAAAAAAAAAAAA"]) example_world in
  USER_STATE w' = USER_STATE example_world
  ∧ new_actions example_world w' = [reply_text "Меню:" (Some main_menu)].
Proof.
  intros w'.
  destruct (unknown_code_selects_nothing example_cfg example_env 20
              ["AAAAAAAAAAAAAAAAAAAA"] example_world) as (_ & H2 & H3).
  - split; [discriminate|vm_compute; reflexivity].
  - right. vm_compute. reflexivity.
  - split; [exact H2|exact H3].
Defined.

(** ** Media *)

Lemma on_media_no_channel cfg env uid msg w :
  consented cfg w uid →
  truthy (selected_chat_id (state_of w uid)) = false →
  run (on_media cfg env uid msg) w
  = {| db := db w; USER_STATE := <[uid := state_of w uid]> (USER_STATE w);
       trace := trace w
         ++ [reply_text "Сначала выбери канал: /start → «Отправить» → «Ввести канал»." None] |}.
Proof.
  intros Hc Hsel. unfold on_media. enter Hc. unfold state_of in Hsel. run_m.
  rewrite Hsel. run_m. reflexivity.
Qed.

Lemma on_media_staged cfg env uid msg w ctype fid :
  consented cfg w uid →
  truthy (selected_chat_id (state_of w uid)) = true →
  media_content msg = Some (ctype, fid) →
  run (on_media cfg env uid msg) w
  = {| db := db w;
       USER_STATE :=
         <[uid := set_mode (Some "send_wait_content")
                    (set_pending (Some {| content_type := ctype;
                                          text := Some (PyStr.or_empty (msg_caption msg));
                                          file_id := Some fid |})
                                 (state_of w uid))]> (USER_STATE w);
       trace := trace w
         ++ [reply_text "Файл получен. Подтверди отправку:" (Some confirm_send_kb)] |}.
Proof.
  intros Hc Hsel Hm. unfold on_media. enter Hc. unfold state_of in Hsel. run_m.
  rewrite Hsel, Hm. run_m. reflexivity.
Qed.

Lemma media_content_photo sizes fid msg :
  msg_photo msg = sizes ++ [fid] → media_content msg = Some ("photo", fid).
Proof. intros H. unfold media_content. by rewrite H, last_snoc. Qed.

(** X13.  Media is staged only for a selected channel.  Without one the
    message is answered with the hint to choose a channel and nothing is
    staged.  With one, a message with a photo is staged as a photo whatever
    else it carries, with the [file_id] of its last (largest) size and its
    caption, or the empty text when it has none; the selected channel is
    kept and the database is not touched. *)
Theorem media_staging cfg env uid msg w :
  consented cfg w uid →
  let w' := run (on_media cfg env uid msg) w in
  db w' = db w
  ∧ (truthy (selected_chat_id (state_of w uid)) = false →
     state_of w' uid = state_of w uid
     ∧ new_actions w w'
       = [reply_text "Сначала выбери канал: /start → «Отправить» → «Ввести канал»." None])
  ∧ (∀ sizes fid,
       truthy (selected_chat_id (state_of w uid)) = true →
       msg_photo msg = sizes ++ [fid] →
       pending (state_of w' uid)
       = Some {| content_type := "photo"; text := Some (PyStr.or_empty (msg_caption msg));
                 file_id := Some fid |}
       ∧ selected_chat_id (state_of w' uid) = selected_chat_id (state_of w uid)
       ∧ mode (state_of w' uid) = Some "send_wait_content").
Proof.
  intros Hc w'. subst w'. split; [|split].
  - destruct (truthy (selected_chat_id (state_of w uid))) eqn:Hsel.
    + destruct (media_content msg) as [[ctype fid]|] eqn:Hm.
      * by rewrite (on_media_staged _ _ _ _ _ ctype fid).
      * unfold on_media. enter Hc. unfold state_of in Hsel. run_m. rewrite Hsel, Hm.
        reflexivity.
    + by rewrite on_media_no_channel.
  - intros Hsel. rewrite on_media_no_channel by done.
    split; [apply state_of_updated|apply new_actions_app].
  - intros sizes fid Hsel Hphoto.
    rewrite (on_media_staged _ _ _ _ _ "photo" fid)
      by (try done; by apply media_content_photo with (sizes := sizes)).
    rewrite state_of_updated. done.
Qed.

(** User 20 sends the example photo, first without and then with the
    channel selected. *)
Lemma media_staging_witness :
  let w1 := run (on_media example_cfg example_env 20 example_photo) example_world in
  let w2 := run (on_media example_cfg example_env 20 example_photo) example_world_moderated in
  pending (state_of w1 20) = None
  ∧ pending (state_of w2 20)
    = Some {| content_type := "photo"; text := Some " hi "; file_id := Some "large-id" |}.
Proof.
  intros w1 w2.
  destruct (media_staging example_cfg example_env 20 example_photo example_world)
    as (_ & H2 & _); [split; [discriminate|vm_compute; reflexivity]|].
  destruct (media_staging example_cfg example_env 20 example_photo example_world_moderated)
    as (_ & _ & H3); [split; [discriminate|vm_compute; reflexivity]|].
  destruct H2 as [H2 _]; [reflexivity|].
  destruct (H3 ["small-id"] "large-id") as (H3' & _); [reflexivity|reflexivity|].
  split; [subst w1; rewrite H2; reflexivity|exact H3'].
Defined.





(** ** The moderation queue *)

Lemma newer_first_trans : Transitive newer_first.
Proof. intros a b c. unfold newer_first. lia. Qed.

Lemma newer_first_total : Total newer_first.
Proof. intros a b. unfold newer_first. lia. Qed.

Lemma pending_rows_perm d chat_id :
  pending_rows d chat_id ≡ₚ filter (pending_in chat_id) (map_to_list (submissions d)).
Proof. apply merge_sort_Permutation. Qed.

Lemma pending_rows_elem d chat_id kv :
  kv ∈ pending_rows d chat_id
  ↔ submissions d !! kv.1 = Some kv.2 ∧ pending_in chat_id kv.
Proof.
  rewrite pending_rows_perm, list_elem_of_filter. destruct kv as [k v].
  rewrite elem_of_map_to_list. cbn. tauto.
Qed.

Lemma pending_rows_nodup d chat_id : NoDup (pending_rows d chat_id).*1.
Proof.
  rewrite pending_rows_perm.
  eapply sublist_NoDup; [apply (NoDup_fst_map_to_list (submissions d))|].
  apply fmap_sublist, sublist_filter.
Qed.

Lemma pending_rows_sorted d chat_id : StronglySorted newer_first (pending_rows d chat_id).
Proof.
  apply StronglySorted_merge_sort; [apply newer_first_trans|apply newer_first_total].
Qed.

(** Newest first and no [id] twice: the [id]s go strictly down. *)
Lemma strictly_down (l : list (Z * submission_row)) :
  StronglySorted newer_first l → NoDup l.*1 →
  StronglySorted (fun a b : Z => b < a) l.*1.
Proof.
  induction 1 as [|a l Hs IH Ha]; cbn; intros Hn; [constructor|].
  apply NoDup_cons in Hn as [Hna Hn]. constructor; [by apply IH|].
  apply Forall_fmap, Forall_forall. intros b Hb. cbn.
  rewrite Forall_forall in Ha. specialize (Ha b Hb). unfold newer_first in Ha.
  assert (b.1 ≠ a.1); [|lia].
  intros E. apply Hna. rewrite <- E. by apply list_elem_of_fmap_2.
Qed.

Lemma strongly_sorted_sublist {A} (R : A → A → Prop) (l k : list A) :
  sublist l k → StronglySorted R k → StronglySorted R l.
Proof.
  induction 1 as [|x l k Hs IH|x l k Hs IH]; intros Hk; [done| |].
  - apply StronglySorted_inv in Hk as [Hk Hx]. constructor; [by apply IH|].
    rewrite Forall_forall in Hx |- *. intros y Hy. apply Hx.
    eapply elem_of_sublist; eauto.
  - apply StronglySorted_inv in Hk as [Hk _]. by apply IH.
Qed.

Lemma limit_offset_sublist {A} limit offset (l : list A) :
  sublist (limit_offset limit offset l) l.
Proof.
  unfold limit_offset. destruct (limit <? 0).
  - apply sublist_drop.
  - etrans; [apply sublist_take|apply sublist_drop].
Qed.

Lemma limit_offset_length {A} limit offset (l : list A) :
  0 ≤ limit → Z.of_nat (length (limit_offset limit offset l)) ≤ limit.
Proof.
  intros H. unfold limit_offset.
  destruct (Z.ltb_spec limit 0); [lia|]. rewrite length_take. lia.
Qed.

Lemma count_pending_length d chat_id :
  count_pending_submissions d chat_id = Z.of_nat (length (pending_rows d chat_id)).
Proof. unfold count_pending_submissions. by rewrite pending_rows_perm. Qed.

(** The [id]s of a page. *)
Lemma page_ids d chat_id limit offset :
  (list_pending_submissions d chat_id limit offset).*1.*1
  = (limit_offset limit offset (pending_rows d chat_id)).*1.
Proof.
  unfold list_pending_submissions.
  generalize (limit_offset limit offset (pending_rows d chat_id)).
  induction l as [|kv l IH]; cbn; [done|]. by rewrite <- IH.
Qed.

(** X15.  A page of the moderation queue, whatever limit and offset are
    asked for: every item on it is the [id], content type and text (the
    empty text for none) of a submission of that chat that is still
    pending; the [id]s go strictly down, so the newest comes first and
    none is listed twice; and a limit that is not negative bounds the
    number of items. *)
Theorem queue_page_sound d chat_id limit offset :
  Forall (fun item =>
            ∃ row, get_submission d item.1.1 = Some row
                   ∧ s_chat_id row = chat_id ∧ s_status row = STATUS_PENDING
                   ∧ item.1.2 = s_content_type row
                   ∧ item.2 = PyStr.or_empty (s_text row))
         (list_pending_submissions d chat_id limit offset)
  ∧ StronglySorted (fun a b : Z => b < a)
                   (list_pending_submissions d chat_id limit offset).*1.*1
  ∧ (limit < 0
     ∨ Z.of_nat (length (list_pending_submissions d chat_id limit offset)) ≤ limit).
Proof.
  split; [|split].
  - unfold list_pending_submissions. apply Forall_fmap, Forall_forall.
    intros kv Hkv. cbn.
    assert (kv ∈ pending_rows d chat_id) as Hin.
    { eapply elem_of_sublist; [exact Hkv|apply limit_offset_sublist]. }
    apply pending_rows_elem in Hin as [Hrow [Hc Hs]].
    exists kv.2. unfold get_submission. done.
  - rewrite page_ids.
    eapply strongly_sorted_sublist;
      [apply fmap_sublist, limit_offset_sublist|].
    apply strictly_down; [apply pending_rows_sorted|apply pending_rows_nodup].
  - destruct (Z.ltb_spec limit 0) as [|Hl]; [by left|right].
    unfold list_pending_submissions. rewrite length_fmap.
    by apply limit_offset_length.
Qed.

(** ** Paging through the queue *)

Lemma pages_join {A} (l : list A) (k n : nat) :
  concat (map (fun i => take k (drop (i * k) l)) (seq 0 n)) = take (n * k) l.
Proof.
  induction n as [|n IH]; [done|].
  rewrite seq_S, map_app, concat_app, IH. cbn [map concat Nat.add].
  rewrite app_nil_r, take_take_drop. f_equal. lia.
Qed.

Lemma page_as_take_drop d chat_id limit offset :
  0 ≤ limit →
  list_pending_submissions d chat_id limit offset
  = map (fun kv => (kv.1, s_content_type kv.2, PyStr.or_empty (s_text kv.2)))
        (take (Z.to_nat limit) (drop (Z.to_nat offset) (pending_rows d chat_id))).
Proof.
  intros H. unfold list_pending_submissions, limit_offset.
  destruct (Z.ltb_spec limit 0); [lia|done].
Qed.

Lemma whole_queue d chat_id :
  list_pending_submissions d chat_id (count_pending_submissions d chat_id) 0
  = map (fun kv => (kv.1, s_content_type kv.2, PyStr.or_empty (s_text kv.2)))
        (pending_rows d chat_id).
Proof.
  rewrite page_as_take_drop by (rewrite count_pending_length; lia).
  rewrite count_pending_length, Nat2Z.id. cbn [Z.to_nat drop].
  by rewrite firstn_all.
Qed.

(** X16.  Paging loses nothing and repeats nothing: the pages of a positive
    size taken at the offsets 0, limit, 2·limit, ... and joined in that
    order are the whole queue of the chat once they reach its count; the
    whole queue has as many items as [count_pending_submissions] says, and
    every pending submission of the chat is among them. *)
Theorem queue_pages_join d chat_id limit (n : nat) :
  0 < limit →
  count_pending_submissions d chat_id ≤ Z.of_nat n * limit →
  concat (map (fun k : nat => list_pending_submissions d chat_id limit (Z.of_nat k * limit))
              (seq 0 n))
  = list_pending_submissions d chat_id (count_pending_submissions d chat_id) 0
  ∧ Z.of_nat (length (list_pending_submissions d chat_id
                        (count_pending_submissions d chat_id) 0))
    = count_pending_submissions d chat_id
  ∧ ∀ sid row,
      get_submission d sid = Some row →
      s_chat_id row = chat_id → s_status row = STATUS_PENDING →
      (sid, s_content_type row, PyStr.or_empty (s_text row))
      ∈ list_pending_submissions d chat_id (count_pending_submissions d chat_id) 0.
Proof.
  intros Hl Hn. rewrite whole_queue. split; [|split].
  - erewrite map_ext; [|intros k; apply page_as_take_drop; lia].
    transitivity
      (map (fun kv : Z * submission_row =>
              (kv.1, s_content_type kv.2, PyStr.or_empty (s_text kv.2)))
           (concat (map (fun i => take (Z.to_nat limit)
                                       (drop (i * Z.to_nat limit) (pending_rows d chat_id)))
                        (seq 0 n)))).
    + rewrite concat_map, map_map. f_equal. apply map_ext. intros k.
      do 3 f_equal. lia.
    + rewrite pages_join, firstn_all2; [done|].
      rewrite count_pending_length in Hn. nia.
  - rewrite length_map. by rewrite count_pending_length.
  - intros sid row Hrow Hc Hs.
    apply (list_elem_of_fmap_2
             (fun kv : Z * submission_row =>
                (kv.1, s_content_type kv.2, PyStr.or_empty (s_text kv.2)))
             _ (sid, row)).
    apply pending_rows_elem. cbn. unfold pending_in. done.
Qed.

Lemma queue_pages_join_witness :
  let d := db (run (on_send_buttons example_cfg example_env 20 send_confirm)
                   (run (on_text example_cfg example_env 20 "first")
                        example_world_moderated)) in
  count_pending_submissions d (-1001234567) = 2
  ∧ list_pending_submissions d (-1001234567) 1 0
    ++ list_pending_submissions d (-1001234567) 1 1
    = list_pending_submissions d (-1001234567) 2 0.
Proof.
  intros d. split; [vm_compute; reflexivity|].
  refine (eq_trans _ (proj1 (queue_pages_join d (-1001234567) 1 2 _ _)));
    vm_compute; [reflexivity|reflexivity|discriminate].
Defined.

Lemma page_not_empty d chat_id limit offset :
  0 < limit → 0 ≤ offset →
  list_pending_submissions d chat_id limit offset ≠ []
  ↔ offset < count_pending_submissions d chat_id.
Proof.
  intros Hl Ho. rewrite page_as_take_drop by lia. rewrite count_pending_length.
  generalize (pending_rows d chat_id) as l. intros l.
  split.
  - intros Hne. destruct (Z.lt_ge_cases offset (Z.of_nat (length l))) as [|Hge]; [done|].
    exfalso. apply Hne. rewrite drop_ge by lia. by rewrite take_nil.
  - intros Hlt Hnil. apply (f_equal length) in Hnil.
    rewrite length_map, length_take, length_drop in Hnil. cbn in Hnil. lia.
Qed.

(** X17.  The pager of a queue page at a non-negative offset: the "back"
    button is there exactly when the offset is positive, and leads to the
    earlier offset [max(0, offset - limit)]; the "forward" button is there
    exactly when the page after this one has an item, and leads to it; and
    no button of the pager leads to a negative offset or to the page
    itself. *)
Theorem queue_navigation d chat_id offset limit :
  0 ≤ offset → 0 < limit →
  (("⬅️", Menu.wire (Menu.q_page chat_id (Z.max 0 (offset - limit))))
   ∈ UI.queue_nav chat_id (count_pending_submissions d chat_id) offset limit
   ↔ 0 < offset)
  ∧ (("➡️", Menu.wire (Menu.q_page chat_id (offset + limit)))
     ∈ UI.queue_nav chat_id (count_pending_submissions d chat_id) offset limit
     ↔ list_pending_submissions d chat_id limit (offset + limit) ≠ [])
  ∧ Forall (fun b : UI.button =>
              ∃ o, b.2 = Menu.wire (Menu.q_page chat_id o) ∧ 0 ≤ o
                   ∧ ((b.1 = "⬅️" ∧ o < offset) ∨ (b.1 = "➡️" ∧ offset < o)))
           (UI.queue_nav chat_id (count_pending_submissions d chat_id) offset limit).
Proof.
  intros Ho Hl. rewrite page_not_empty by lia.
  unfold UI.queue_nav. cbn [Menu.wire].
  destruct (Z.ltb_spec 0 offset) as [Hb|Hb];
    destruct (Z.ltb_spec (offset + limit) (count_pending_submissions d chat_id)) as [Hf|Hf];
    cbn [app]; (split; [|split]).
  all: rewrite ?elem_of_cons, ?elem_of_nil.
  all: try (repeat constructor; eexists; (split; [reflexivity|]); cbn; split; lia || (left; split; [done|lia]) || (right; split; [done|lia])).
  all: split; intros H; try lia; try done; try (by left); try (by right; left).
  all: repeat match goal with
              | H : _ ∨ _ |- _ => destruct H as [H|H]
              | H : False |- _ => destruct H
              | H : (_, _) = (_, _) |- _ => apply (f_equal fst) in H; cbn in H; discriminate H
              end.
Qed.

Lemma queue_navigation_witness :
  ("⬅️", "q_page:-5:0") ∈ UI.queue_nav (-5) (count_pending_submissions example_db (-5)) 10 10
  ↔ 0 < 10.
Proof.
  apply (queue_navigation example_db (-5) 10 10); lia.
Defined.

(** ** One statement per update *)

(** Symbolic execution through every branch. *)
Ltac branches :=
  repeat (run_m; rewrite ?send_ticket_payload, ?post_to_channel_payload;
          try match goal with
              | |- context [match ?x with _ => _ end] => destruct x eqn:?
              end).

(** What a finished branch did to the database. *)
Ltac bound_now :=
  unfold bound;
  match goal with
  | H : get_channel_by_chat_id ?d ?c = Some _ |- is_Some (get_channel_by_chat_id ?d ?c) =>
      rewrite H; eauto
  end.

Ltac leaf :=
  tidy; rewrite ?new_actions_app, ?new_actions_same;
  cbn [db map statements omap statement_of option_bind mbind];
  first
    [ left; split; reflexivity
    | right; eexists; split; [reflexivity|]; split; [|reflexivity];
      cbn [checked];
      first
        [ reflexivity
        | bound_now
        | by left
        | by right
        | split; [bound_now|]; rewrite !elem_of_cons; tauto
        | split; [|rewrite !elem_of_cons; tauto];
          eexists; split; [eassumption|];
          match goal with
          | H : negb (String.eqb _ _) = false |- _ =>
              apply negb_false_iff, String.eqb_eq in H; exact H
          end ] ].

Lemma handler_effect_stopped cfg env uid w :
  ¬ consented cfg w uid →
  ∃ l, ensure_consent_or_show cfg env uid w = (false, log w l)
       ∧ statements (map Menu.base l) = [].
Proof.
  intros Hn. destruct (gate_cases cfg env uid w) as [[Hc _]|[_ (l & Hl & Hq)]]; [done|].
  exists l. split; [done|]. destruct Hq as [->| ->]; [done|].
  unfold policy_prompt. by destruct (markdown_error env).
Qed.

Lemma handle_statements cfg env uid u w :
  (statements (map Menu.base (new_actions w (handle cfg env uid u w))) = []
   ∧ db (handle cfg env uid u w) = db w)
  ∨ ∃ q, statements (map Menu.base (new_actions w (handle cfg env uid u w))) = [plain q]
         ∧ checked (db w) (plain q)
         ∧ db (handle cfg env uid u w) = apply_write (now env) q (db w).
Proof.
  assert (∀ w', handle cfg env uid u w = w' →
                (statements (map Menu.base (new_actions w w')) = [] ∧ db w' = db w)
                ∨ ∃ q, statements (map Menu.base (new_actions w w')) = [plain q]
                       ∧ checked (db w) (plain q)
                       ∧ db w' = apply_write (now env) q (db w)) as H;
    [|by apply H].
  intros w'.
  destruct (decide (consented cfg w uid)) as [Hc|Hn].
  - destruct u; cbn [handle];
      unfold start_cmd, on_text, on_media, on_send_buttons, on_moderation, on_menu_ch_link;
      enter Hc; branches; intros <-; leaf.
  - destruct (handler_effect_stopped cfg env uid w Hn) as (l & Hl & Hs).
    assert (handle cfg env uid u w = log w l) as ->.
    { destruct u; cbn [handle];
        unfold start_cmd, on_text, on_media, on_send_buttons, on_moderation,
               on_menu_ch_link, run;
        unfold bind at 1; rewrite Hl; reflexivity. }
    intros <-. left. rewrite new_actions_log. done.
Qed.

Lemma policy_statements cfg env uid data w :
  (statements (map Menu.base
                   (new_actions w (run (on_policy_callbacks cfg env uid data) w))) = []
   ∧ db (run (on_policy_callbacks cfg env uid data) w) = db w)
  ∨ ∃ q, statements (map Menu.base
                         (new_actions w (run (on_policy_callbacks cfg env uid data) w)))
         = [plain q]
         ∧ checked (db w) (plain q)
         ∧ db (run (on_policy_callbacks cfg env uid data) w)
           = apply_write (now env) q (db w).
Proof.
  assert (∀ w', run (on_policy_callbacks cfg env uid data) w = w' →
                (statements (map Menu.base (new_actions w w')) = [] ∧ db w' = db w)
                ∨ ∃ q, statements (map Menu.base (new_actions w w')) = [plain q]
                       ∧ checked (db w) (plain q)
                       ∧ db w' = apply_write (now env) q (db w)) as H;
    [|by apply H].
  intros w'. unfold on_policy_callbacks. destruct data; run_m; intros <-; leaf.
Qed.

(** ** Running the menu handler *)

Lemma menu_gate_open cfg env uid s :
  Menu.consents cfg s uid →
  Menu.lift (ensure_consent_or_show cfg env uid) s = (true, s).
Proof.
  intros Hc. unfold Menu.lift. rewrite (gate_open _ _ _ _ Hc).
  cbn. rewrite app_nil_r. by destruct s.
Qed.

Lemma menu_gate_closed cfg env uid s :
  ¬ Menu.consents cfg s uid →
  Menu.lift (ensure_consent_or_show cfg env uid) s
  = (false, Menu.logged s (map Menu.base (if uid =? 0 then [] else policy_prompt cfg env))).
Proof.
  intros Hn. unfold Menu.lift. rewrite (gate_closed _ _ _ _ Hn). reflexivity.
Qed.

Lemma new_acts_app s d m l :
  Menu.new_acts s {| Menu.m_db := d; Menu.m_users := m; Menu.m_trace := Menu.m_trace s ++ l |}
  = l.
Proof. unfold Menu.new_acts; cbn. by rewrite drop_app_length. Qed.

Lemma new_acts_same s d m :
  Menu.new_acts s {| Menu.m_db := d; Menu.m_users := m; Menu.m_trace := Menu.m_trace s |}
  = [].
Proof. unfold Menu.new_acts; cbn. apply drop_all. Qed.

Lemma new_acts_logged s l : Menu.new_acts s (Menu.logged s l) = l.
Proof. apply new_acts_app. Qed.

(** What a handler of the other kind adds, seen from here. *)
Lemma new_acts_lift {A} (m : M A) s :
  Menu.new_acts s (Menu.run (Menu.lift m) s)
  = map Menu.base (new_actions (Menu.to_world s) (run m (Menu.to_world s))).
Proof. unfold Menu.run, Menu.lift. cbn [snd]. by rewrite new_acts_app. Qed.

Lemma next_mode_known mode new_mode :
  Menu.next_mode mode = Some new_mode → new_mode ∈ ["owner"; "admins"; "selected"].
Proof.
  unfold Menu.next_mode. rewrite !elem_of_cons.
  repeat match goal with
         | |- context [String.eqb ?a ?b] => destruct (String.eqb a b)
         end; intros [= <-]; tauto.
Qed.

(** Symbolic execution of a press. *)
Ltac menu_m :=
  repeat (unfold Menu.press, Menu.run, Menu.result, Menu.mbind, Menu.mret, Menu.mdo,
                 Menu.mread, Menu.alert, Menu.write_moderation,
                 Menu.write_reviewers_mode, Menu.show_queue, Menu.lift, Menu.to_world,
                 Menu.logged, Menu.with_user, Menu.user;
          run_m; rewrite ?send_ticket_payload;
          cbn [fst snd Menu.m_db Menu.m_users Menu.m_trace map app negb];
          rewrite ?app_nil_r).

Ltac menu_enter H :=
  unfold Menu.press, Menu.run, Menu.result; cbv beta iota delta [Menu.on_menu];
  unfold Menu.mbind at 1; rewrite (menu_gate_open _ _ _ _ H); cbn [fst snd negb].

Ltac menu_branches :=
  repeat (menu_m;
          try match goal with
              | |- context [match ?x with _ => _ end] => destruct x eqn:?
              end).

Ltac menu_leaf :=
  tidy; rewrite ?new_acts_app, ?new_acts_same;
  cbn [Menu.m_db statements omap statement_of option_bind mbind];
  first
    [ left; split; reflexivity
    | right; eexists; split; [reflexivity|]; split; [|reflexivity];
      cbn [checked]; split; [bound_now|];
      first [ rewrite !elem_of_cons; tauto | by left | by right
            | eapply next_mode_known; eassumption ] ].

Lemma prompt_statements cfg env uid :
  statements (map Menu.base (if uid =? 0 then [] else policy_prompt cfg env)) = [].
Proof.
  destruct (uid =? 0); [done|]. unfold policy_prompt. by destruct (markdown_error env).
Qed.

Lemma press_link_statements cfg env uid chat_id s :
  (statements (Menu.new_acts s (Menu.press cfg env uid (Menu.ch_link chat_id) s)) = []
   ∧ Menu.m_db (Menu.press cfg env uid (Menu.ch_link chat_id) s) = Menu.m_db s)
  ∨ ∃ q, statements (Menu.new_acts s (Menu.press cfg env uid (Menu.ch_link chat_id) s)) = [q]
         ∧ checked (Menu.m_db s) q
         ∧ Menu.m_db (Menu.press cfg env uid (Menu.ch_link chat_id) s)
           = apply_statement (now env) q (Menu.m_db s).
Proof.
  unfold Menu.press. cbv beta iota delta [Menu.on_menu].
  change (Menu.run (Menu.mbind (Menu.lift (on_menu_ch_link cfg env uid chat_id))
                               (fun _ => Menu.mret (Returned tt))) s)
    with (Menu.run (Menu.lift (on_menu_ch_link cfg env uid chat_id)) s).
  rewrite new_acts_lift.
  destruct (handle_statements cfg env uid (upd_link chat_id) (Menu.to_world s))
    as [[H1 H2]|(q & H1 & H2 & H3)]; cbn [handle] in *.
  - left. split; [exact H1|]. exact H2.
  - right. exists (plain q). split; [exact H1|]. split; [exact H2|]. exact H3.
Qed.

Lemma press_statements cfg env uid data s :
  (statements (Menu.new_acts s (Menu.press cfg env uid data s)) = []
   ∧ Menu.m_db (Menu.press cfg env uid data s) = Menu.m_db s)
  ∨ ∃ q, statements (Menu.new_acts s (Menu.press cfg env uid data s)) = [q]
         ∧ checked (Menu.m_db s) q
         ∧ Menu.m_db (Menu.press cfg env uid data s)
           = apply_statement (now env) q (Menu.m_db s).
Proof.
  assert (∀ s', Menu.press cfg env uid data s = s' →
                (statements (Menu.new_acts s s') = [] ∧ Menu.m_db s' = Menu.m_db s)
                ∨ ∃ q, statements (Menu.new_acts s s') = [q]
                       ∧ checked (Menu.m_db s) q
                       ∧ Menu.m_db s' = apply_statement (now env) q (Menu.m_db s)) as H;
    [|by apply H].
  intros s'.
  destruct data;
    try (intros <-; apply press_link_statements).
  all: destruct (decide (Menu.consents cfg s uid)) as [Hc|Hn].
  all: try (menu_enter Hc; menu_branches; intros <-; solve [menu_leaf]).
  all: unfold Menu.press, Menu.run; cbv beta iota delta [Menu.on_menu];
    unfold Menu.mbind at 1; rewrite (menu_gate_closed _ _ _ _ Hn);
    cbn [fst snd negb]; unfold Menu.mret; cbn [snd]; intros <-; left;
    rewrite new_acts_logged; split; [apply prompt_statements|done].
Qed.

(** ** What the tables promise each other, kept *)

(** No statement unbinds a channel. *)
Lemma bound_kept now q d c : bound d c → bound (apply_statement now q d) c.
Proof.
  unfold bound, get_channel_by_chat_id.
  destruct q as [[qu qa qh|chat_id qn qo qm|chat_id user_id|chat_id user_id|code0 chat_id|chat_id qu qct qt qf qs|sub_id qs]|chat_id qv|chat_id qm]; cbn; try done.
  - destruct (channels d !! chat_id) as [[]|]; rewrite lookup_insert_is_Some';
      by right.
  - by rewrite lookup_alter_is_Some.
  - by rewrite lookup_alter_is_Some.
Qed.

(** The settings of a channel after a statement. *)
Lemma settings_after now q d c row' :
  checked d q →
  channels (apply_statement now q d) !! c = Some row' →
  (moderation row' = 0 ∨ moderation row' = 1
   ∨ ∃ row, channels d !! c = Some row ∧ moderation row' = moderation row)
  ∧ (reviewers_mode row' ∈ ["owner"; "admins"; "selected"]
     ∨ ∃ row, channels d !! c = Some row ∧ reviewers_mode row' = reviewers_mode row).
Proof.
  intros Hq.
  destruct q as [[qu qa qh|chat_id qn qo qm|chat_id user_id|chat_id user_id|code0 chat_id|chat_id qu qct qt qf qs|sub_id qs]|chat_id qv|chat_id qm]; cbn [apply_statement apply_write];
    try (cbn; intros H; split; right; [right|]; by exists row').
  - (* upsert_channel *)
    cbn in Hq. subst qm. unfold upsert_channel. cbn [channels].
    destruct (decide (c = chat_id)) as [->|Hne].
    + destruct (channels d !! chat_id) as [[u o m r t]|] eqn:E;
        rewrite lookup_insert_eq; intros [= <-]; cbn.
      * split; right; [right|]; eexists; split; try reflexivity.
      * split; [by right; left|left; by left].
    + destruct (channels d !! chat_id) as [[u o m r t]|] eqn:E;
        rewrite lookup_insert_ne by done; intros H;
        (split; right; [right|]); by exists row'.
  - (* set_channel_moderation *)
    destruct Hq as [_ Hv]. unfold set_channel_moderation. cbn [channels].
    destruct (decide (c = chat_id)) as [->|Hne].
    + rewrite lookup_alter_eq. destruct (channels d !! chat_id) as [row|] eqn:E;
        cbn; [|done]. intros [= <-]. cbn. split; [tauto|]. right. by exists row.
    + rewrite lookup_alter_ne by done. intros H; split; right; [right|]; by exists row'.
  - (* set_reviewers_mode *)
    destruct Hq as [_ Hm]. unfold set_reviewers_mode. cbn [channels].
    destruct (decide (c = chat_id)) as [->|Hne].
    + rewrite lookup_alter_eq. destruct (channels d !! chat_id) as [row|] eqn:E;
        cbn; [|done]. intros [= <-]. cbn. split; [|by left]. right; right. by exists row.
    + rewrite lookup_alter_ne by done. intros H; split; right; [right|]; by exists row'.
Qed.

Lemma last_id_nonneg (m : gmap Z submission_row) : 0 ≤ last_id m.
Proof.
  unfold last_id. apply (map_fold_weak_ind (fun r _ => 0 ≤ r)); [done|].
  intros. lia.
Qed.

Lemma consistent_empty : consistent empty_db.
Proof. split; intros *; cbn; rewrite lookup_empty; done. Qed.

Lemma consistent_step now q d :
  consistent d → checked d q → consistent (apply_statement now q d).
Proof.
  intros [Hs Hd Hr Hsub] Hq. split.
  - intros c row' Hrow'.
    destruct (settings_after now q d c row' Hq Hrow') as [Hm Hmode]. split.
    + destruct Hm as [?|[?|(row & Hrow & ->)]]; [by left|by right|].
      apply (Hs c row Hrow).
    + destruct Hmode as [?|(row & Hrow & ->)]; [done|]. apply (Hs c row Hrow).
  - intros code row Hrow. apply bound_kept.
    destruct q as [[qu qa qh|chat_id qn qo qm|chat_id user_id|chat_id user_id|code0 chat_id|chat_id qu qct qt qf qs|sub_id qs]|chat_id qv|chat_id qm]; cbn in Hrow; try (by eapply Hd).
    unfold create_deeplink in Hrow. cbn in Hrow.
    destruct (decide (code = code0)) as [->|Hne].
    + rewrite lookup_insert_eq in Hrow. injection Hrow as <-. exact Hq.
    + rewrite lookup_insert_ne in Hrow by done. by eapply Hd.
  - intros c u t Ht. apply bound_kept.
    destruct q as [[qu qa qh|chat_id qn qo qm|chat_id user_id|chat_id user_id|code0 chat_id|chat_id qu qct qt qf qs|sub_id qs]|chat_id qv|chat_id qm]; cbn in Ht; try (by eapply Hr).
    + destruct (channel_reviewers d !! (chat_id, user_id)) eqn:E; [by eapply Hr|].
      destruct (decide ((c, u) = (chat_id, user_id))) as [[= -> ->]|Hne].
      * exact Hq.
      * rewrite lookup_insert_ne in Ht by done. by eapply Hr.
    + apply lookup_delete_Some in Ht as [_ Ht]. by eapply Hr.
  - intros i row Hrow.
    assert (0 < i ∧ bound d (s_chat_id row)
            ∧ s_status row ∈ [STATUS_PENDING; STATUS_SENT; STATUS_REJECTED]) as (H1 & H2 & H3).
    2:{ split; [done|]. split; [by apply bound_kept|done]. }
    destruct q as [[qu qa qh|chat_id qn qo qm|chat_id user_id|chat_id user_id|code0 chat_id|chat_id qu qct qt qf qs|sub_id qs]|chat_id qv|chat_id qm]; cbn in Hrow; try (by eapply Hsub).
    + (* create_submission *)
      destruct Hq as [Hb Hst].
      destruct (decide (i = next_id d)) as [->|Hne].
      * rewrite lookup_insert_eq in Hrow. injection Hrow as <-. cbn.
        split; [unfold next_id; pose proof (last_id_nonneg (submissions d)); lia|].
        split; [done|]. revert Hst. rewrite !elem_of_cons. tauto.
      * rewrite lookup_insert_ne in Hrow by done. by eapply Hsub.
    + (* set_submission_status *)
      destruct Hq as [_ Hst].
      destruct (decide (i = sub_id)) as [->|Hne].
      * rewrite lookup_alter_eq in Hrow.
        destruct (submissions d !! sub_id) as [old|] eqn:E; cbn in Hrow; [|done].
        injection Hrow as <-. cbn. destruct (Hsub sub_id old E) as (? & ? & ?).
        split; [done|]. split; [done|]. revert Hst. rewrite !elem_of_cons. tauto.
      * rewrite lookup_alter_ne in Hrow by done. by eapply Hsub.
Qed.

(** What one update does to the database. *)
Lemma deliver_statements cfg s e :
  (statements (Menu.new_acts s (deliver cfg s e)) = []
   ∧ Menu.m_db (deliver cfg s e) = Menu.m_db s)
  ∨ ∃ q, statements (Menu.new_acts s (deliver cfg s e)) = [q]
         ∧ checked (Menu.m_db s) q
         ∧ Menu.m_db (deliver cfg s e)
           = apply_statement (now (ev_platform e)) q (Menu.m_db s).
Proof.
  unfold deliver. destruct (ev_update e) as [u|data|data].
  - rewrite new_acts_lift.
    destruct (handle_statements cfg (ev_platform e) (ev_user e) u (Menu.to_world s))
      as [[H1 H2]|(q & H1 & H2 & H3)].
    + left. split; [exact H1|exact H2].
    + right. exists (plain q). split; [exact H1|]. split; [exact H2|exact H3].
  - rewrite new_acts_lift.
    destruct (policy_statements cfg (ev_platform e) (ev_user e) data (Menu.to_world s))
      as [[H1 H2]|(q & H1 & H2 & H3)].
    + left. split; [exact H1|exact H2].
    + right. exists (plain q). split; [exact H1|]. split; [exact H2|exact H3].
  - apply press_statements.
Qed.

Lemma deliver_consistent cfg s e :
  consistent (Menu.m_db s) → consistent (Menu.m_db (deliver cfg s e)).
Proof.
  intros Hc. destruct (deliver_statements cfg s e) as [[_ ->]|(q & _ & Hq & ->)];
    [done|]. by apply consistent_step.
Qed.

Lemma deliver_all_consistent cfg es s :
  consistent (Menu.m_db s) → consistent (Menu.m_db (foldl (deliver cfg) s es)).
Proof.
  revert s. induction es as [|e es IH]; intros s Hc; [done|].
  cbn. apply IH. by apply deliver_consistent.
Qed.

Lemma history_consistent cfg es : consistent (Menu.m_db (history cfg es)).
Proof. apply deliver_all_consistent. apply consistent_empty. Qed.

(** ** Every update, every history *)

(** X18.  Whatever update arrives (a command, a text, a media message or
    any button), from whichever user and however the platform answers,
    its handler commits at most one statement; the database afterwards
    is the database before with exactly the committed statements applied,
    so nothing changes it behind the log; and each committed statement
    was checked against the database the update found: its channel is
    bound, a status is only set on a pending submission, a moderation
    flag is 0 or 1 and a reviewer mode is one of the three. *)
Theorem update_commits_once cfg s e :
  (length (statements (Menu.new_acts s (deliver cfg s e))) ≤ 1)%nat
  ∧ Menu.m_db (deliver cfg s e)
    = foldl (fun d q => apply_statement (now (ev_platform e)) q d) (Menu.m_db s)
            (statements (Menu.new_acts s (deliver cfg s e)))
  ∧ Forall (checked (Menu.m_db s)) (statements (Menu.new_acts s (deliver cfg s e))).
Proof.
  destruct (deliver_statements cfg s e) as [[-> ->]|(q & -> & Hq & ->)].
  - split; [cbn; lia|]. split; [done|constructor].
  - split; [cbn; lia|]. split; [done|]. by repeat constructor.
Qed.

(** X19.  The tables stay consistent with each other.  If every channel
    has a moderation flag of 0 or 1 and one of the three reviewer modes,
    every deeplink and every reviewer entry belongs to a bound channel,
    and every submission has a positive [id], a bound channel and one of
    the three statuses, then the same holds after any sequence of
    updates. *)
Theorem tables_stay_consistent cfg es s :
  consistent (Menu.m_db s) →
  consistent (Menu.m_db (foldl (deliver cfg) s es)).
Proof. apply deliver_all_consistent. Qed.

(** From the fresh database: a user accepts the policy, binds a channel
    and turns its reviewer mode once. *)
Lemma tables_stay_consistent_witness :
  consistent
    (Menu.m_db
       (foldl (deliver example_cfg) (Menu.of_world initial_world)
              [ {| ev_platform := example_env; ev_user := 10;
                   ev_update := policy_button policy_accept |};
                {| ev_platform := example_env; ev_user := 10;
                   ev_update := menu_button Menu.ctl_bind |};
                {| ev_platform := example_env; ev_user := 10;
                   ev_update := gated (upd_text "@gossip") |};
                {| ev_platform := example_env; ev_user := 10;
                   ev_update := menu_button (Menu.ch_reviewers_mode (-1001234567)) |} ])).
Proof.
  apply tables_stay_consistent.
  split; intros *; cbn; rewrite lookup_empty; done.
Defined.

(** X20.  The reviewer mode stored for a channel is always one the mode
    button knows.  After any history that starts from the fresh database,
    the mode of every bound channel is "owner", "admins" or "selected",
    so the lookup [order.index(cur)] of the button finds it instead of
    raising [ValueError], and the mode the button would store is again
    one of the three. *)
Theorem stored_mode_is_listed cfg es chat_id row :
  get_channel_by_chat_id (Menu.m_db (history cfg es)) chat_id = Some row →
  reviewers_mode row ∈ ["owner"; "admins"; "selected"]
  ∧ ∃ m, Menu.next_mode (reviewers_mode row) = Some m
         ∧ m ∈ ["owner"; "admins"; "selected"].
Proof.
  intros Hrow.
  destruct (settings_known _ (history_consistent cfg es) _ row Hrow) as [_ Hm].
  split; [exact Hm|].
  revert Hm. rewrite !elem_of_cons, elem_of_nil.
  intros [->|[->|[->|[]]]]; eexists; (split; [reflexivity|]);
    rewrite !elem_of_cons; auto.
Qed.

(** From the fresh database: user 10 accepts the policy, binds a channel
    and turns its reviewer mode once, to "admins", which the next press
    finds. *)
Lemma stored_mode_is_listed_witness :
  let es := [ {| ev_platform := example_env; ev_user := 10;
                 ev_update := policy_button policy_accept |};
              {| ev_platform := example_env; ev_user := 10;
                 ev_update := menu_button Menu.ctl_bind |};
              {| ev_platform := example_env; ev_user := 10;
                 ev_update := gated (upd_text "@gossip") |};
              {| ev_platform := example_env; ev_user := 10;
                 ev_update := menu_button (Menu.ch_reviewers_mode (-1001234567)) |} ] in
  ∃ row, get_channel_by_chat_id (Menu.m_db (history example_cfg es)) (-1001234567) = Some row
         ∧ reviewers_mode row = "admins"
         ∧ reviewers_mode row ∈ ["owner"; "admins"; "selected"]
         ∧ ∃ m, Menu.next_mode (reviewers_mode row) = Some m
                ∧ m ∈ ["owner"; "admins"; "selected"].
Proof.
  intros es.
  assert (∃ row, get_channel_by_chat_id (Menu.m_db (history example_cfg es)) (-1001234567)
                 = Some row ∧ reviewers_mode row = "admins") as (row & Hrow & Hmode).
  { eexists. split; vm_compute; reflexivity. }
  exists row. split; [exact Hrow|]. split; [exact Hmode|].
  exact (stored_mode_is_listed example_cfg es (-1001234567) row Hrow).
Defined.

(** ** The menu, branch by branch *)

Lemma press_stopped cfg env uid data s :
  ¬ Menu.consents cfg s uid →
  Menu.press cfg env uid data s
  = Menu.logged s (map Menu.base (if uid =? 0 then [] else policy_prompt cfg env)).
Proof.
  intros Hn. destruct data.
  all: try (unfold Menu.press, Menu.run; cbv beta iota delta [Menu.on_menu];
            unfold Menu.mbind at 1; rewrite (menu_gate_closed _ _ _ _ Hn);
            reflexivity).
  (* the link branch *)
  assert (on_menu_ch_link cfg env uid chat_id (Menu.to_world s)
          = (tt, log (Menu.to_world s) (if uid =? 0 then [] else policy_prompt cfg env)))
    as E.
  { unfold on_menu_ch_link. unfold bind at 1.
    rewrite (gate_closed cfg env uid (Menu.to_world s) Hn). reflexivity. }
  unfold Menu.press, Menu.run. cbv beta iota delta [Menu.on_menu].
  unfold Menu.mbind, Menu.mret, Menu.lift. cbn [fst snd]. rewrite E. reflexivity.
Qed.

(** X21.  The menu is behind the consent gate as a whole: whatever button
    a user who has not accepted the current policy presses, the database
    and the in-memory state stay as they are, and all the user gets is
    the policy (nothing for user id 0). *)
Theorem menu_is_gated cfg env uid data s :
  ¬ Menu.consents cfg s uid →
  Menu.m_db (Menu.press cfg env uid data s) = Menu.m_db s
  ∧ Menu.m_users (Menu.press cfg env uid data s) = Menu.m_users s
  ∧ Menu.new_acts s (Menu.press cfg env uid data s)
    = map Menu.base (if uid =? 0 then [] else policy_prompt cfg env).
Proof.
  intros Hn. rewrite (press_stopped _ _ _ _ _ Hn).
  split; [done|]. split; [done|]. apply new_acts_logged.
Qed.

Lemma menu_is_gated_witness :
  Menu.m_db (Menu.press example_cfg example_env example_stranger
                        (Menu.ch_toggle (-1001234567)) (Menu.of_world example_world))
  = example_db.
Proof.
  apply (menu_is_gated example_cfg example_env example_stranger
                          (Menu.ch_toggle (-1001234567)) (Menu.of_world example_world)).
  intros [_ H]. vm_compute in H. discriminate.
Defined.

(** X22.  The settings of a channel belong to its owner.  When a consenting
    user who is not the owner of the channel (or names a channel that is
    not bound) presses a button that shows or changes its settings (open,
    toggle moderation, change the reviewer mode, manage, add or remove
    reviewers), the database and the in-memory state stay as they are and
    the press is answered with a refusal only. *)
Theorem settings_are_owner_only cfg env uid data chat_id s :
  Menu.consents cfg s uid →
  Menu.settings_of data = Some chat_id →
  Menu.is_owner (Menu.m_db s) chat_id uid = false →
  Menu.m_db (Menu.press cfg env uid data s) = Menu.m_db s
  ∧ Menu.m_users (Menu.press cfg env uid data s) = Menu.m_users s
  ∧ ∃ refusal, refusal ∈ Menu.refusals
               ∧ Menu.new_acts s (Menu.press cfg env uid data s)
                 = [Menu.base (answer None); refusal].
Proof.
  intros Hc Hd Hown. unfold Menu.is_owner in Hown.
  cut (∃ refusal, refusal ∈ Menu.refusals
                  ∧ Menu.press cfg env uid data s
                    = Menu.logged s [Menu.base (answer None); refusal]).
  { intros (r & Hr & ->). split; [done|]. split; [done|]. exists r.
    split; [done|]. apply new_acts_logged. }
  destruct data; try discriminate Hd; injection Hd as ->.
  all: menu_enter Hc; menu_m; unfold Menu.is_owner.
  all: destruct (get_channel_by_chat_id (Menu.m_db s) chat_id) as [row|];
    [rewrite Hown|]; menu_m; tidy.
  all: eexists; (split; [|reflexivity]);
    unfold Menu.refusals; rewrite !elem_of_cons; tauto.
Qed.

Lemma settings_are_owner_only_witness :
  Menu.m_db (Menu.press example_cfg example_env 20 (Menu.ch_toggle (-1001234567))
                        (Menu.of_world example_world))
  = example_db.
Proof.
  apply (settings_are_owner_only example_cfg example_env 20
           (Menu.ch_toggle (-1001234567)) (-1001234567) (Menu.of_world example_world)).
  - split; [lia|]. vm_compute. reflexivity.
  - reflexivity.
  - vm_compute. reflexivity.
Defined.

(** X23.  The moderation queue is for moderators.  When a consenting user
    who may not moderate a channel asks for its queue, for a page of it or
    for an item through it, the database and the in-memory state stay as
    they are and the press is answered with "no access" only. *)
Theorem queue_needs_moderator cfg env uid data chat_id s :
  Menu.consents cfg s uid →
  Menu.queue_of data = Some chat_id →
  can_moderate env (Menu.m_db s) chat_id uid = false →
  Menu.press cfg env uid data s
  = Menu.logged s [Menu.base (answer None); Menu.base (answer (Some "Нет доступа"))].
Proof.
  intros Hc Hd Hcan.
  destruct data; try discriminate Hd; injection Hd as ->.
  all: menu_enter Hc; menu_m; rewrite Hcan; menu_m; tidy; reflexivity.
Qed.

Lemma queue_needs_moderator_witness :
  Menu.press example_cfg example_env 20 (Menu.q_open (-1001234567) 1)
             (Menu.of_world example_world)
  = Menu.logged (Menu.of_world example_world)
                [Menu.base (answer None); Menu.base (answer (Some "Нет доступа"))].
Proof.
  apply (queue_needs_moderator example_cfg example_env 20 (Menu.q_open (-1001234567) 1)
           (-1001234567) (Menu.of_world example_world)).
  - split; [lia|]. vm_compute. reflexivity.
  - reflexivity.
  - vm_compute. reflexivity.
Defined.

(** ** Settings of a channel *)

Section Settings.
Variables (cfg : config) (env : platform) (uid chat_id : Z) (row : channel_row)
          (s : Menu.state).
Hypothesis Hgate : Menu.consents cfg s uid.
Hypothesis Hrow : get_channel_by_chat_id (Menu.m_db s) chat_id = Some row.
Hypothesis Hown : owner_user_id row = uid.

Lemma press_toggle :
  Menu.press cfg env uid (Menu.ch_toggle chat_id) s
  = {| Menu.m_db :=
         set_channel_moderation chat_id (if moderation row =? 1 then 0 else 1) (Menu.m_db s);
       Menu.m_users := Menu.m_users s;
       Menu.m_trace := Menu.m_trace s
         ++ [ Menu.base (answer None);
              Menu.commit_moderation chat_id (if moderation row =? 1 then 0 else 1);
              Menu.edit_reply_markup
                (UI.channel_controls chat_id (if moderation row =? 1 then 0 else 1)
                                     (reviewers_mode row));
              Menu.answer_text "Готово";
              Menu.base (event_log ("Модерация переключена: channel=" +:+ PyStr.str chat_id
                                    +:+ ", moderation="
                                    +:+ PyStr.str (if moderation row =? 1 then 0 else 1))) ] |}.
Proof.
  menu_enter Hgate. menu_m. rewrite Hrow, Hown, Z.eqb_refl. menu_m. tidy. reflexivity.
Qed.

Lemma press_reviewers_mode new_mode :
  Menu.next_mode (reviewers_mode row) = Some new_mode →
  Menu.press cfg env uid (Menu.ch_reviewers_mode chat_id) s
  = {| Menu.m_db := set_reviewers_mode chat_id new_mode (Menu.m_db s);
       Menu.m_users := Menu.m_users s;
       Menu.m_trace := Menu.m_trace s
         ++ [ Menu.base (answer None);
              Menu.commit_reviewers_mode chat_id new_mode;
              Menu.edit_reply_markup (UI.channel_controls chat_id (moderation row) new_mode);
              Menu.answer_text "Готово";
              Menu.base (event_log ("Режим проверяющих изменён: channel="
                                    +:+ PyStr.str chat_id +:+ ", mode=" +:+ new_mode)) ] |}.
Proof.
  intros Hnext. menu_enter Hgate. menu_m. rewrite Hrow, Hown, Z.eqb_refl, Hnext.
  menu_m. tidy. reflexivity.
Qed.

Lemma press_dialogue (add : bool) :
  Menu.press cfg env uid (if add then Menu.rv_add chat_id else Menu.rv_del chat_id) s
  = {| Menu.m_db := Menu.m_db s;
       Menu.m_users :=
         <[uid := set_rv_chat_id (Some chat_id)
                    (set_mode (Some (if add then "rv_add_wait" else "rv_del_wait"))
                              (Menu.user s uid))]> (Menu.m_users s);
       Menu.m_trace := Menu.m_trace s
         ++ [ Menu.base (answer None);
              Menu.edit_text (if add then "Пришли user_id, которого добавить в проверяющие."
                              else "Пришли user_id, которого удалить из проверяющих.")
                             (UI.reviewers_manage_kb chat_id) ] |}.
Proof.
  destruct add; menu_enter Hgate; menu_m; unfold Menu.is_owner;
    rewrite Hrow, Hown, Z.eqb_refl; menu_m; tidy; reflexivity.
Qed.
End Settings.

Lemma set_channel_moderation_back chat_id v row d :
  get_channel_by_chat_id d chat_id = Some row →
  set_channel_moderation chat_id (moderation row) (set_channel_moderation chat_id v d) = d.
Proof.
  unfold get_channel_by_chat_id, set_channel_moderation. intros Hrow.
  destruct d as [uc ch dl rv sb]. cbn in *. f_equal.
  apply map_eq. intros i. destruct (decide (i = chat_id)) as [->|Hne].
  - rewrite !lookup_alter_eq, Hrow. cbn. by destruct row.
  - by rewrite !lookup_alter_ne.
Qed.

Lemma set_reviewers_mode_same chat_id row d :
  get_channel_by_chat_id d chat_id = Some row →
  set_reviewers_mode chat_id (reviewers_mode row) d = d.
Proof.
  unfold get_channel_by_chat_id, set_reviewers_mode. intros Hrow.
  destruct d as [uc ch dl rv sb]. cbn in *. f_equal.
  apply map_eq. intros i. destruct (decide (i = chat_id)) as [->|Hne].
  - rewrite !lookup_alter_eq, Hrow. cbn. by destruct row.
  - by rewrite !lookup_alter_ne.
Qed.

Lemma set_reviewers_mode_twice chat_id m m' d :
  set_reviewers_mode chat_id m' (set_reviewers_mode chat_id m d)
  = set_reviewers_mode chat_id m' d.
Proof.
  unfold set_reviewers_mode. destruct d as [uc ch dl rv sb]. cbn. f_equal.
  apply map_eq. intros i. destruct (decide (i = chat_id)) as [->|Hne].
  - rewrite !lookup_alter_eq. by destruct (ch !! chat_id).
  - by rewrite !lookup_alter_ne.
Qed.

(** X24.  The owner toggles moderation.  The channel's moderation flag
    becomes 0 if it was 1 and 1 otherwise; its name, owner and reviewer
    mode, every other channel and every other table stay as they are, and
    so does the in-memory state; a second press restores a flag that was
    0 or 1, and with it the whole database. *)
Theorem toggle_flips_moderation cfg env uid chat_id row s :
  Menu.consents cfg s uid →
  get_channel_by_chat_id (Menu.m_db s) chat_id = Some row →
  owner_user_id row = uid →
  let s' := Menu.press cfg env uid (Menu.ch_toggle chat_id) s in
  get_channel_by_chat_id (Menu.m_db s') chat_id
  = Some {| username := username row; owner_user_id := uid;
            moderation := (if moderation row =? 1 then 0 else 1);
            reviewers_mode := reviewers_mode row; ch_created_at := ch_created_at row |}
  ∧ (∀ c, c ≠ chat_id →
          get_channel_by_chat_id (Menu.m_db s') c = get_channel_by_chat_id (Menu.m_db s) c)
  ∧ user_consents (Menu.m_db s') = user_consents (Menu.m_db s)
  ∧ deeplinks (Menu.m_db s') = deeplinks (Menu.m_db s)
  ∧ channel_reviewers (Menu.m_db s') = channel_reviewers (Menu.m_db s)
  ∧ submissions (Menu.m_db s') = submissions (Menu.m_db s)
  ∧ Menu.m_users s' = Menu.m_users s
  ∧ (moderation row = 0 ∨ moderation row = 1 →
     Menu.m_db (Menu.press cfg env uid (Menu.ch_toggle chat_id) s') = Menu.m_db s).
Proof.
  intros Hc Hrow Hown s'.
  pose proof (press_toggle cfg env uid chat_id row s Hc Hrow Hown) as Hs'.
  fold s' in Hs'.
  assert (get_channel_by_chat_id (Menu.m_db s') chat_id
          = Some {| username := username row; owner_user_id := uid;
                    moderation := (if moderation row =? 1 then 0 else 1);
                    reviewers_mode := reviewers_mode row;
                    ch_created_at := ch_created_at row |}) as Hrow'.
  { rewrite Hs'. unfold get_channel_by_chat_id in *. cbn.
    rewrite lookup_alter_eq, Hrow. cbn. by rewrite Hown. }
  assert (Menu.consents cfg s' uid) as Hc' by (rewrite Hs'; exact Hc).
  split; [exact Hrow'|].
  split.
  { intros c Hne. rewrite Hs'. unfold get_channel_by_chat_id. cbn.
    by rewrite lookup_alter_ne. }
  do 5 (split; [by rewrite Hs'|]).
  intros Hflag.
  rewrite (press_toggle cfg env uid chat_id _ s' Hc' Hrow' eq_refl).
  cbn [Menu.m_db moderation]. rewrite Hs'. cbn [Menu.m_db].
  replace (if (if moderation row =? 1 then 0 else 1) =? 1 then 0 else 1)
    with (moderation row) by (destruct Hflag as [-> | ->]; reflexivity).
  by apply set_channel_moderation_back.
Qed.

(** The owner of the example channel switches moderation off and on. *)
Lemma toggle_flips_moderation_witness :
  let s := Menu.of_world example_world in
  let s' := Menu.press example_cfg example_env 10 (Menu.ch_toggle (-1001234567)) s in
  get_channel_by_chat_id (Menu.m_db s') (-1001234567)
  = Some {| username := Some "gossip"; owner_user_id := 10; moderation := 0;
            reviewers_mode := "owner"; ch_created_at := "t2" |}
  ∧ Menu.m_db (Menu.press example_cfg example_env 10 (Menu.ch_toggle (-1001234567)) s')
    = example_db.
Proof.
  intros s s'.
  destruct (toggle_flips_moderation example_cfg example_env 10 (-1001234567)
              {| username := Some "gossip"; owner_user_id := 10; moderation := 1;
                 reviewers_mode := "owner"; ch_created_at := "t2" |} s)
    as (H1 & _ & _ & _ & _ & _ & _ & H8).
  - split; [lia|]. vm_compute. reflexivity.
  - vm_compute. reflexivity.
  - reflexivity.
  - split; [exact H1|]. apply H8. by right.
Defined.

(** X25.  The owner turns the reviewer mode.  Each press moves the mode of
    the channel one step along owner, admins, selected and back to owner,
    and three presses bring back the database the first one found. *)
Theorem reviewers_mode_cycles cfg env uid chat_id row s :
  Menu.consents cfg s uid →
  get_channel_by_chat_id (Menu.m_db s) chat_id = Some row →
  owner_user_id row = uid →
  reviewers_mode row ∈ ["owner"; "admins"; "selected"] →
  let press := Menu.press cfg env uid (Menu.ch_reviewers_mode chat_id) in
  (∃ row', get_channel_by_chat_id (Menu.m_db (press s)) chat_id = Some row'
           ∧ (reviewers_mode row, reviewers_mode row')
             ∈ [("owner", "admins"); ("admins", "selected"); ("selected", "owner")]
           ∧ moderation row' = moderation row ∧ owner_user_id row' = uid)
  ∧ Menu.m_users (press s) = Menu.m_users s
  ∧ Menu.m_db (press (press (press s))) = Menu.m_db s.
Proof.
  intros Hc Hrow Hown Hmode press.
  assert (∀ s0 row0 m1,
            Menu.consents cfg s0 uid →
            get_channel_by_chat_id (Menu.m_db s0) chat_id = Some row0 →
            owner_user_id row0 = uid →
            Menu.next_mode (reviewers_mode row0) = Some m1 →
            Menu.consents cfg (press s0) uid
            ∧ Menu.m_db (press s0) = set_reviewers_mode chat_id m1 (Menu.m_db s0)
            ∧ Menu.m_users (press s0) = Menu.m_users s0
            ∧ get_channel_by_chat_id (Menu.m_db (press s0)) chat_id
              = Some {| username := username row0; owner_user_id := owner_user_id row0;
                        moderation := moderation row0; reviewers_mode := m1;
                        ch_created_at := ch_created_at row0 |}) as Hstep.
  { intros s0 row0 m1 Hc0 Hrow0 Hown0 Hnext. subst press. cbv beta.
    rewrite (press_reviewers_mode _ _ _ _ row0 _ Hc0 Hrow0 Hown0 m1 Hnext).
    split; [exact Hc0|]. split; [reflexivity|]. split; [reflexivity|].
    unfold get_channel_by_chat_id in *. cbn. by rewrite lookup_alter_eq, Hrow0. }
  assert (∃ m1 m2,
            Menu.next_mode (reviewers_mode row) = Some m1
            ∧ Menu.next_mode m1 = Some m2
            ∧ Menu.next_mode m2 = Some (reviewers_mode row)
            ∧ (reviewers_mode row, m1)
              ∈ [("owner", "admins"); ("admins", "selected"); ("selected", "owner")])
    as (m1 & m2 & H1 & H2 & H3 & Hpair).
  { revert Hmode. rewrite !elem_of_cons, elem_of_nil.
    intros [->|[->|[->|[]]]]; do 2 eexists;
      (split; [reflexivity|]); (split; [reflexivity|]); (split; [reflexivity|]);
      rewrite !elem_of_cons; tauto. }
  destruct (Hstep s row m1 Hc Hrow Hown H1) as (Hc1 & Hdb1 & Hu1 & Hrow1).
  destruct (Hstep (press s) _ m2 Hc1 Hrow1 Hown H2) as (Hc2 & Hdb2 & _ & Hrow2).
  destruct (Hstep (press (press s)) _ _ Hc2 Hrow2 Hown H3) as (_ & Hdb3 & _ & _).
  split; [|split; [exact Hu1|]].
  - eexists. split; [exact Hrow1|]. cbn. done.
  - rewrite Hdb3, Hdb2, Hdb1, !set_reviewers_mode_twice.
    by apply set_reviewers_mode_same.
Qed.

Lemma reviewers_mode_cycles_witness :
  let press := Menu.press example_cfg example_env 10 (Menu.ch_reviewers_mode (-1001234567)) in
  Menu.m_db (press (press (press (Menu.of_world example_world)))) = example_db.
Proof.
  intros press.
  apply (reviewers_mode_cycles example_cfg example_env 10 (-1001234567)
           {| username := Some "gossip"; owner_user_id := 10; moderation := 1;
              reviewers_mode := "owner"; ch_created_at := "t2" |}
           (Menu.of_world example_world)).
  - split; [lia|]. vm_compute. reflexivity.
  - vm_compute. reflexivity.
  - reflexivity.
  - apply list_elem_of_here.
Defined.

(** ** Opening an item of the queue *)




(** ** From the menu into a dialogue, and out of it *)

Lemma press_menu_back cfg env uid s :
  Menu.consents cfg s uid →
  Menu.press cfg env uid Menu.menu_back s
  = {| Menu.m_db := Menu.m_db s;
       Menu.m_users := <[uid := cleared (Menu.user s uid)]> (Menu.m_users s);
       Menu.m_trace := Menu.m_trace s
         ++ [Menu.base (answer None); Menu.edit_text "Меню:" UI.main_menu] |}.
Proof. intros Hc. menu_enter Hc. menu_m. tidy. reflexivity. Qed.

(** X27.  The reviewer dialogue, from the button to the list.  When the
    owner of a channel presses "add" under its reviewers and then sends a
    number (digits that [int] converts to a number SQLite can store, a
    64-bit signed integer), the handler returns and that user id is on
    the channel's allow-list; when the owner presses "remove" and sends
    the number, it is not; either way the dialogue is closed afterwards. *)
Theorem reviewers_edited_through_menu cfg env env' uid chat_id row (add : bool) t target s :
  Menu.consents cfg s uid →
  get_channel_by_chat_id (Menu.m_db s) chat_id = Some row →
  owner_user_id row = uid →
  PyStr.int_of_digits (PyStr.strip t) = Some target →
  sqlite_int target = true →
  let s1 := Menu.press cfg env uid
                       (if add then Menu.rv_add chat_id else Menu.rv_del chat_id) s in
  let w2 := run (on_text cfg env' uid t) (world_of s1) in
  result (on_text cfg env' uid t) (world_of s1) = Returned tt
  ∧ (in_allowlist (db w2) chat_id target ↔ add = true)
  ∧ mode (state_of w2 uid) = None
  ∧ rv_chat_id (state_of w2 uid) = None.
Proof.
  intros Hc Hrow Hown Hint Hfit s1 w2.
  pose proof (press_dialogue cfg env uid chat_id row s Hc Hrow Hown add) as Hs1.
  fold s1 in Hs1.
  assert (consented cfg (world_of s1) uid) as Hc1 by (rewrite Hs1; exact Hc).
  assert (state_of (world_of s1) uid
          = set_rv_chat_id (Some chat_id)
              (set_mode (Some (if add then "rv_add_wait" else "rv_del_wait"))
                        (Menu.user s uid))) as Hst.
  { rewrite Hs1. unfold world_of, Menu.to_world, state_of. cbn.
    apply state_in_insert. }
  assert (rv_chat_or_0 (state_of (world_of s1) uid) = chat_id) as Hchat
    by (rewrite Hst; reflexivity).
  assert (get_channel_by_chat_id (db (world_of s1))
                                 (rv_chat_or_0 (state_of (world_of s1) uid)) = Some row)
    as Hrow1 by (rewrite Hchat, Hs1; exact Hrow).
  subst w2. unfold run, result. destruct add.
  - rewrite (on_text_rv_add cfg env' uid t (world_of s1) Hc1 row Hrow1 Hown target)
      by (rewrite ?Hst; done).
    cbn [fst snd]. rewrite Hchat, !state_of_updated. cbn [db].
    split; [done|]. split; [|done].
    split; [done|intros _]. unfold in_allowlist, add_reviewer. cbn [channel_reviewers].
    match goal with
    | |- is_Some (match ?x with _ => _ end !! _) => destruct x eqn:E
    end; [by rewrite E|by rewrite lookup_insert_eq].
  - rewrite (on_text_rv_del cfg env' uid t (world_of s1) Hc1 row Hrow1 Hown target)
      by (rewrite ?Hst; done).
    cbn [fst snd]. rewrite Hchat, !state_of_updated. cbn [db].
    split; [done|]. split; [|done].
    split; [|done]. unfold in_allowlist, remove_reviewer. cbn.
    rewrite lookup_delete_eq. by intros [? ?].
Qed.

(** The owner of the example channel adds user 30 from the menu, typing
    the number in Arabic-Indic digits. *)
Lemma reviewers_edited_through_menu_witness :
  let s1 := Menu.press example_cfg example_env 10 (Menu.rv_add (-1001234567))
                       (Menu.of_world example_world) in
  let w2 := run (on_text example_cfg example_env 10 "٣٠") (world_of s1) in
  result (on_text example_cfg example_env 10 "٣٠") (world_of s1) = Returned tt
  ∧ in_allowlist (db w2) (-1001234567) 30
  ∧ mode (state_of w2 10) = None.
Proof.
  intros s1 w2.
  destruct (reviewers_edited_through_menu example_cfg example_env example_env 10
              (-1001234567)
              {| username := Some "gossip"; owner_user_id := 10; moderation := 1;
                 reviewers_mode := "owner"; ch_created_at := "t2" |}
              true "٣٠" 30 (Menu.of_world example_world)) as (H1 & H2 & H3 & _).
  - split; [lia|]. vm_compute. reflexivity.
  - vm_compute. reflexivity.
  - reflexivity.
  - vm_compute. reflexivity.
  - reflexivity.
  - split; [exact H1|]. split; [by apply H2|exact H3].
Defined.

(** X28.  "Back to the menu" leaves every dialogue.  Whatever the user was
    asked for before (a channel to send to, a channel to bind, a reviewer
    to add or remove, a content to confirm), once the user has pressed
    "back to the menu" a text is no answer to it: the database stays as it
    is, the text is answered with the hint to start over, and the user has
    no mode, no selected channel and no pending content. *)
Theorem back_leaves_dialogue cfg env env' uid t s :
  Menu.consents cfg s uid →
  let s1 := Menu.press cfg env uid Menu.menu_back s in
  let w2 := run (on_text cfg env' uid t) (world_of s1) in
  db w2 = Menu.m_db s
  ∧ new_actions (world_of s1) w2
    = [reply_text "Нажми /start и выбери действие." (Some main_menu)]
  ∧ state_of w2 uid = cleared (Menu.user s uid).
Proof.
  intros Hc s1 w2.
  pose proof (press_menu_back cfg env uid s Hc) as Hs1. fold s1 in Hs1.
  assert (consented cfg (world_of s1) uid) as Hc1 by (rewrite Hs1; exact Hc).
  assert (state_of (world_of s1) uid = cleared (Menu.user s uid)) as Hst.
  { rewrite Hs1. unfold world_of, Menu.to_world, state_of. cbn.
    apply state_in_insert. }
  subst w2.
  rewrite (on_text_no_channel cfg env' uid t (world_of s1) Hc1)
    by (rewrite Hst; cbn; auto).
  rewrite new_actions_app, state_of_updated, Hst. cbn [db].
  split; [by rewrite Hs1|done].
Qed.

(** The owner was about to add a reviewer, goes back and types a number. *)
Lemma back_leaves_dialogue_witness :
  let s1 := Menu.press example_cfg example_env 10 Menu.menu_back
                       (Menu.of_world (example_world_reviewers "rv_add_wait")) in
  let w2 := run (on_text example_cfg example_env 10 "30") (world_of s1) in
  db w2 = db (example_world_reviewers "rv_add_wait")
  ∧ ¬ in_allowlist (db w2) (-1001234567) 30.
Proof.
  intros s1 w2.
  destruct (back_leaves_dialogue example_cfg example_env example_env 10 "30"
              (Menu.of_world (example_world_reviewers "rv_add_wait"))) as (H1 & _ & _).
  - split; [lia|]. vm_compute. reflexivity.
  - split; [exact H1|]. subst w2 s1. rewrite H1. intros [? H]. vm_compute in H.
    discriminate.
Defined.

(** ** "My channels" *)

Lemma by_chat_id_trans : Transitive by_chat_id.
Proof. intros a b c. unfold by_chat_id. lia. Qed.

Lemma by_chat_id_total : Total by_chat_id.
Proof. intros a b. unfold by_chat_id. lia. Qed.

Lemma channels_by_owner_elem d owner kv :
  kv ∈ get_channels_by_owner d owner
  ↔ channels d !! kv.1 = Some kv.2 ∧ owner_user_id kv.2 = owner.
Proof.
  unfold get_channels_by_owner. rewrite merge_sort_Permutation, list_elem_of_filter.
  destruct kv as [k v]. rewrite elem_of_map_to_list. cbn. tauto.
Qed.

Lemma strictly_up (l : list (Z * channel_row)) :
  StronglySorted by_chat_id l → NoDup l.*1 → StronglySorted Z.lt l.*1.
Proof.
  induction 1 as [|a l Hs IH Ha]; cbn; intros Hn; [constructor|].
  apply NoDup_cons in Hn as [Hna Hn]. constructor; [by apply IH|].
  apply Forall_fmap, Forall_forall. intros b Hb. cbn.
  rewrite Forall_forall in Ha. specialize (Ha b Hb). unfold by_chat_id in Ha.
  assert (b.1 ≠ a.1); [|lia].
  intros E. apply Hna. rewrite <- E. by apply list_elem_of_fmap_2.
Qed.

Lemma channels_by_owner_sorted d owner :
  StronglySorted Z.lt (get_channels_by_owner d owner).*1.
Proof.
  apply strictly_up.
  - apply StronglySorted_merge_sort; [apply by_chat_id_trans|apply by_chat_id_total].
  - unfold get_channels_by_owner. rewrite merge_sort_Permutation.
    eapply sublist_NoDup; [apply (NoDup_fst_map_to_list (channels d))|].
    apply fmap_sublist, sublist_filter.
Qed.

Lemma channel_buttons_data (l : list (Z * channel_row)) :
  button_data (map Menu.channel_button l ++ [[("⬅️ Назад", "menu_control")]])
  = map (fun c => Menu.wire (Menu.ch_open c)) l.*1 ++ ["menu_control"].
Proof.
  unfold button_data. induction l as [|kv l IH]; [reflexivity|].
  cbn [map app concat fmap list_fmap]. cbn [Menu.channel_button app fmap list_fmap snd fst].
  f_equal. exact IH.
Qed.

(** X29.  "My channels" lists the presser's channels and no others.  The
    keyboard shown has one button for each channel the user owns, in the
    order of their chat ids and each leading to that channel's settings,
    and then the button back; with no channel owned, the control menu is
    shown instead.  The database and the in-memory state stay as they
    are. *)
Theorem my_channels_lists_owned cfg env uid s :
  Menu.consents cfg s uid →
  let s' := Menu.press cfg env uid Menu.ctl_list s in
  Menu.m_db s' = Menu.m_db s
  ∧ Menu.m_users s' = Menu.m_users s
  ∧ ∃ text kb chats,
      Menu.new_acts s s' = [Menu.base (answer None); Menu.edit_text text kb]
      ∧ (∀ c, c ∈ chats ↔ Menu.is_owner (Menu.m_db s) c uid = true)
      ∧ StronglySorted Z.lt chats
      ∧ ((chats = [] ∧ kb = UI.control_menu)
         ∨ (chats ≠ []
            ∧ button_data kb
              = map (fun c => Menu.wire (Menu.ch_open c)) chats ++ ["menu_control"])).
Proof.
  intros Hc s'.
  assert (∀ c, c ∈ (get_channels_by_owner (Menu.m_db s) uid).*1
               ↔ Menu.is_owner (Menu.m_db s) c uid = true) as Hchats.
  { intros c. unfold Menu.is_owner, get_channel_by_chat_id. rewrite list_elem_of_fmap.
    split.
    - intros ([k v] & -> & Hkv). apply channels_by_owner_elem in Hkv as [Hrow Hown].
      cbn in *. rewrite Hrow. by apply Z.eqb_eq.
    - destruct (channels (Menu.m_db s) !! c) as [row|] eqn:Hrow; [|done].
      intros Hown%Z.eqb_eq. exists (c, row). split; [done|].
      by apply channels_by_owner_elem. }
  pose proof (channels_by_owner_sorted (Menu.m_db s) uid) as Hsorted.
  assert (∀ s0, s' = s0 →
                Menu.m_db s0 = Menu.m_db s
                ∧ Menu.m_users s0 = Menu.m_users s
                ∧ ∃ text kb chats,
                    Menu.new_acts s s0 = [Menu.base (answer None); Menu.edit_text text kb]
                    ∧ (∀ c, c ∈ chats ↔ Menu.is_owner (Menu.m_db s) c uid = true)
                    ∧ StronglySorted Z.lt chats
                    ∧ ((chats = [] ∧ kb = UI.control_menu)
                       ∨ (chats ≠ []
                          ∧ button_data kb
                            = map (fun c => Menu.wire (Menu.ch_open c)) chats
                              ++ ["menu_control"]))) as H;
    [|by apply H].
  intros s0. subst s'. menu_enter Hc. menu_m.
  destruct (get_channels_by_owner (Menu.m_db s) uid) as [|kv l] eqn:E; menu_m;
    intros <-; tidy; rewrite new_acts_app; (do 2 (split; [done|])).
  - exists "У тебя нет привязанных каналов.", UI.control_menu, [].
    split; [done|]. split; [exact Hchats|]. split; [constructor|]. by left.
  - eexists _, _, ((kv :: l).*1). split; [reflexivity|]. split; [exact Hchats|].
    split; [exact Hsorted|]. right. split; [done|].
    apply (channel_buttons_data (kv :: l)).
Qed.

Lemma my_channels_lists_owned_witness :
  let s := Menu.of_world example_world in
  ∃ text kb,
    Menu.new_acts s (Menu.press example_cfg example_env 10 Menu.ctl_list s)
    = [Menu.base (answer None); Menu.edit_text text kb]
    ∧ button_data kb = ["ch_open:-1001234567"; "menu_control"].
Proof.
  intros s.
  destruct (my_channels_lists_owned example_cfg example_env 10 s)
    as (_ & _ & text & kb & chats & H1 & _ & _ & _).
  - split; [lia|]. vm_compute. reflexivity.
  - exists text, kb. split; [exact H1|].
    vm_compute in H1. injection H1 as _ Hkb. subst kb. vm_compute. reflexivity.
Defined.

(** ** Channel references *)

Lemma handle_visible l : is_handle l = true → Forall visible l.
Proof.
  unfold is_handle. intros [Hw _]%andb_prop.
  apply Forall_forall. intros b Hb.
  rewrite forallb_forall in Hw. apply list_elem_of_In, Hw in Hb.
  unfold PyStr.is_word_char in Hb.
  rewrite !orb_true_iff, !andb_true_iff, !N.leb_le, N.eqb_eq in Hb. unfold visible. lia.
Qed.

(** X30.  Normalising a channel reference twice is normalising it once:
    what [normalize_channel_input] returns is already stripped, and a
    handle that got its "@" keeps it. *)
Theorem normalize_channel_input_idempotent s :
  normalize_channel_input (normalize_channel_input s) = normalize_channel_input s.
Proof.
  unfold normalize_channel_input at 2 3.
  destruct (PyStr.startswith "@" (PyStr.strip s)) eqn:E1.
  { unfold normalize_channel_input. by rewrite strip_idempotent, E1. }
  destruct (PyStr.isdigit (PyStr.strip s)
            || PyStr.startswith "-" (PyStr.strip s)
               && PyStr.isdigit (PyStr.tail (PyStr.strip s))) eqn:E2.
  { unfold normalize_channel_input. by rewrite strip_idempotent, E1, E2. }
  destruct (is_handle (PyStr.bytes_of (PyStr.strip s))) eqn:E3.
  2:{ unfold normalize_channel_input. by rewrite strip_idempotent, E1, E2, E3. }
  unfold normalize_channel_input.
  assert (PyStr.strip ("@" +:+ PyStr.strip s) = "@" +:+ PyStr.strip s) as ->.
  { apply strip_visible. cbn. constructor; [unfold visible; cbn; lia|].
    by apply handle_visible. }
  reflexivity.
Qed.
